(** * model_management: lifecycle entities and their registry

    A shallow embedding of [model_management/model.py] (class [Model], enum
    [ModelStatus]), [model_management/registry.py] (class [ModelRegistry])
    and the commands of [model_management/cli.py], with the properties of
    the lifecycle computation, of construction-time validation, of the
    dictionary round trip, of the registry's add / remove / get / load /
    save operations and of the commands.

    Layout: Python values and exceptions; naive [datetime] objects with
    [isoformat] / [fromisoformat]; JSON values and the text codec of the
    [json] module; the world (the one registry object, the files, the
    wall clock) and the monad the methods run in; the two classes and the
    command line on naive datetimes; module [Tz], the class [Model] and
    the listing by status on datetimes with and without UTC offset; then
    the theorems. *)

From Stdlib Require Import ZArith Ascii String.
From stdpp Require Import base option list strings pretty gmap.

Local Open Scope Z_scope.
Local Set Warnings "-register-all".

(** ** Exceptions and results *)

(** The exceptions the code raises or lets through.  [JSONDecodeError] is a
    subclass of [ValueError] in Python and [FileNotFoundError] one of
    [OSError]; they are kept apart so that a caller can tell them.
    [OutOfModel] is not a Python exception: it marks an input on which the
    typed embedding stops following the code (see [as_str] and
    [json_loads]). *)
Inductive exn : Type :=
  | ValueError (msg : string)
  | KeyError (key : string)
  | TypeError
  | AttributeError
  | FileNotFoundError
  | OSError
  | JSONDecodeError
  | OutOfModel.

Inductive result (A : Type) : Type :=
  | Ok (a : A)
  | Raise (e : exn).
Arguments Ok {A} a.
Arguments Raise {A} e.

Definition is_ok {A} (r : result A) : bool :=
  match r with Ok _ => true | Raise _ => false end.

Global Instance result_ret : MRet result := fun A a => Ok a.
Global Instance result_bind : MBind result := fun A B k r =>
  match r with Ok a => k a | Raise e => Raise e end.

(** ** Naive datetime objects *)

(** A [datetime] without [tzinfo], as [datetime.now()] and
    [datetime.fromisoformat] on an offset-free string build it: seven
    integer fields.  Aware datetimes (with a UTC offset) are objects of
    [Tz.datetime] below: [datetime.fromisoformat] builds one from a text
    with an offset, and comparing one with a naive datetime raises
    [TypeError] in Python. *)
Record datetime : Type := mk_datetime {
  year : Z;
  month : Z;
  day : Z;
  hour : Z;
  minute : Z;
  second : Z;
  microsecond : Z
}.

Global Instance datetime_eq_dec : EqDecision datetime.
Proof. solve_decision. Defined.

(** Lexicographic combination of two comparison results. *)
Definition lex (c1 c2 : comparison) : comparison :=
  match c1 with Eq => c2 | _ => c1 end.

(** [datetime._cmp]: the tuples (year, month, day, hour, minute, second,
    microsecond) compared lexicographically. *)
Definition dt_cmp (a b : datetime) : comparison :=
  lex (Z.compare (year a) (year b))
  (lex (Z.compare (month a) (month b))
  (lex (Z.compare (day a) (day b))
  (lex (Z.compare (hour a) (hour b))
  (lex (Z.compare (minute a) (minute b))
  (lex (Z.compare (second a) (second b))
       (Z.compare (microsecond a) (microsecond b))))))).

(** [a < b] and [a >= b] on datetimes: [_cmp(a, b) < 0], [_cmp(a, b) >= 0]. *)
Definition dt_ltb (a b : datetime) : bool :=
  match dt_cmp a b with Lt => true | _ => false end.

Definition dt_geb (a b : datetime) : bool :=
  match dt_cmp a b with Lt => false | _ => true end.

(** The order of instants the specification speaks of: [dt_le a b] reads
    "a is not later than b". *)
Definition dt_le (a b : datetime) : Prop := dt_cmp a b <> Gt.

Global Instance dt_le_dec a b : Decision (dt_le a b).
Proof. unfold dt_le. solve_decision. Defined.

(** The class invariant of Python's [datetime]: every field within its
    range; the constructor raises [ValueError] otherwise. *)
Definition is_leap (y : Z) : bool :=
  (y mod 4 =? 0) && (negb (y mod 100 =? 0) || (y mod 400 =? 0)).

Definition days_in_month (y m : Z) : Z :=
  match m with
  | 2 => if is_leap y then 29 else 28
  | 4 | 6 | 9 | 11 => 30
  | _ => 31
  end.

(** The checks of the constructor, in its order, each with the message of
    its [ValueError]; [None] when every field is within its range. *)
Definition check_fields (d : datetime) : option string :=
  if negb ((1 <=? year d) && (year d <=? 9999))
  then Some ("year " +:+ pretty (year d) +:+ " is out of range")
  else if negb ((1 <=? month d) && (month d <=? 12))
  then Some "month must be in 1..12"
  else if negb ((1 <=? day d) && (day d <=? days_in_month (year d) (month d)))
  then Some "day is out of range for month"
  else if negb ((0 <=? hour d) && (hour d <? 24))
  then Some "hour must be in 0..23"
  else if negb ((0 <=? minute d) && (minute d <? 60))
  then Some "minute must be in 0..59"
  else if negb ((0 <=? second d) && (second d <? 60))
  then Some "second must be in 0..59"
  else if negb ((0 <=? microsecond d) && (microsecond d <? 1000000))
  then Some "microsecond must be in 0..999999"
  else None.

Definition valid_datetimeb (d : datetime) : bool :=
  match check_fields d with None => true | Some _ => false end.

Definition valid_datetime (d : datetime) : Prop := valid_datetimeb d = true.

(** *** isoformat *)

Definition digit (k : Z) : ascii := ascii_of_N (Z.to_N (48 + k mod 10)).

(** ["%02d" % n], ["%04d" % n] and ["%06d" % n] for a field within its
    range, as lists of characters. *)
Definition fmt2 (n : Z) : list ascii := [digit (n / 10); digit n].
Definition fmt4 (n : Z) : list ascii :=
  [digit (n / 1000); digit (n / 100); digit (n / 10); digit n].
Definition fmt6 (n : Z) : list ascii :=
  [digit (n / 100000); digit (n / 10000); digit (n / 1000);
   digit (n / 100); digit (n / 10); digit n].

Definition chars (s : string) : list ascii := list_ascii_of_string s.
Definition text (cs : list ascii) : string := string_of_list_ascii cs.

(** [datetime.isoformat()] with the default separator and timespec:
    [YYYY-MM-DDTHH:MM:SS], followed by [.ffffff] when the microsecond
    field is not zero. *)
Definition isoformat (d : datetime) : string :=
  text (fmt4 (year d) ++ chars "-" ++ fmt2 (month d) ++ chars "-" ++ fmt2 (day d)
        ++ chars "T" ++ fmt2 (hour d) ++ chars ":" ++ fmt2 (minute d)
        ++ chars ":" ++ fmt2 (second d)
        ++ (if microsecond d =? 0 then [] else chars "." ++ fmt6 (microsecond d))).

(** *** fromisoformat *)

Definition digit_of (c : ascii) : option Z :=
  let n := Z.of_N (N_of_ascii c) in
  if (48 <=? n) && (n <=? 57) then Some (n - 48) else None.

Fixpoint parse_digits (acc : Z) (cs : list ascii) : option Z :=
  match cs with
  | [] => Some acc
  | c :: cs' =>
      match digit_of c with
      | Some k => parse_digits (10 * acc + k) cs'
      | None => None
      end
  end.

Definition colon : ascii := ":"%char.
Definition dash : ascii := "-"%char.
Definition dot : ascii := "."%char.

(** The time part [HH[:MM[:SS[.fff[fff]]]]]: hour, minute, second and
    microsecond, or [None] when the text has another shape. *)
Definition parse_time (cs : list ascii) : option (Z * Z * Z * Z) :=
  match cs with
  | [h1; h2] =>
      h ← parse_digits 0 [h1; h2]; Some (h, 0, 0, 0)
  | [h1; h2; c1; m1; m2] =>
      h ← parse_digits 0 [h1; h2]; m ← parse_digits 0 [m1; m2];
      if decide (c1 = colon) then Some (h, m, 0, 0) else None
  | h1 :: h2 :: c1 :: m1 :: m2 :: c2 :: s1 :: s2 :: frac =>
      h ← parse_digits 0 [h1; h2]; m ← parse_digits 0 [m1; m2];
      s ← parse_digits 0 [s1; s2];
      if decide (c1 = colon ∧ c2 = colon) then
        match frac with
        | [] => Some (h, m, s, 0)
        | [p; f1; f2; f3] =>
            us ← parse_digits 0 [f1; f2; f3];
            if decide (p = dot) then Some (h, m, s, us * 1000) else None
        | [p; f1; f2; f3; f4; f5; f6] =>
            us ← parse_digits 0 [f1; f2; f3; f4; f5; f6];
            if decide (p = dot) then Some (h, m, s, us) else None
        | _ => None
        end
      else None
  | _ => None
  end.

Definition invalid_isoformat (s : string) : exn :=
  ValueError ("Invalid isoformat string: '" +:+ s +:+ "'").

(** [datetime.fromisoformat(s)] on the strings that denote a naive
    datetime, in the grammar of Python 3.8 to 3.10 (the oldest the package
    supports): [YYYY-MM-DD], optionally followed by one separator character
    and [HH[:MM[:SS[.fff[fff]]]]]; the fields are then checked against the
    ranges of the [datetime] constructor.  Every other string is answered
    with [ValueError]; that includes the strings with a UTC offset, which
    Python turns into aware datetimes ([Tz.fromisoformat] below reads
    them, and [offset_free] tells the strings on which the two agree), and
    the further ISO 8601 shapes Python 3.11 accepts. *)
Definition fromisoformat (s : string) : result datetime :=
  match chars s with
  | y1 :: y2 :: y3 :: y4 :: c1 :: m1 :: m2 :: c2 :: d1 :: d2 :: rest =>
      match parse_digits 0 [y1; y2; y3; y4], parse_digits 0 [m1; m2],
            parse_digits 0 [d1; d2],
            (match rest with [] => Some (0, 0, 0, 0) | _ :: t => parse_time t end) with
      | Some y, Some m, Some d, Some (h, mi, sec, us) =>
          let dt := mk_datetime y m d h mi sec us in
          if decide (c1 = dash ∧ c2 = dash) then
            match check_fields dt with
            | None => Ok dt
            | Some msg => Raise (ValueError msg)
            end
          else Raise (invalid_isoformat s)
      | _, _, _, _ => Raise (invalid_isoformat s)
      end
  | _ => Raise (invalid_isoformat s)
  end.

(** ** JSON values *)

(** What [json.load] returns and [json.dump] takes: [None], booleans,
    integers, strings, lists, and dictionaries with string keys in
    insertion order (the keys of one dictionary are pairwise distinct).
    Floating-point numbers are left out: no field of the registry file
    holds one. *)
Inductive json : Type :=
  | JNull
  | JBool (b : bool)
  | JInt (z : Z)
  | JStr (s : string)
  | JList (items : list json)
  | JDict (pairs : list (string * json)).

(** Python truthiness of a JSON value. *)
Definition truthy (v : json) : bool :=
  match v with
  | JNull => false
  | JBool b => b
  | JInt z => negb (z =? 0)
  | JStr s => negb (String.eqb s EmptyString)
  | JList l => match l with [] => false | _ => true end
  | JDict kvs => match kvs with [] => false | _ => true end
  end.

Fixpoint assoc (key : string) (kvs : list (string * json)) : option json :=
  match kvs with
  | [] => None
  | (k, v) :: rest => if String.eqb k key then Some v else assoc key rest
  end.

(** [data[key]] for a string key: [KeyError] on a dictionary without the
    key, [TypeError] on every other value (a list or a string wants an
    integer index, the rest is not subscriptable). *)
Definition getitem (data : json) (key : string) : result json :=
  match data with
  | JDict kvs =>
      match assoc key kvs with Some v => Ok v | None => Raise (KeyError key) end
  | _ => Raise TypeError
  end.

(** [data.get(key, default)]: only dictionaries have the method. *)
Definition dict_get (data : json) (key : string) (dflt : json) : result json :=
  match data with
  | JDict kvs => Ok (default dflt (assoc key kvs))
  | _ => Raise AttributeError
  end.

(** [for x in v]: the items of a list, the keys of a dictionary, the
    characters of a string; the other values are not iterable. *)
Definition iter (v : json) : result (list json) :=
  match v with
  | JList l => Ok l
  | JDict kvs => Ok (map (fun kv => JStr (fst kv)) kvs)
  | JStr s => Ok (map (fun c => JStr (String c EmptyString)) (chars s))
  | _ => Raise TypeError
  end.

(** [datetime.fromisoformat(v)]: [TypeError] unless [v] is a string. *)
Definition fromisoformat_value (v : json) : result datetime :=
  match v with
  | JStr s => fromisoformat s
  | _ => Raise TypeError
  end.

(** The annotations [name: str] and [version: str] of [Model.__init__],
    read as types.  Python itself would store any value; the embedding
    follows the code on strings only and answers [OutOfModel] elsewhere. *)
Definition as_str (v : json) : result string :=
  match v with
  | JStr s => Ok s
  | _ => Raise OutOfModel
  end.

(** ** The objects: models, the registry, the world *)

(** [class ModelStatus(Enum)] and its [.value]. *)
Inductive ModelStatus : Type := ACTIVE | DEPRECATED | RETIRED.

Global Instance ModelStatus_eq_dec : EqDecision ModelStatus.
Proof. solve_decision. Defined.

Definition value (s : ModelStatus) : string :=
  match s with
  | ACTIVE => "active"
  | DEPRECATED => "deprecated"
  | RETIRED => "retired"
  end.

(** The attributes of a [Model] instance.  No code of the package assigns
    to them after [__init__], and [Model] defines neither [__eq__] nor
    [__bool__]: an instance is always truthy. *)
Record Model : Type := mk_Model {
  name : string;
  version : string;
  created_date : datetime;
  deprecation_date : option datetime;
  retirement_date : option datetime
}.

Global Instance Model_eq_dec : EqDecision Model.
Proof. solve_decision. Defined.

(** [ModelRegistry]: the list [self._models]. *)
Record ModelRegistry : Type := mk_ModelRegistry {
  _models : list Model
}.

(** What the methods read and change: the registry object, the files (path
    to text), the wall clock, and the ways the storage can refuse.
    [clock k] is what the [k]-th call of [datetime.now()] returns and
    [ticks] counts the calls made so far.  [denied] holds the paths whose
    [open] fails, [no_parent] those whose parent directory cannot be made,
    and [quota] is the number of characters the medium still takes
    ([None]: no limit). *)
Record World : Type := mk_World {
  registry : ModelRegistry;
  files : gmap string string;
  denied : gset string;
  no_parent : gset string;
  quota : option nat;
  clock : nat -> datetime;
  ticks : nat
}.

Definition set_registry (r : ModelRegistry) (w : World) : World :=
  mk_World r (files w) (denied w) (no_parent w) (quota w) (clock w) (ticks w).
Definition set_files (fs : gmap string string) (w : World) : World :=
  mk_World (registry w) fs (denied w) (no_parent w) (quota w) (clock w) (ticks w).
Definition set_quota (q : option nat) (w : World) : World :=
  mk_World (registry w) (files w) (denied w) (no_parent w) q (clock w) (ticks w).
Definition tick (w : World) : World :=
  mk_World (registry w) (files w) (denied w) (no_parent w) (quota w) (clock w) (S (ticks w)).

(** A computation: it returns or raises, and leaves a world either way.
    What was changed before an exception stays changed. *)
Definition M (A : Type) : Type := World -> result A * World.

Global Instance M_ret : MRet M := fun A a w => (Ok a, w).
Global Instance M_bind : MBind M := fun A B k m w =>
  match m w with
  | (Ok a, w') => k a w'
  | (Raise e, w') => (Raise e, w')
  end.

Definition raise {A} (e : exn) : M A := fun w => (Raise e, w).
Definition lift {A} (r : result A) : M A := fun w => (r, w).
Definition gets {A} (f : World -> A) : M A := fun w => (Ok (f w), w).
Definition modify (f : World -> World) : M unit := fun w => (Ok tt, f w).

(** [datetime.now()]. *)
Definition now : M datetime := fun w => (Ok (clock w (ticks w)), tick w).

(** A list comprehension [[f(x) for x in xs]]: the calls run left to right
    and the first exception ends the comprehension. *)
Fixpoint comprehension {A B} (f : A -> M B) (xs : list A) : M (list B) :=
  match xs with
  | [] => mret []
  | x :: rest => y ← f x; ys ← comprehension f rest; mret (y :: ys)
  end.

(** [[x for x in xs if p(x)]]. *)
Fixpoint comprehension_if {A} (p : A -> M bool) (xs : list A) : M (list A) :=
  match xs with
  | [] => mret []
  | x :: rest =>
      keep ← p x; ys ← comprehension_if p rest;
      mret (if keep : bool then x :: ys else ys)
  end.

(** ** class Model *)

Definition deprecation_before_creation : exn :=
  ValueError "Deprecation date cannot be before creation date".
Definition retirement_before_deprecation : exn :=
  ValueError "Retirement date cannot be before deprecation date".
Definition retirement_before_creation : exn :=
  ValueError "Retirement date cannot be before creation date".

(** [Model._validate_dates].  A [datetime] is always truthy, so
    [if self.deprecation_date and ...] tests for [None]. *)
Definition _validate_dates (self : Model) : result unit :=
  if (match deprecation_date self with
      | Some dep => dt_ltb dep (created_date self)
      | None => false
      end)
  then Raise deprecation_before_creation
  else
  if (match retirement_date self, deprecation_date self with
      | Some ret, Some dep => dt_ltb ret dep
      | _, _ => false
      end)
  then Raise retirement_before_deprecation
  else
  if (match retirement_date self, deprecation_date self with
      | Some ret, None => dt_ltb ret (created_date self)
      | _, _ => false
      end)
  then Raise retirement_before_creation
  else Ok tt.

(** [Model.__init__]: the clock is read only when [created_date] is
    [None]; the object exists for the caller only when validation
    passes. *)
Definition __init__ (nm ver : string)
    (created deprecation retirement : option datetime) : M Model :=
  created' ← match created with Some d => mret d | None => now end;
  let self := mk_Model nm ver created' deprecation retirement in
  _ ← lift (_validate_dates self);
  mret self.

(** [Model.get_status]. *)
Definition get_status (self : Model) (reference_date : option datetime)
    : M ModelStatus :=
  ref_date ← match reference_date with Some d => mret d | None => now end;
  if (match retirement_date self with
      | Some ret => dt_geb ref_date ret
      | None => false
      end)
  then mret RETIRED
  else
  if (match deprecation_date self with
      | Some dep => dt_geb ref_date dep
      | None => false
      end)
  then mret DEPRECATED
  else mret ACTIVE.

Definition is_active (self : Model) (reference_date : option datetime) : M bool :=
  s ← get_status self reference_date; mret (bool_decide (s = ACTIVE)).
Definition is_deprecated (self : Model) (reference_date : option datetime) : M bool :=
  s ← get_status self reference_date; mret (bool_decide (s = DEPRECATED)).
Definition is_retired (self : Model) (reference_date : option datetime) : M bool :=
  s ← get_status self reference_date; mret (bool_decide (s = RETIRED)).

Definition isoformat_or_none (d : option datetime) : json :=
  match d with Some d' => JStr (isoformat d') | None => JNull end.

(** [Model.to_dict].  Only the [status] entry has an effect, a reading of
    the clock, so the order in which the entries are evaluated does not
    show. *)
Definition to_dict (self : Model) : M json :=
  status ← get_status self None;
  mret (JDict [("name", JStr (name self));
               ("version", JStr (version self));
               ("created_date", JStr (isoformat (created_date self)));
               ("deprecation_date", isoformat_or_none (deprecation_date self));
               ("retirement_date", isoformat_or_none (retirement_date self));
               ("status", JStr (value status))]).

(** [fromisoformat(data[key]) if data.get(key) else None]. *)
Definition optional_date (data : json) (key : string) : result (option datetime) :=
  present ← dict_get data key JNull;
  if truthy present
  then v ← getitem data key; d ← fromisoformat_value v; mret (Some d)
  else mret None.

(** [Model.from_dict]: the five arguments are evaluated in the order they
    are written, then the class is called.  The [status] entry is not
    read. *)
Definition from_dict (data : json) : M Model :=
  nm ← lift (getitem data "name");
  ver ← lift (getitem data "version");
  created ← lift (v ← getitem data "created_date"; fromisoformat_value v);
  deprecation ← lift (optional_date data "deprecation_date");
  retirement ← lift (optional_date data "retirement_date");
  nm' ← lift (as_str nm);
  ver' ← lift (as_str ver);
  __init__ nm' ver' (Some created) deprecation retirement.

(** ** class ModelRegistry *)

(** [ModelRegistry.__init__]. *)
Definition ModelRegistry__init__ : ModelRegistry := mk_ModelRegistry [].

Definition set_models (ms : list Model) : M unit :=
  modify (set_registry (mk_ModelRegistry ms)).

(** The test of the loop in [get_model]. *)
Definition key_matches (nm ver : string) (model : Model) : bool :=
  String.eqb (name model) nm && String.eqb (version model) ver.

(** The loop of [get_model]: the first model of the list with the name and
    the version asked for. *)
Fixpoint get_model_in (ms : list Model) (nm ver : string) : option Model :=
  match ms with
  | [] => None
  | model :: rest =>
      if key_matches nm ver model then Some model else get_model_in rest nm ver
  end.

(** [ModelRegistry.get_model]. *)
Definition get_model (nm ver : string) : M (option Model) :=
  self ← gets registry;
  mret (get_model_in (_models self) nm ver).

Definition already_exists (model : Model) : exn :=
  ValueError ("Model " +:+ name model +:+ " v" +:+ version model
              +:+ " already exists in registry").

(** [ModelRegistry.add_model]. *)
Definition add_model (model : Model) : M unit :=
  found ← get_model (name model) (version model);
  match found with
  | Some _ => raise (already_exists model)
  | None =>
      self ← gets registry;
      set_models (_models self ++ [model])
  end.

(** [list.remove(x)] on values: the list without its first element equal
    to [x], or [None] (a [ValueError] in Python) when there is none.
    Python compares with [is] and then [==]; [Model] has no [__eq__], so
    that is identity of objects.  An object is its attribute values here,
    and what [remove_model] passes is the very element [get_model] found.
    Every element before it in the list has another key, so it is neither
    that object nor a value equal to it: identity and equality of values
    drop the same element, the one at the position of the find
    ([remove_first_found] below). *)
Fixpoint remove_first (x : Model) (ms : list Model) : option (list Model) :=
  match ms with
  | [] => None
  | y :: rest =>
      if decide (y = x) then Some rest
      else rest' ← remove_first x rest; Some (y :: rest')
  end.

Definition list_remove (x : Model) : M unit :=
  self ← gets registry;
  match remove_first x (_models self) with
  | Some ms => set_models ms
  | None => raise (ValueError "list.remove(x): x not in list")
  end.

(** [ModelRegistry.remove_model]. *)
Definition remove_model (nm ver : string) : M bool :=
  model ← get_model nm ver;
  match model with
  | Some m => _ ← list_remove m; mret true
  | None => mret false
  end.

(** [ModelRegistry.get_all_models]: a copy of the list. *)
Definition get_all_models : M (list Model) :=
  self ← gets registry; mret (_models self).

(** [ModelRegistry.get_models_by_status]. *)
Definition get_models_by_status (status : ModelStatus)
    (reference_date : option datetime) : M (list Model) :=
  self ← gets registry;
  comprehension_if
    (fun model => s ← get_status model reference_date;
                  mret (bool_decide (s = status)))
    (_models self).

Definition get_active_models (reference_date : option datetime) : M (list Model) :=
  get_models_by_status ACTIVE reference_date.
Definition get_deprecated_models (reference_date : option datetime) : M (list Model) :=
  get_models_by_status DEPRECATED reference_date.
Definition get_retired_models (reference_date : option datetime) : M (list Model) :=
  get_models_by_status RETIRED reference_date.

(** [ModelRegistry.get_models_by_name]. *)
Definition get_models_by_name (nm : string) : M (list Model) :=
  self ← gets registry;
  mret (filter (fun model => name model = nm) (_models self)).

(** [ModelRegistry.__len__]. *)
Definition __len__ : M nat :=
  self ← gets registry; mret (length (_models self)).

(** ** The text codec of the [json] module *)

(** Characters are code points below 256.  [json_dumps] is
    [json.dumps(v, indent=2)], the text [json.dump(v, f, indent=2)] writes;
    [json_loads] is [json.loads], the value [json.load(f)] returns for a
    file with that text. *)

Definition quote : ascii := ascii_of_N 34.
Definition backslash : ascii := ascii_of_N 92.
Definition newline : ascii := ascii_of_N 10.

Definition hex_digit (k : N) : ascii :=
  ascii_of_N (if (k <? 10)%N then 48 + k else 87 + k)%N.

(** One character of a string under [ensure_ascii=True]. *)
Definition escape_char (c : ascii) : list ascii :=
  let n := N_of_ascii c in
  if decide (c = quote) then [backslash; quote]
  else if decide (c = backslash) then [backslash; backslash]
  else if (n =? 10)%N then backslash :: chars "n"
  else if (n =? 13)%N then backslash :: chars "r"
  else if (n =? 9)%N then backslash :: chars "t"
  else if (n =? 8)%N then backslash :: chars "b"
  else if (n =? 12)%N then backslash :: chars "f"
  else if ((32 <=? n) && (n <=? 126))%N then [c]
  else backslash :: chars "u00" ++ [hex_digit (n / 16); hex_digit (n mod 16)].

Definition encode_str (s : string) : list ascii :=
  quote :: concat (map escape_char (chars s)) ++ [quote].

(** A new line and the indentation of nesting depth [level]. *)
Definition indent (level : nat) : list ascii :=
  newline :: concat (replicate level (chars "  ")).

Fixpoint join (sep : list ascii) (parts : list (list ascii)) : list ascii :=
  match parts with
  | [] => []
  | [p] => p
  | p :: rest => p ++ sep ++ join sep rest
  end.

Fixpoint encode (level : nat) (v : json) {struct v} : list ascii :=
  match v with
  | JNull => chars "null"
  | JBool true => chars "true"
  | JBool false => chars "false"
  | JInt z => chars (pretty z)
  | JStr s => encode_str s
  | JList [] => chars "[]"
  | JList items =>
      chars "[" ++ indent (S level)
      ++ join (chars "," ++ indent (S level)) (map (encode (S level)) items)
      ++ indent level ++ chars "]"
  | JDict [] => chars "{}"
  | JDict kvs =>
      chars "{" ++ indent (S level)
      ++ join (chars "," ++ indent (S level))
           (map (fun kv => encode_str (fst kv) ++ chars ": " ++ encode (S level) (snd kv)) kvs)
      ++ indent level ++ chars "}"
  end.

Definition json_dumps (v : json) : string := text (encode 0 v).

Definition is_ws (c : ascii) : bool :=
  let n := N_of_ascii c in
  ((n =? 32) || (n =? 9) || (n =? 10) || (n =? 13))%N.

Fixpoint skip_ws (cs : list ascii) : list ascii :=
  match cs with
  | c :: rest => if is_ws c then skip_ws rest else cs
  | [] => []
  end.

Definition hex_value (c : ascii) : option N :=
  let n := N_of_ascii c in
  if ((48 <=? n) && (n <=? 57))%N then Some (n - 48)%N
  else if ((97 <=? n) && (n <=? 102))%N then Some (n - 87)%N
  else if ((65 <=? n) && (n <=? 70))%N then Some (n - 55)%N
  else None.

(** The character a one-letter escape stands for. *)
Definition unescape (c : ascii) : option ascii :=
  if decide (c = quote) then Some quote
  else if decide (c = backslash) then Some backslash
  else if decide (c = "/"%char) then Some "/"%char
  else if decide (c = "b"%char) then Some (ascii_of_N 8)
  else if decide (c = "f"%char) then Some (ascii_of_N 12)
  else if decide (c = "n"%char) then Some newline
  else if decide (c = "r"%char) then Some (ascii_of_N 13)
  else if decide (c = "t"%char) then Some (ascii_of_N 9)
  else None.

(** The body of a string literal, after its opening quote: the characters
    it denotes and the text after its closing quote.  A code point of 256
    or more cannot be held and ends in [OutOfModel]. *)
Fixpoint scan_string (cs : list ascii) : result (list ascii * list ascii) :=
  match cs with
  | [] => Raise JSONDecodeError
  | c :: rest =>
      if decide (c = quote) then Ok ([], rest)
      else if decide (c = backslash) then
        match rest with
        | [] => Raise JSONDecodeError
        | e :: rest' =>
            if decide (e = "u"%char) then
              match rest' with
              | h1 :: h2 :: h3 :: h4 :: rest'' =>
                  match hex_value h1, hex_value h2, hex_value h3, hex_value h4 with
                  | Some a, Some b, Some c', Some d =>
                      if ((a =? 0) && (b =? 0))%N then
                        '(s, r) ← scan_string rest'';
                        Ok (ascii_of_N (16 * c' + d) :: s, r)
                      else Raise OutOfModel
                  | _, _, _, _ => Raise JSONDecodeError
                  end
              | _ => Raise JSONDecodeError
              end
            else
              match unescape e with
              | Some ch => '(s, r) ← scan_string rest'; Ok (ch :: s, r)
              | None => Raise JSONDecodeError
              end
        end
      else if (N_of_ascii c <? 32)%N then Raise JSONDecodeError
      else '(s, r) ← scan_string rest; Ok (c :: s, r)
  end.

Fixpoint span_digits (cs : list ascii) : list ascii * list ascii :=
  match cs with
  | c :: rest =>
      match digit_of c with
      | Some _ => let '(ds, r) := span_digits rest in (c :: ds, r)
      | None => ([], cs)
      end
  | [] => ([], [])
  end.

Definition starts_with_digit (cs : list ascii) : bool :=
  match cs with c :: _ => bool_decide (is_Some (digit_of c)) | [] => false end.

(** Whether a fraction or an exponent follows an integer part: the
    literal is then a floating-point number. *)
Definition float_tail (cs : list ascii) : bool :=
  match cs with
  | c :: rest =>
      if decide (c = dot) then starts_with_digit rest
      else if decide (c = "e"%char ∨ c = "E"%char) then
        match rest with
        | s :: rest' =>
            if decide (s = "+"%char ∨ s = "-"%char) then starts_with_digit rest'
            else starts_with_digit rest
        | [] => false
        end
      else false
  | [] => false
  end.

(** An integer literal without its sign: [0] or a digit from 1 to 9
    followed by digits. *)
Definition scan_int (cs : list ascii) : result (Z * list ascii) :=
  match cs with
  | c :: rest =>
      match digit_of c with
      | Some 0 => if float_tail rest then Raise OutOfModel else Ok (0, rest)
      | Some _ =>
          let '(ds, r) := span_digits cs in
          if float_tail r then Raise OutOfModel
          else match parse_digits 0 ds with
               | Some n => Ok (n, r)
               | None => Raise JSONDecodeError
               end
      | None => Raise JSONDecodeError
      end
  | [] => Raise JSONDecodeError
  end.

(** [cs] without the prefix [p], when it starts with it. *)
Fixpoint strip_prefix (p cs : list ascii) : option (list ascii) :=
  match p, cs with
  | [], _ => Some cs
  | a :: p', c :: cs' => if decide (a = c) then strip_prefix p' cs' else None
  | _ :: _, [] => None
  end.

(** The literals and the numbers. *)
Definition scan_atom (cs : list ascii) : result (json * list ascii) :=
  match strip_prefix (chars "null") cs with Some r => Ok (JNull, r) | None =>
  match strip_prefix (chars "true") cs with Some r => Ok (JBool true, r) | None =>
  match strip_prefix (chars "false") cs with Some r => Ok (JBool false, r) | None =>
  match strip_prefix (chars "NaN") cs with Some _ => Raise OutOfModel | None =>
  match strip_prefix (chars "Infinity") cs with Some _ => Raise OutOfModel | None =>
  match strip_prefix (chars "-Infinity") cs with Some _ => Raise OutOfModel | None =>
  match cs with
  | c :: rest =>
      if decide (c = dash) then '(n, r) ← scan_int rest; Ok (JInt (- n), r)
      else '(n, r) ← scan_int cs; Ok (JInt n, r)
  | [] => Raise JSONDecodeError
  end end end end end end end.

(** [dict(pairs)]: a repeated key keeps its first place and takes its
    last value. *)
Fixpoint dict_set (key : string) (v : json) (kvs : list (string * json))
    : list (string * json) :=
  match kvs with
  | [] => [(key, v)]
  | (k, x) :: rest =>
      if String.eqb k key then (k, v) :: rest else (k, x) :: dict_set key v rest
  end.

Definition dict_of_pairs (kvs : list (string * json)) : list (string * json) :=
  foldl (fun d kv => dict_set (fst kv) (snd kv) d) [] kvs.

(** The decoder.  [fuel] bounds the nesting of the calls; twice the length
    of the text is enough, since every second call has read a
    character. *)
Fixpoint parse_value (fuel : nat) (cs : list ascii) : result (json * list ascii) :=
  match fuel with
  | O => Raise OutOfModel
  | S fuel' =>
      match cs with
      | [] => Raise JSONDecodeError
      | c :: rest =>
          if decide (c = quote) then
            '(s, r) ← scan_string rest; Ok (JStr (text s), r)
          else if decide (c = "{"%char) then
            match skip_ws rest with
            | c' :: r =>
                if decide (c' = "}"%char) then Ok (JDict [], r)
                else '(kvs, r') ← parse_pairs fuel' (c' :: r);
                     Ok (JDict (dict_of_pairs kvs), r')
            | [] => Raise JSONDecodeError
            end
          else if decide (c = "["%char) then
            match skip_ws rest with
            | c' :: r =>
                if decide (c' = "]"%char) then Ok (JList [], r)
                else '(items, r') ← parse_items fuel' (c' :: r);
                     Ok (JList items, r')
            | [] => Raise JSONDecodeError
            end
          else scan_atom cs
      end
  end
with parse_items (fuel : nat) (cs : list ascii) : result (list json * list ascii) :=
  match fuel with
  | O => Raise OutOfModel
  | S fuel' =>
      '(v, r) ← parse_value fuel' cs;
      match skip_ws r with
      | c :: r' =>
          if decide (c = ","%char) then
            '(vs, r'') ← parse_items fuel' (skip_ws r'); Ok (v :: vs, r'')
          else if decide (c = "]"%char) then Ok ([v], r')
          else Raise JSONDecodeError
      | [] => Raise JSONDecodeError
      end
  end
with parse_pairs (fuel : nat) (cs : list ascii)
    : result (list (string * json) * list ascii) :=
  match fuel with
  | O => Raise OutOfModel
  | S fuel' =>
      match cs with
      | c :: rest =>
          if decide (c = quote) then
            '(k, r1) ← scan_string rest;
            match skip_ws r1 with
            | c1 :: r2 =>
                if decide (c1 = colon) then
                  '(v, r3) ← parse_value fuel' (skip_ws r2);
                  match skip_ws r3 with
                  | c2 :: r4 =>
                      if decide (c2 = ","%char) then
                        '(kvs, r5) ← parse_pairs fuel' (skip_ws r4);
                        Ok ((text k, v) :: kvs, r5)
                      else if decide (c2 = "}"%char) then Ok ([(text k, v)], r4)
                      else Raise JSONDecodeError
                  | [] => Raise JSONDecodeError
                  end
                else Raise JSONDecodeError
            | [] => Raise JSONDecodeError
            end
          else Raise JSONDecodeError
      | [] => Raise JSONDecodeError
      end
  end.

(** [json.loads]: one value, white space around it, nothing after.  Text
    with a floating-point literal or with an escape for a code point of
    256 or more is outside the values modelled: [OutOfModel]. *)
Definition json_loads (s : string) : result json :=
  let cs := chars s in
  '(v, r) ← parse_value (2 * length cs + 2) (skip_ws cs);
  match skip_ws r with
  | [] => Ok v
  | _ => Raise JSONDecodeError
  end.

(** ** Files *)

(** [path.parent.mkdir(parents=True, exist_ok=True)]: directories hold no
    text, so all that shows is whether the call raises. *)
Definition mkdir_parent (filepath : string) : M unit := fun w =>
  if decide (filepath ∈ no_parent w) then (Raise OSError, w) else (Ok tt, w).

(** [open(filepath, 'w')]: the file is created, or emptied when it
    exists. *)
Definition open_w (filepath : string) : M unit := fun w =>
  if decide (filepath ∈ denied w) then (Raise OSError, w)
  else (Ok tt, set_files (<[filepath := EmptyString]> (files w)) w).

(** Writing [s] at the end of an open file and closing it: the characters
    go in as long as the medium takes them. *)
Definition write (filepath s : string) : M unit := fun w =>
  let old := default EmptyString (files w !! filepath) in
  match quota w with
  | None => (Ok tt, set_files (<[filepath := old +:+ s]> (files w)) w)
  | Some q =>
      if decide (String.length s ≤ q)%nat
      then (Ok tt, set_quota (Some (q - String.length s)%nat)
                     (set_files (<[filepath := old +:+ s]> (files w)) w))
      else (Raise OSError,
            set_quota (Some 0%nat)
              (set_files (<[filepath := old +:+ text (take q (chars s))]> (files w)) w))
  end.

(** [open(filepath, 'r')] and [f.read()]. *)
Definition read_text (filepath : string) : M string := fun w =>
  match files w !! filepath with
  | None => (Raise FileNotFoundError, w)
  | Some s => if decide (filepath ∈ denied w) then (Raise OSError, w) else (Ok s, w)
  end.

Section Persistence.

(** The [json] module is a library of its own: the two methods are
    stated over any text codec, [dumps] for [json.dump(_, f, indent=2)]
    and [loads] for [json.load(f)].  [json_dumps] and [json_loads] above
    are the codec the examples run with. *)
Variable dumps : json -> string.
Variable loads : string -> result json.

(** [ModelRegistry.save_to_file]. *)
Definition save_to_file (filepath : string) : M unit :=
  self ← gets registry;
  models ← comprehension to_dict (_models self);
  let data := JDict [("models", JList models)] in
  _ ← mkdir_parent filepath;
  _ ← open_w filepath;
  write filepath (dumps data).

(** [ModelRegistry.load_from_file]: [self._models] is assigned once the
    whole comprehension has been evaluated. *)
Definition load_from_file (filepath : string) : M unit :=
  s ← read_text filepath;
  data ← lift (loads s);
  listed ← lift (dict_get data "models" (JList []));
  items ← lift (iter listed);
  models ← comprehension from_dict items;
  set_models models.

End Persistence.

(** ** String forms *)

(** [Model.__str__]: the status in it is a reading of the clock. *)
Definition __str__ (self : Model) : M string :=
  status ← get_status self None;
  mret (name self +:+ " v" +:+ version self +:+ " [" +:+ value status +:+ "]").

(** [ModelStatus(v)]: the member with the value [v]. *)
Definition ModelStatus_of_value (v : string) : result ModelStatus :=
  if String.eqb v "active" then Ok ACTIVE
  else if String.eqb v "deprecated" then Ok DEPRECATED
  else if String.eqb v "retired" then Ok RETIRED
  else Raise (ValueError ("'" +:+ v +:+ "' is not a valid ModelStatus")).

(** ** The command line: [cli.py] *)

(** What ends a command besides the exceptions of the two classes and of
    the library, which pass through it. *)
Inductive cli_exn : Type :=
  | Uncaught (e : exn)
  | ArgumentTypeError (msg : string)
  | SystemExit (code : Z).

Inductive outcome (A : Type) : Type :=
  | Done (a : A)
  | Stop (e : cli_exn).
Arguments Done {A} a.
Arguments Stop {A} e.

Global Instance outcome_ret : MRet outcome := fun A a => Done a.
Global Instance outcome_bind : MBind outcome := fun A B k r =>
  match r with Done a => k a | Stop e => Stop e end.

(** The process of one command: the world, and what [print] has written
    to the two streams, one entry for each call, without the line end
    that [print] adds. *)
Record Process : Type := mk_Process {
  world : World;
  stdout : list string;
  stderr : list string
}.

Definition C (A : Type) : Type := Process -> outcome A * Process.

Global Instance C_ret : MRet C := fun A a p => (Done a, p).
Global Instance C_bind : MBind C := fun A B k m p =>
  match m p with
  | (Done a, p') => k a p'
  | (Stop e, p') => (Stop e, p')
  end.

(** A method of the two classes, run in the world of the process. *)
Definition in_world {A} (m : M A) : C A := fun p =>
  match m (world p) with
  | (Ok a, w) => (Done a, mk_Process w (stdout p) (stderr p))
  | (Raise e, w) => (Stop (Uncaught e), mk_Process w (stdout p) (stderr p))
  end.

Definition ending {A} (o : outcome A) : C A := fun p => (o, p).

(** [print(line)] and [print(line, file=sys.stderr)]. *)
Definition print (line : string) : C unit := fun p =>
  (Done tt, mk_Process (world p) (stdout p ++ [line]) (stderr p)).
Definition print_err (line : string) : C unit := fun p =>
  (Done tt, mk_Process (world p) (stdout p) (stderr p ++ [line])).

(** [sys.exit(code)]. *)
Definition sys_exit {A} (code : Z) : C A := fun p => (Stop (SystemExit code), p).

(** [for x in xs: body]. *)
Fixpoint for_each {A} (body : A -> C unit) (xs : list A) : C unit :=
  match xs with
  | [] => mret tt
  | x :: rest => _ ← body x; for_each body rest
  end.

(** Whether [except ValueError] catches the exception. *)
Definition is_ValueError (e : exn) : bool :=
  match e with
  | ValueError _ | JSONDecodeError => true
  | _ => false
  end.

(** [parse_date]: a [ValueError] of [fromisoformat] becomes an
    [ArgumentTypeError]; any other exception passes. *)
Definition parse_date (date_string : string) : outcome datetime :=
  match fromisoformat date_string with
  | Ok d => Done d
  | Raise e =>
      if is_ValueError e
      then Stop (ArgumentTypeError
                   ("Invalid date format: " +:+ date_string
                    +:+ ". Use ISO format (YYYY-MM-DD)"))
      else Stop (Uncaught e)
  end.

(** [parse_date(a) if a else None], for an optional argument of the
    command line: [None] and the empty string are falsy. *)
Definition optional_arg (a : option string) : outcome (option datetime) :=
  match a with
  | Some s =>
      if String.eqb s EmptyString then Done None
      else d ← parse_date s; Done (Some d)
  | None => Done None
  end.

(** The arguments of the four commands, as [argparse] hands them over:
    [args.registry], [args.name], [args.version] and the options, absent
    ones being [None]. *)
Record add_args : Type := mk_add_args {
  add_registry : string;
  add_name : string;
  add_version : string;
  add_created : option string;
  add_deprecation : option string;
  add_retirement : option string
}.

Record list_args : Type := mk_list_args {
  list_registry : string;
  list_status : option string;
  list_name : option string
}.

Record status_args : Type := mk_status_args {
  status_registry : string;
  status_name : string;
  status_version : string;
  status_date : option string
}.

Record remove_args : Type := mk_remove_args {
  remove_registry : string;
  remove_name : string;
  remove_version : string
}.

(** An option that is given and not empty. *)
Definition given (a : option string) : option string :=
  match a with
  | Some s => if String.eqb s EmptyString then None else Some s
  | None => None
  end.

Definition line_end : string := String newline EmptyString.

Section CommandLine.

(** Beside the codec, three things of the surroundings are left open: the
    two marks that open the messages (the code points U+2713 and U+2717,
    which a character of this development cannot hold), the text of a
    [JSONDecodeError], which [exn] does not carry, and
    [strftime('%Y-%m-%d')] of the library. *)
Variable dumps : json -> string.
Variable loads : string -> result json.
Variable check_mark : string.
Variable cross_mark : string.
Variable decode_error_text : string.
Variable strftime_date : datetime -> string.

(** [str(e)] for an exception that [except ValueError as e] catches. *)
Definition str_ValueError (e : exn) : option string :=
  match e with
  | ValueError msg => Some msg
  | JSONDecodeError => Some decode_error_text
  | _ => None
  end.

(** [try: body / except ValueError as e: handler]. *)
Definition try_except_ValueError {A} (body : C A) (handler : string -> C A) : C A :=
  fun p =>
    match body p with
    | (Stop (Uncaught e), p') =>
        match str_ValueError e with
        | Some msg => handler msg p'
        | None => (Stop (Uncaught e), p')
        end
    | r => r
    end.

(** [load_registry]: a new registry, loaded from the file if there is
    one.  Only files are in the world, so [Path(filepath).exists()] asks
    for a file. *)
Definition load_registry (filepath : string) : M unit :=
  _ ← set_models [];
  present ← gets (fun w => bool_decide (is_Some (files w !! filepath)));
  if present : bool then load_from_file loads filepath else mret tt.

(** [cmd_add]. *)
Definition cmd_add (args : add_args) : C unit :=
  _ ← in_world (load_registry (add_registry args));
  try_except_ValueError
    (created ← ending (optional_arg (add_created args));
     deprecation ← ending (optional_arg (add_deprecation args));
     retirement ← ending (optional_arg (add_retirement args));
     model ← in_world (__init__ (add_name args) (add_version args)
                         created deprecation retirement);
     _ ← in_world (add_model model);
     _ ← in_world (save_to_file dumps (add_registry args));
     shown ← in_world (__str__ model);
     print (check_mark +:+ " Added model: " +:+ shown))
    (fun msg =>
       _ ← print_err (cross_mark +:+ " Error: " +:+ msg);
       sys_exit 1).

(** The lines [cmd_list] prints for one model. *)
Definition print_model (model : Model) : C unit :=
  _ ← print ("  " +:+ name model +:+ " v" +:+ version model);
  status ← in_world (get_status model None);
  _ ← print ("    Status: " +:+ value status);
  _ ← print ("    Created: " +:+ strftime_date (created_date model));
  _ ← match deprecation_date model with
      | Some dep => print ("    Deprecation: " +:+ strftime_date dep)
      | None => mret tt
      end;
  _ ← match retirement_date model with
      | Some ret => print ("    Retirement: " +:+ strftime_date ret)
      | None => mret tt
      end;
  print EmptyString.

(** [cmd_list]. *)
Definition cmd_list (args : list_args) : C unit :=
  _ ← in_world (load_registry (list_registry args));
  all ← in_world get_all_models;
  models ← match given (list_status args) with
           | Some v =>
               try_except_ValueError
                 (status ← in_world (lift (ModelStatus_of_value v));
                  in_world (get_models_by_status status None))
                 (fun _ =>
                    _ ← print_err (cross_mark +:+ " Invalid status: " +:+ v);
                    sys_exit 1)
           | None => mret all
           end;
  let models :=
    match given (list_name args) with
    | Some nm => filter (fun m => name m = nm) models
    | None => models
    end in
  match models with
  | [] => print "No models found."
  | _ =>
      _ ← print (line_end +:+ "Found " +:+ pretty (length models)
                 +:+ " model(s):" +:+ line_end);
      for_each print_model models
  end.

(** [cmd_status]. *)
Definition cmd_status (args : status_args) : C unit :=
  _ ← in_world (load_registry (status_registry args));
  found ← in_world (get_model (status_name args) (status_version args));
  match found with
  | None =>
      _ ← print_err (cross_mark +:+ " Model " +:+ status_name args +:+ " v"
                     +:+ status_version args +:+ " not found");
      sys_exit 1
  | Some model =>
      reference_date ← ending (optional_arg (status_date args));
      status ← in_world (get_status model reference_date);
      _ ← print (line_end +:+ "Model: " +:+ name model +:+ " v" +:+ version model);
      _ ← print ("Status: " +:+ value status);
      _ ← print ("Created: " +:+ strftime_date (created_date model));
      _ ← match deprecation_date model with
          | Some dep => print ("Deprecation: " +:+ strftime_date dep)
          | None => mret tt
          end;
      match retirement_date model with
      | Some ret => print ("Retirement: " +:+ strftime_date ret)
      | None => mret tt
      end
  end.

(** [cmd_remove]. *)
Definition cmd_remove (args : remove_args) : C unit :=
  _ ← in_world (load_registry (remove_registry args));
  removed ← in_world (remove_model (remove_name args) (remove_version args));
  if removed : bool then
    _ ← in_world (save_to_file dumps (remove_registry args));
    print (check_mark +:+ " Removed model: " +:+ remove_name args +:+ " v"
           +:+ remove_version args)
  else
    _ ← print_err (cross_mark +:+ " Model " +:+ remove_name args +:+ " v"
                   +:+ remove_version args +:+ " not found");
    sys_exit 1.

End CommandLine.

(** ** Datetimes with [tzinfo] *)

(** A [datetime] object is naive or aware.  The record [datetime] above is
    the naive one: what [datetime.now()] returns, and what
    [datetime.fromisoformat] returns for a text without UTC offset; the
    classes and the command line above are the program on such objects.
    A text with a UTC offset makes [datetime.fromisoformat] return an aware
    object, and a caller of [Model] may pass one.  Python orders two naive
    objects and two aware objects, and raises [TypeError] when asked to
    order a naive and an aware one.  The module [Tz] embeds [class Model]
    and the queries of [ModelRegistry] by status on objects of both
    kinds. *)
Definition naive : Type := datetime.

Definition plus : ascii := "+"%char.

Module Tz.

(** A [datetime] object: the seven fields, and [tzinfo], which is [None]
    or a [timezone] with a fixed offset from UTC, here the offset in
    microseconds.  The name a [timezone] may carry is left out: neither
    the comparisons nor [isoformat] look at it.  No code of the package
    and none of the library functions it calls builds a [tzinfo] of
    another class. *)
Record datetime : Type := with_tzinfo {
  wall : naive;
  tzinfo : option Z
}.

Global Instance datetime_eq_dec : EqDecision datetime.
Proof. solve_decision. Defined.

(** [timezone(offset)] wants an offset strictly between minus and plus 24
    hours. *)
Definition valid_offset (o : Z) : bool :=
  (-86400000000 <? o) && (o <? 86400000000).

Definition valid_datetimeb (d : datetime) : bool :=
  valid_datetimeb (wall d)
  && match tzinfo d with Some o => valid_offset o | None => true end.

Definition valid_datetime (d : datetime) : Prop := valid_datetimeb d = true.

(** [_days_before_year], [_days_before_month] and [toordinal]: the days
    from 1 January of the year 1, which is day 1. *)
Definition days_before_year (y : Z) : Z :=
  let y1 := y - 1 in y1 * 365 + y1 / 4 - y1 / 100 + y1 / 400.

Definition days_before_month (y m : Z) : Z :=
  match m with
  | 1 => 0 | 2 => 31 | 3 => 59 | 4 => 90 | 5 => 120 | 6 => 151
  | 7 => 181 | 8 => 212 | 9 => 243 | 10 => 273 | 11 => 304 | _ => 334
  end + (if (2 <? m) && is_leap y then 1 else 0).

Definition toordinal (d : naive) : Z :=
  days_before_year (year d) + days_before_month (year d) (month d) + day d.

(** The fields as microseconds since the start of day 0. *)
Definition wall_us (d : naive) : Z :=
  (((toordinal d * 24 + hour d) * 60 + minute d) * 60 + second d) * 1000000
  + microsecond d.

(** [datetime._cmp] for the ordering operators: two naive objects, and
    two aware ones with the same offset, are compared by their fields; two
    aware ones with different offsets by the sign of their difference,
    which takes the offsets off; a naive and an aware one are not
    compared. *)
Definition cmp (a b : datetime) : result comparison :=
  match tzinfo a, tzinfo b with
  | None, None => Ok (dt_cmp (wall a) (wall b))
  | Some oa, Some ob =>
      if oa =? ob then Ok (dt_cmp (wall a) (wall b))
      else Ok (Z.compare (wall_us (wall a) - oa) (wall_us (wall b) - ob))
  | _, _ => Raise TypeError
  end.

(** [a < b] and [a >= b]. *)
Definition lt (a b : datetime) : result bool :=
  c ← cmp a b; Ok (match c with Lt => true | _ => false end).

Definition ge (a b : datetime) : result bool :=
  c ← cmp a b; Ok (match c with Lt => false | _ => true end).

(** [_format_offset]: sign, hours and minutes, then the seconds when
    seconds or microseconds are not zero, then the microseconds when they
    are not zero. *)
Definition format_offset (o : Z) : list ascii :=
  let a := Z.abs o in
  let ss := (a / 1000000) mod 60 in
  let us := a mod 1000000 in
  (if o <? 0 then dash else plus)
  :: fmt2 (a / 3600000000) ++ colon :: fmt2 ((a / 60000000) mod 60)
  ++ (if (ss =? 0) && (us =? 0) then []
      else colon :: fmt2 ss ++ (if us =? 0 then [] else dot :: fmt6 us)).

(** [datetime.isoformat()]: the text of the fields, followed by the
    offset of an aware object. *)
Definition isoformat (d : datetime) : string :=
  match tzinfo d with
  | None => isoformat (wall d)
  | Some o => text (chars (isoformat (wall d)) ++ format_offset o)
  end.

(** The time part of a text, cut at its first sign: what stands before
    the sign, and the sign with what follows it. *)
Fixpoint split_offset (t : list ascii) : list ascii * option (ascii * list ascii) :=
  match t with
  | [] => ([], None)
  | c :: rest =>
      if decide (c = plus \/ c = dash) then ([], Some (c, rest))
      else (c :: fst (split_offset rest), snd (split_offset rest))
  end.

(** The sign and the offset text of [s], if its time part has a sign. *)
Definition offset_of (s : string) : option (ascii * list ascii) :=
  match chars s with
  | _ :: _ :: _ :: _ :: _ :: _ :: _ :: _ :: _ :: _ :: _ :: t => snd (split_offset t)
  | _ => None
  end.

(** The offset text [HH:MM], [HH:MM:SS] or [HH:MM:SS.ffffff]: its whole
    seconds and its microseconds. *)
Definition parse_offset (body : list ascii) : option (Z * Z) :=
  if decide (length body = 5 \/ length body = 8 \/ length body = 15)%nat
  then '(h, m, s, us) ← parse_time body; Some (h * 3600 + m * 60 + s, us)
  else None.

(** The offset, in microseconds, of the [timezone] that [fromisoformat]
    builds from a sign, whole seconds and microseconds: when the whole
    seconds are zero it is [timezone.utc], whatever the microseconds. *)
Definition offset_read (sign : ascii) (seconds us : Z) : Z :=
  if seconds =? 0 then 0
  else if decide (sign = dash) then - (seconds * 1000000 + us)
       else seconds * 1000000 + us.

(** [repr] of a [timedelta] of [o] microseconds. *)
Definition timedelta_repr (o : Z) : string :=
  let days := o / 86400000000 in
  let seconds := (o mod 86400000000) / 1000000 in
  let micros := o mod 1000000 in
  let parts :=
    (if days =? 0 then [] else ["days=" +:+ pretty days])
    ++ (if seconds =? 0 then [] else ["seconds=" +:+ pretty seconds])
    ++ (if micros =? 0 then [] else ["microseconds=" +:+ pretty micros]) in
  "datetime.timedelta("
  +:+ match parts with
      | [] => "0"
      | p :: ps => foldl (fun acc q => acc +:+ ", " +:+ q) p ps
      end
  +:+ ")".

Definition offset_out_of_range (o : Z) : exn :=
  ValueError ("offset must be a timedelta strictly between -timedelta(hours=24)"
              +:+ " and timedelta(hours=24), not " +:+ timedelta_repr o +:+ ".").

(** [datetime.fromisoformat(s)], in the grammar of Python 3.8 to 3.10: a
    text whose time part has no sign is read as above, to a naive object;
    otherwise the time part ends before its first sign, and the sign begins
    the offset, [+HH:MM], [+HH:MM:SS] or [+HH:MM:SS.ffffff] and the same
    with [-]; an offset of less than a second is read as UTC.  The offset
    is checked against the range of [timezone], and then the fields
    against theirs.  The further shapes Python 3.11
    accepts ([Z], [+HH], [+HHMM], the basic format) are answered with
    [ValueError], as Python 3.8 to 3.10 answer them. *)
Definition fromisoformat (s : string) : result datetime :=
  match offset_of s with
  | None => d ← fromisoformat s; Ok (with_tzinfo d None)
  | Some (sign, body) =>
      match chars s with
      | y1 :: y2 :: y3 :: y4 :: c1 :: m1 :: m2 :: c2 :: d1 :: d2 :: _ :: t =>
          match parse_digits 0 [y1; y2; y3; y4], parse_digits 0 [m1; m2],
                parse_digits 0 [d1; d2], parse_time (fst (split_offset t)),
                parse_offset body with
          | Some y, Some m, Some d, Some (h, mi, sec, us), Some (oseconds, ous) =>
              let o := offset_read sign oseconds ous in
              let fields := mk_datetime y m d h mi sec us in
              if decide (c1 = dash /\ c2 = dash) then
                if valid_offset o then
                  match check_fields fields with
                  | None => Ok (with_tzinfo fields (Some o))
                  | Some msg => Raise (ValueError msg)
                  end
                else Raise (offset_out_of_range o)
              else Raise (invalid_isoformat s)
          | _, _, _, _, _ => Raise (invalid_isoformat s)
          end
      | _ => Raise (invalid_isoformat s)
      end
  end.

(** [datetime.fromisoformat(v)]: [TypeError] unless [v] is a string. *)
Definition fromisoformat_value (v : json) : result datetime :=
  match v with
  | JStr s => fromisoformat s
  | _ => Raise TypeError
  end.

(** [datetime.now()]: always naive. *)
Definition now : M datetime := d ← now; mret (with_tzinfo d None).

(** The attributes of a [Model] instance. *)
Record Model : Type := mk_Model {
  name : string;
  version : string;
  created_date : datetime;
  deprecation_date : option datetime;
  retirement_date : option datetime
}.

Global Instance Model_eq_dec : EqDecision Model.
Proof. solve_decision. Defined.

(** [Model._validate_dates]: the three tests in their order; each
    comparison can raise [TypeError]. *)
Definition _validate_dates (self : Model) : result unit :=
  _ ← match deprecation_date self with
      | Some dep =>
          before ← lt dep (created_date self);
          if before : bool then Raise deprecation_before_creation else Ok tt
      | None => Ok tt
      end;
  _ ← match retirement_date self, deprecation_date self with
      | Some ret, Some dep =>
          before ← lt ret dep;
          if before : bool then Raise retirement_before_deprecation else Ok tt
      | _, _ => Ok tt
      end;
  match retirement_date self, deprecation_date self with
  | Some ret, None =>
      before ← lt ret (created_date self);
      if before : bool then Raise retirement_before_creation else Ok tt
  | _, _ => Ok tt
  end.

(** [Model.__init__]. *)
Definition __init__ (nm ver : string)
    (created deprecation retirement : option datetime) : M Model :=
  created' ← match created with Some d => mret d | None => now end;
  let self := mk_Model nm ver created' deprecation retirement in
  _ ← lift (_validate_dates self);
  mret self.

(** The tests of [Model.get_status] on the reference date [ref_date]. *)
Definition status_at (self : Model) (ref_date : datetime) : result ModelStatus :=
  retired ← match retirement_date self with
            | Some ret => ge ref_date ret
            | None => Ok false
            end;
  if retired : bool then Ok RETIRED
  else
    deprecated ← match deprecation_date self with
                 | Some dep => ge ref_date dep
                 | None => Ok false
                 end;
    if deprecated : bool then Ok DEPRECATED else Ok ACTIVE.

(** [Model.get_status]: the reference date is the one given or the
    reading of the clock, a naive object. *)
Definition get_status (self : Model) (reference_date : option datetime)
    : M ModelStatus :=
  ref_date ← match reference_date with Some d => mret d | None => now end;
  lift (status_at self ref_date).

Definition isoformat_or_none (d : option datetime) : json :=
  match d with Some d' => JStr (isoformat d') | None => JNull end.

(** [Model.to_dict]. *)
Definition to_dict (self : Model) : M json :=
  status ← get_status self None;
  mret (JDict [("name", JStr (name self));
               ("version", JStr (version self));
               ("created_date", JStr (isoformat (created_date self)));
               ("deprecation_date", isoformat_or_none (deprecation_date self));
               ("retirement_date", isoformat_or_none (retirement_date self));
               ("status", JStr (value status))]).

(** [fromisoformat(data[key]) if data.get(key) else None]. *)
Definition optional_date (data : json) (key : string) : result (option datetime) :=
  present ← dict_get data key JNull;
  if truthy present
  then v ← getitem data key; d ← fromisoformat_value v; mret (Some d)
  else mret None.

(** [Model.from_dict]. *)
Definition from_dict (data : json) : M Model :=
  nm ← lift (getitem data "name");
  ver ← lift (getitem data "version");
  created ← lift (v ← getitem data "created_date"; fromisoformat_value v);
  deprecation ← lift (optional_date data "deprecation_date");
  retirement ← lift (optional_date data "retirement_date");
  nm' ← lift (as_str nm);
  ver' ← lift (as_str ver);
  __init__ nm' ver' (Some created) deprecation retirement.

(** [ModelRegistry]: the list [self._models].  The two methods below read
    it and change nothing, so the object is passed to them as [self]. *)
Record ModelRegistry : Type := mk_ModelRegistry {
  _models : list Model
}.

(** [ModelRegistry.get_all_models]. *)
Definition get_all_models (self : ModelRegistry) : M (list Model) :=
  mret (_models self).

(** [ModelRegistry.get_models_by_status]. *)
Definition get_models_by_status (self : ModelRegistry) (status : ModelStatus)
    (reference_date : option datetime) : M (list Model) :=
  comprehension_if
    (fun model => s ← get_status model reference_date;
                  mret (bool_decide (s = status)))
    (_models self).

End Tz.

(** ** The vocabulary of the specification *)

(** I1: the deprecation date, if present, is not before the creation
    date. *)
Definition I1 (created : datetime) (deprecation : option datetime) : Prop :=
  match deprecation with
  | Some dep => dt_le created dep
  | None => True
  end.

(** I2: if both are present, the retirement date is not before the
    deprecation date. *)
Definition I2 (deprecation retirement : option datetime) : Prop :=
  match deprecation, retirement with
  | Some dep, Some ret => dt_le dep ret
  | _, _ => True
  end.

(** I3: if only the retirement date is present, it is not before the
    creation date. *)
Definition I3 (created : datetime) (deprecation retirement : option datetime) : Prop :=
  match deprecation, retirement with
  | None, Some ret => dt_le created ret
  | _, _ => True
  end.

(** The key of an entity in the registry. *)
Definition key (model : Model) : string * string := (name model, version model).

(** I4: no two entities of the registry share their (name, version). *)
Definition I4 (w : World) : Prop := NoDup (key <$> _models (registry w)).

(** Every timestamp of the entity is a datetime Python can hold. *)
Definition valid_dates (self : Model) : Prop :=
  valid_datetime (created_date self) /\
  from_option valid_datetime True (deprecation_date self) /\
  from_option valid_datetime True (retirement_date self).

(** The entity passed the validation of its constructor and its timestamps
    are datetimes Python can hold. *)
Definition well_formed (self : Model) : Prop :=
  valid_dates self /\ _validate_dates self = Ok tt.

(** Deserialization validates as construction does: on a record whose
    entries read as [nm], [ver], [c], [d] and [r], [from_dict] answers what
    the constructor answers for them, and when they violate I1, I2 or I3
    that is one of the three errors of construction. *)
Definition deserialization_revalidates : Prop :=
  forall data nm ver c d r w,
    getitem data "name" = Ok (JStr nm) ->
    getitem data "version" = Ok (JStr ver) ->
    (v ← getitem data "created_date"; fromisoformat_value v) = Ok c ->
    optional_date data "deprecation_date" = Ok d ->
    optional_date data "retirement_date" = Ok r ->
    from_dict data w = __init__ nm ver (Some c) d r w /\
    (~ (I1 c d /\ I2 d r /\ I3 c d r) ->
     exists e, from_dict data w = (Raise e, w) /\
               (e = deprecation_before_creation \/
                e = retirement_before_deprecation \/
                e = retirement_before_creation)).

(** The status [get_status] answers for the reference date [t]. *)
Definition status_at (self : Model) (t : datetime) : ModelStatus :=
  if (match retirement_date self with
      | Some ret => dt_geb t ret
      | None => false
      end)
  then RETIRED
  else
  if (match deprecation_date self with
      | Some dep => dt_geb t dep
      | None => false
      end)
  then DEPRECATED
  else ACTIVE.

(** The dictionary [to_dict] builds when the clock shows [now]. *)
Definition dict_at (self : Model) (now : datetime) : json :=
  JDict [("name", JStr (name self));
         ("version", JStr (version self));
         ("created_date", JStr (isoformat (created_date self)));
         ("deprecation_date", isoformat_or_none (deprecation_date self));
         ("retirement_date", isoformat_or_none (retirement_date self));
         ("status", JStr (value (status_at self now)))].

(** The dictionaries of a list of models, the clock being read once for
    each, from its [k]-th reading on. *)
Fixpoint dicts_from (clk : nat -> datetime) (k : nat) (ms : list Model) : list json :=
  match ms with
  | [] => []
  | m :: rest => dict_at m (clk k) :: dicts_from clk (S k) rest
  end.

(** The record a complete Save serializes in world [w]. *)
Definition saved_data (w : World) : json :=
  JDict [("models",
          JList (dicts_from (clock w) (ticks w) (_models (registry w))))].

(** The text a complete Save writes in world [w]. *)
Definition saved_text (dumps : json -> string) (w : World) : string :=
  dumps (saved_data w).

(** The world after [n] more readings of the clock. *)
Definition advance (n : nat) (w : World) : World :=
  mk_World (registry w) (files w) (denied w) (no_parent w) (quota w) (clock w)
           (n + ticks w).

(** The worlds a registry can be in: created empty, then any number of
    Add, Remove and Load calls, whatever they answer, while the
    surroundings (files, clock, storage) change as they may.  [allowed]
    says which files may be loaded in which world. *)
Inductive reachable_by (allowed : World -> string -> Prop)
    (loads : string -> result json) : World -> Prop :=
  | reach_new w :
      registry w = ModelRegistry__init__ -> reachable_by allowed loads w
  | reach_add w model :
      reachable_by allowed loads w ->
      reachable_by allowed loads (snd (add_model model w))
  | reach_remove w nm ver :
      reachable_by allowed loads w ->
      reachable_by allowed loads (snd (remove_model nm ver w))
  | reach_load w filepath :
      reachable_by allowed loads w -> allowed w filepath ->
      reachable_by allowed loads (snd (load_from_file loads filepath w))
  | reach_env w w' :
      reachable_by allowed loads w -> registry w' = registry w ->
      reachable_by allowed loads w'.

(** Every file may be loaded. *)
Definition reachable (loads : string -> result json) : World -> Prop :=
  reachable_by (fun _ _ => True) loads.

(** The name and version entries of a record of the file. *)
Definition record_key (item : json) : result json * result json :=
  (getitem item "name", getitem item "version").

(** The file at [filepath], if it reads as a list of records, lists no
    (name, version) twice. *)
Definition lists_distinct_keys (loads : string -> result json)
    (w : World) (filepath : string) : Prop :=
  forall s items,
    files w !! filepath = Some s ->
    (data ← loads s; listed ← dict_get data "models" (JList []); iter listed)
      = Ok items ->
    NoDup (record_key <$> items).

(** The order of the lifecycle: active, then deprecated, then retired. *)
Definition status_rank (s : ModelStatus) : nat :=
  match s with
  | ACTIVE => 0
  | DEPRECATED => 1
  | RETIRED => 2
  end.

(** The five entries [from_dict] reads. *)
Definition entries_read : list string :=
  ["name"; "version"; "created_date"; "deprecation_date"; "retirement_date"].

(** The entities of [ms] whose status is [status], each judged at its own
    reading of the clock, from the [k]-th reading on. *)
Fixpoint by_status_from (clk : nat -> datetime) (k : nat) (status : ModelStatus)
    (ms : list Model) : list Model :=
  match ms with
  | [] => []
  | m :: rest =>
      if decide (status_at m (clk k) = status)
      then m :: by_status_from clk (S k) status rest
      else by_status_from clk (S k) status rest
  end.

(** The date of a datetime as [YYYY-MM-DD], the form the help texts of the
    command line ask for, and midnight of that day. *)
Definition iso_date (d : datetime) : string :=
  text (fmt4 (year d) ++ chars "-" ++ fmt2 (month d) ++ chars "-" ++ fmt2 (day d)).

Definition midnight (d : datetime) : datetime :=
  mk_datetime (year d) (month d) (day d) 0 0 0 0.

(** The three dates of [cmd_add], read in the order of the call. *)
Definition add_dates (args : add_args)
    : outcome (option datetime * option datetime * option datetime) :=
  created ← optional_arg (add_created args);
  deprecation ← optional_arg (add_deprecation args);
  retirement ← optional_arg (add_retirement args);
  Done (created, deprecation, retirement).

(** The text a complete Save writes for the entities [ms], the clock being
    read from its [k]-th reading on. *)
Definition text_of (dumps : json -> string) (clk : nat -> datetime) (k : nat)
    (ms : list Model) : string :=
  dumps (JDict [("models", JList (dicts_from clk k ms))]).

(** Nothing stands in the way of a Save to [filepath]. *)
Definition writable (w : World) (filepath : string) : Prop :=
  (filepath ∉ no_parent w) /\ (filepath ∉ denied w) /\ quota w = None.

Global Instance writable_dec w filepath : Decision (writable w filepath).
Proof. unfold writable. solve_decision. Defined.

(** The lines [cmd_status] prints for the dates of a model, and those
    [cmd_list] prints for a model whose status it found to be [s]. *)
Definition date_lines (strftime_date : datetime -> string) (indent : string)
    (model : Model) : list string :=
  [indent +:+ "Created: " +:+ strftime_date (created_date model)]
  ++ match deprecation_date model with
     | Some dep => [indent +:+ "Deprecation: " +:+ strftime_date dep]
     | None => []
     end
  ++ match retirement_date model with
     | Some ret => [indent +:+ "Retirement: " +:+ strftime_date ret]
     | None => []
     end.

Definition listed_lines (strftime_date : datetime -> string)
    (model : Model) (s : ModelStatus) : list string :=
  [("  " +:+ name model +:+ " v" +:+ version model);
   ("    Status: " +:+ value s)]
  ++ date_lines strftime_date "    " model
  ++ [EmptyString].

(** The lines of a list of models, each judged at its own reading of the
    clock, from the [k]-th reading on. *)
Fixpoint listing_from (strftime_date : datetime -> string)
    (clk : nat -> datetime) (k : nat) (ms : list Model) : list string :=
  match ms with
  | [] => []
  | m :: rest =>
      listed_lines strftime_date m (status_at m (clk k))
      ++ listing_from strftime_date clk (S k) rest
  end.

(** *** Entities with offsets *)

(** The naive object with the fields [d], and a naive entity as an entity
    of [Tz]. *)
Definition tz_naive (d : datetime) : Tz.datetime := Tz.with_tzinfo d None.

Definition tz_model (m : Model) : Tz.Model :=
  Tz.mk_Model (name m) (version m) (tz_naive (created_date m))
    (tz_naive <$> deprecation_date m) (tz_naive <$> retirement_date m).

(** The object is naive. *)
Definition is_naive (d : Tz.datetime) : Prop := Tz.tzinfo d = None.

Global Instance is_naive_dec d : Decision (is_naive d).
Proof. unfold is_naive. solve_decision. Defined.

(** The entity has no milestone: neither a deprecation nor a retirement
    date. *)
Definition no_milestone (self : Tz.Model) : Prop :=
  Tz.deprecation_date self = None /\ Tz.retirement_date self = None.

(** The milestones the entity has are naive objects. *)
Definition naive_milestones (self : Tz.Model) : Prop :=
  from_option is_naive True (Tz.deprecation_date self) /\
  from_option is_naive True (Tz.retirement_date self).

(** Every timestamp of the entity is a datetime Python can hold. *)
Definition tz_valid_dates (self : Tz.Model) : Prop :=
  Tz.valid_datetime (Tz.created_date self) /\
  from_option Tz.valid_datetime True (Tz.deprecation_date self) /\
  from_option Tz.valid_datetime True (Tz.retirement_date self).

(** What [Tz.fromisoformat] reads from the text [Tz.isoformat] writes for
    [d]: [d] itself, except that an offset of less than a second is read
    as the offset of UTC. *)
Definition tz_read_back (d : Tz.datetime) : Tz.datetime :=
  match Tz.tzinfo d with
  | Some o => if Z.abs o <? 1000000 then Tz.with_tzinfo (Tz.wall d) (Some 0) else d
  | None => d
  end.

(** The dictionary [Tz.to_dict] builds when the status it finds is [s]. *)
Definition tz_dict_at (self : Tz.Model) (s : ModelStatus) : json :=
  JDict [("name", JStr (Tz.name self));
         ("version", JStr (Tz.version self));
         ("created_date", JStr (Tz.isoformat (Tz.created_date self)));
         ("deprecation_date", Tz.isoformat_or_none (Tz.deprecation_date self));
         ("retirement_date", Tz.isoformat_or_none (Tz.retirement_date self));
         ("status", JStr (value s))].

(** Python finds [a] before [b]; Python finds [a] not before [b]. *)
Definition tz_before (a b : Tz.datetime) : Prop := Tz.lt a b = Ok true.
Definition tz_not_before (a b : Tz.datetime) : Prop := Tz.lt a b = Ok false.

(** I1, I2 and I3 on objects Python can order. *)
Definition tz_I1 (created : Tz.datetime) (deprecation : option Tz.datetime) : Prop :=
  match deprecation with
  | Some dep => tz_not_before dep created
  | None => True
  end.

Definition tz_I2 (deprecation retirement : option Tz.datetime) : Prop :=
  match deprecation, retirement with
  | Some dep, Some ret => tz_not_before ret dep
  | _, _ => True
  end.

Definition tz_I3 (created : Tz.datetime) (deprecation retirement : option Tz.datetime)
    : Prop :=
  match deprecation, retirement with
  | None, Some ret => tz_not_before ret created
  | _, _ => True
  end.

(** Deserialization validates as construction does, offsets or not: on a
    record whose entries read as [nm], [ver], [c], [d] and [r],
    [Tz.from_dict] answers what the constructor answers for them; when the
    deprecation date is before the creation date that is the first error
    of construction, when I1 holds and the retirement date is before the
    deprecation date the second, and when I1 and I2 hold and the
    retirement date of a record without deprecation date is before the
    creation date the third. *)
Definition tz_deserialization_revalidates : Prop :=
  forall data nm ver c d r w,
    getitem data "name" = Ok (JStr nm) ->
    getitem data "version" = Ok (JStr ver) ->
    (v ← getitem data "created_date"; Tz.fromisoformat_value v) = Ok c ->
    Tz.optional_date data "deprecation_date" = Ok d ->
    Tz.optional_date data "retirement_date" = Ok r ->
    Tz.from_dict data w = Tz.__init__ nm ver (Some c) d r w /\
    ((exists dep, d = Some dep /\ tz_before dep c) ->
       Tz.from_dict data w = (Raise deprecation_before_creation, w)) /\
    (tz_I1 c d -> (exists dep ret, d = Some dep /\ r = Some ret /\ tz_before ret dep) ->
       Tz.from_dict data w = (Raise retirement_before_deprecation, w)) /\
    (tz_I1 c d -> tz_I2 d r -> (exists ret, d = None /\ r = Some ret /\ tz_before ret c) ->
       Tz.from_dict data w = (Raise retirement_before_creation, w)).

(** A character that is no sign, and the time part of [isoformat], which
    has none. *)
Definition no_sign (c : ascii) : Prop := c <> plus /\ c <> dash.

Definition time_chars (d : datetime) : list ascii :=
  fmt2 (hour d) ++ chars ":" ++ fmt2 (minute d) ++ chars ":" ++ fmt2 (second d)
  ++ (if microsecond d =? 0 then [] else chars "." ++ fmt6 (microsecond d)).

(** The entities of [ms] whose status is [status], each judged at its own
    reading of the clock, from the [k]-th reading on; an entity without
    status at its reading is left out. *)
Fixpoint tz_by_status_from (clk : nat -> datetime) (k : nat) (status : ModelStatus)
    (ms : list Tz.Model) : list Tz.Model :=
  match ms with
  | [] => []
  | m :: rest =>
      match Tz.status_at m (tz_naive (clk k)) with
      | Ok s =>
          if decide (s = status)
          then m :: tz_by_status_from clk (S k) status rest
          else tz_by_status_from clk (S k) status rest
      | Raise _ => tz_by_status_from clk (S k) status rest
      end
  end.

(** *** Texts without UTC offset *)

(** The text carries no UTC offset: its time part has no sign, and no
    [Z] either, which Python 3.11 reads as the offset of UTC.  On such a
    text [Tz.fromisoformat] answers what [fromisoformat] answers, as a
    naive object. *)
Definition offset_free (s : string) : bool :=
  match Tz.offset_of s with
  | None => negb (existsb (fun c => bool_decide (c = "Z"%char)) (drop 11 (chars s)))
  | Some _ => false
  end.

(** The date entries of a record that are strings carry no UTC offset. *)
Definition offset_free_record (item : json) : bool :=
  forallb (fun k => match getitem item k with
                    | Ok (JStr s) => offset_free s
                    | _ => true
                    end)
          ["created_date"; "deprecation_date"; "retirement_date"].

(** The file at [filepath], if there is one and it reads as a list of
    records, has no record with a UTC offset. *)
Definition offset_free_file (loads : string -> result json)
    (w : World) (filepath : string) : bool :=
  match files w !! filepath with
  | Some s =>
      match (data ← loads s; listed ← dict_get data "models" (JList []); iter listed) with
      | Ok items => forallb offset_free_record items
      | Raise _ => true
      end
  | None => true
  end.

(** An option of the command line, if given, carries no UTC offset. *)
Definition offset_free_arg (a : option string) : bool :=
  match a with Some s => offset_free s | None => true end.

(** ** Entities, files and worlds for the examples *)

(** Midnight of 1 January 2024. *)
Definition t0 : datetime := mk_datetime 2024 1 1 0 0 0 0.

(** An empty registry, no file, a storage that refuses nothing, a clock
    that stands still at [t0]. *)
Definition world0 : World :=
  mk_World ModelRegistry__init__ ∅ ∅ ∅ None (fun _ => t0) 0.

(** The same with [ms] in the registry and the one file [path]. *)
Definition world_holding (ms : list Model) (path content : string) : World :=
  mk_World (mk_ModelRegistry ms) {[ path := content ]} ∅ ∅ None (fun _ => t0) 0.

(** Two entities with the key (GPT-4, 1.0) and different creation dates,
    and the records of a registry file that stand for them. *)
Definition model_a : Model :=
  mk_Model "GPT-4" "1.0" t0 None None.
Definition model_b : Model :=
  mk_Model "GPT-4" "1.0" (mk_datetime 2024 3 1 0 0 0 0) None None.

Definition record_a : json :=
  JDict [("name", JStr "GPT-4"); ("version", JStr "1.0");
         ("created_date", JStr "2024-01-01T00:00:00");
         ("deprecation_date", JNull); ("retirement_date", JNull);
         ("status", JStr "active")].

Definition record_b : json :=
  JDict [("name", JStr "GPT-4"); ("version", JStr "1.0");
         ("created_date", JStr "2024-03-01T00:00:00");
         ("deprecation_date", JNull); ("retirement_date", JNull);
         ("status", JStr "active")].

(** A record with another key. *)
Definition record_c : json :=
  JDict [("name", JStr "GPT-4"); ("version", JStr "2.0");
         ("created_date", JStr "2024-03-01T00:00:00");
         ("deprecation_date", JNull); ("retirement_date", JNull)].

(** An entity with all three timestamps, down to the microsecond. *)
Definition model_full : Model :=
  mk_Model "M" "1.0" (mk_datetime 2024 1 1 8 30 15 250000)
    (Some (mk_datetime 2024 1 31 0 0 0 0))
    (Some (mk_datetime 2024 12 31 23 59 59 999999)).

(** The text of a registry file that lists the key (GPT-4, 1.0) twice, and
    the world after loading it into an empty registry. *)
Definition duplicate_text : string :=
  json_dumps (JDict [("models", JList [record_a; record_b])]).

Definition world_dup : World :=
  snd (load_from_file json_loads "registry.json"
         (world_holding [] "registry.json" duplicate_text)).

(** A world reached by two Adds, the second one refused, a Remove, and a
    Load of a file with two different keys. *)
Definition world_clean : World :=
  let w1 := world_holding [] "registry.json"
              (json_dumps (JDict [("models", JList [record_a; record_c])])) in
  let w2 := snd (add_model model_a w1) in
  let w3 := snd (add_model model_b w2) in
  let w4 := snd (remove_model "GPT-4" "1.0" w3) in
  snd (load_from_file json_loads "registry.json" w4).

(** Three records that do not deserialize: a deprecation date before the
    creation date, a creation date that is no timestamp, no version. *)
Definition record_bad_order : json :=
  JDict [("name", JStr "GPT-3"); ("version", JStr "1.0");
         ("created_date", JStr "2024-01-01T00:00:00");
         ("deprecation_date", JStr "2023-12-31T00:00:00");
         ("retirement_date", JNull)].

Definition record_bad_timestamp : json :=
  JDict [("name", JStr "GPT-3"); ("version", JStr "1.0");
         ("created_date", JStr "yesterday");
         ("deprecation_date", JNull); ("retirement_date", JNull)].

Definition record_no_version : json :=
  JDict [("name", JStr "GPT-3");
         ("created_date", JStr "2024-01-01T00:00:00");
         ("deprecation_date", JNull); ("retirement_date", JNull)].

(** A registry holding [model_b], next to a file that lists a good record
    and then [bad]. *)
Definition world_bad (bad : json) : World :=
  world_holding [model_b] "registry.json"
    (json_dumps (JDict [("models", JList [record_a; bad])])).

(** A registry holding [model_a], next to a file whose text is an object
    without the [models] entry. *)
Definition world_no_models : World :=
  world_holding [model_a] "registry.json"
    (json_dumps (JDict [("version", JInt 1)])).

(** A registry holding [model_a], a file written by an earlier Save of an
    empty registry, and a medium that takes ten more characters. *)
Definition old_text : string := json_dumps (JDict [("models", JList [])]).

Definition world_short : World :=
  mk_World (mk_ModelRegistry [model_a]) {[ "registry.json" := old_text ]}
           ∅ ∅ (Some 10%nat) (fun _ => t0) 0.

(** A registry of two well-formed entities and no file yet. *)
Definition world_two : World :=
  mk_World (mk_ModelRegistry [model_a; model_full]) ∅ ∅ ∅ None (fun _ => t0) 0.

(** The entries of [record_a] in another order, with another [status] and
    one entry more. *)
Definition record_a_relabelled : json :=
  JDict [("status", JStr "retired"); ("retirement_date", JNull);
         ("name", JStr "GPT-4"); ("version", JStr "1.0");
         ("owner", JStr "nobody"); ("deprecation_date", JNull);
         ("created_date", JStr "2024-01-01T00:00:00")].


(** The surroundings of the command line for the examples: the two marks
    as the three bytes UTF-8 has for each (U+2713 and U+2717), a text of
    [JSONDecodeError], and [strftime] as it answers for the years from
    1000 on. *)
Definition check_mark_utf8 : string :=
  text [ascii_of_N 226; ascii_of_N 156; ascii_of_N 147].
Definition cross_mark_utf8 : string :=
  text [ascii_of_N 226; ascii_of_N 156; ascii_of_N 151].
Definition decode_error_example : string :=
  "Expecting value: line 1 column 1 (char 0)".
Definition strftime_example : datetime -> string := iso_date.

(** A process that has printed nothing, in a world. *)
Definition process_in (w : World) : Process := mk_Process w [] [].

(** [add GPT-4 1.0 --created 2024-01-01] and the three other commands on
    the same key, all on [registry.json]. *)
Definition add_gpt4 : add_args :=
  mk_add_args "registry.json" "GPT-4" "1.0" (Some "2024-01-01") None None.
Definition remove_gpt4 : remove_args :=
  mk_remove_args "registry.json" "GPT-4" "1.0".
Definition status_gpt4 : status_args :=
  mk_status_args "registry.json" "GPT-4" "1.0" None.
Definition list_active : list_args :=
  mk_list_args "registry.json" (Some "active") None.

(** An entity with the key (GPT-4, 2.0), and a world whose file lists
    [model_a] and then it. *)
Definition model_c : Model :=
  mk_Model "GPT-4" "2.0" (mk_datetime 2024 3 1 0 0 0 0) None None.

Definition world_listed : World :=
  world_holding [] "registry.json"
    (json_dumps (JDict [("models", JList [record_a; record_c])])).

(** An entity that is deprecated from 1 February 2024 on, next to a clock
    that shows 31 January at its first reading and 1 February from then
    on. *)
Definition model_d : Model :=
  mk_Model "GPT-3" "1.0" t0 (Some (mk_datetime 2024 2 1 0 0 0 0)) None.

Definition world_moving : World :=
  mk_World ModelRegistry__init__
    {[ "registry.json" := text_of json_dumps (fun _ => t0) 0 [model_d] ]}
    ∅ ∅ None
    (fun i => match i with
              | O => mk_datetime 2024 1 31 0 0 0 0
              | S _ => mk_datetime 2024 2 1 0 0 0 0
              end) 0.

(** An entity whose timestamps carry the offset of UTC, the record
    [to_dict] would write for it, and an entity without milestones created
    at an offset of five and a half hours. *)
Definition noon_utc (y m d : Z) : Tz.datetime :=
  Tz.with_tzinfo (mk_datetime y m d 12 0 0 0) (Some 0).

Definition model_utc : Tz.Model :=
  Tz.mk_Model "M" "1.0" (noon_utc 2024 1 1) (Some (noon_utc 2024 6 1)) None.

Definition record_utc : json :=
  JDict [("name", JStr "M"); ("version", JStr "1.0");
         ("created_date", JStr "2024-01-01T12:00:00+00:00");
         ("deprecation_date", JStr "2024-06-01T12:00:00+00:00");
         ("retirement_date", JNull)].

Definition model_offset : Tz.Model :=
  Tz.mk_Model "M" "2.0"
    (Tz.with_tzinfo (mk_datetime 2024 1 1 8 30 15 250000) (Some 19800000000))
    None None.

(** * Properties *)

(** Unfolds the monad of computations down to functions on worlds. *)
Ltac run :=
  unfold mbind, mret, M_bind, M_ret, result_bind, result_ret,
         lift, raise, gets, modify, set_models in *;
  cbn beta iota in *.

(** ** The codec at work *)

Example isoformat_ex1 :
  isoformat (mk_datetime 2024 1 15 9 30 0 0) = "2024-01-15T09:30:00".
Proof. reflexivity. Qed.

Example isoformat_ex2 :
  isoformat (mk_datetime 2024 12 31 23 59 59 1500) = "2024-12-31T23:59:59.001500".
Proof. reflexivity. Qed.

Example fromisoformat_ex1 :
  fromisoformat "2024-01-15T09:30:00" = Ok (mk_datetime 2024 1 15 9 30 0 0).
Proof. reflexivity. Qed.

Example fromisoformat_ex2 :
  fromisoformat "2024-01-15" = Ok (mk_datetime 2024 1 15 0 0 0 0).
Proof. reflexivity. Qed.

Example fromisoformat_ex3 :
  fromisoformat "2023-02-29T00:00:00"
  = Raise (ValueError "day is out of range for month").
Proof. reflexivity. Qed.

Example fromisoformat_ex4 :
  fromisoformat "next week" = Raise (invalid_isoformat "next week").
Proof. reflexivity. Qed.

Example json_dumps_empty_registry :
  json_loads (json_dumps (JDict [("models", JList [])]))
  = Ok (JDict [("models", JList [])]).
Proof. vm_compute. reflexivity. Qed.

Example json_loads_duplicate_text :
  json_loads duplicate_text = Ok (JDict [("models", JList [record_a; record_b])]).
Proof. vm_compute. reflexivity. Qed.

(** ** The order on datetimes *)

Lemma lex_opp c1 c2 : CompOpp (lex c1 c2) = lex (CompOpp c1) (CompOpp c2).
Proof. by destruct c1. Qed.

Lemma dt_cmp_antisym a b : dt_cmp b a = CompOpp (dt_cmp a b).
Proof.
  unfold dt_cmp. rewrite !lex_opp, <- !Z.compare_antisym. reflexivity.
Qed.

Lemma lex_eq c1 c2 : lex c1 c2 = Eq <-> c1 = Eq /\ c2 = Eq.
Proof. destruct c1; simpl; intuition congruence. Qed.

Lemma dt_cmp_eq a b : dt_cmp a b = Eq <-> a = b.
Proof.
  unfold dt_cmp. rewrite !lex_eq, !Z.compare_eq_iff.
  destruct a, b; simpl. split.
  - intros (-> & -> & -> & -> & -> & -> & ->). reflexivity.
  - intros [= -> -> -> -> -> -> ->]. tauto.
Qed.

Lemma dt_cmp_refl a : dt_cmp a a = Eq.
Proof. by apply dt_cmp_eq. Qed.

Lemma lex_lt_trans (c1 c2 d1 d2 e1 e2 : comparison) :
  (c1 = Lt -> d1 = Lt -> e1 = Lt) ->
  (c1 = Eq -> e1 = d1) -> (d1 = Eq -> e1 = c1) ->
  (c2 = Lt -> d2 = Lt -> e2 = Lt) ->
  lex c1 c2 = Lt -> lex d1 d2 = Lt -> lex e1 e2 = Lt.
Proof.
  intros H1 H2 H3 H4. destruct c1, d1; simpl; intros Hc Hd; try discriminate.
  - rewrite H2 by done. simpl. auto.
  - rewrite H2 by done. done.
  - rewrite H3 by done. done.
  - rewrite H1 by done. done.
Qed.

Lemma Zcmp_lt_trans (x y z : Z) :
  (x ?= y) = Lt -> (y ?= z) = Lt -> (x ?= z) = Lt.
Proof. rewrite !Z.compare_lt_iff. lia. Qed.

Lemma Zcmp_eq_l (x y z : Z) : (x ?= y) = Eq -> (x ?= z) = (y ?= z).
Proof. rewrite Z.compare_eq_iff. by intros ->. Qed.

Lemma Zcmp_eq_r (x y z : Z) : (y ?= z) = Eq -> (x ?= z) = (x ?= y).
Proof. rewrite Z.compare_eq_iff. by intros ->. Qed.

Lemma dt_cmp_lt_trans a b c :
  dt_cmp a b = Lt -> dt_cmp b c = Lt -> dt_cmp a c = Lt.
Proof.
  unfold dt_cmp.
  repeat (apply lex_lt_trans;
          [apply Zcmp_lt_trans | apply Zcmp_eq_l | apply Zcmp_eq_r | ]).
  apply Zcmp_lt_trans.
Qed.

Lemma dt_ltb_not_le a b : dt_ltb a b = true <-> ~ dt_le b a.
Proof.
  unfold dt_ltb, dt_le. rewrite (dt_cmp_antisym a b).
  destruct (dt_cmp a b); simpl; split; intros H; try done; try congruence;
    by destruct H.
Qed.

Lemma dt_ltb_false_le a b : dt_ltb a b = false <-> dt_le b a.
Proof.
  unfold dt_ltb, dt_le. rewrite (dt_cmp_antisym a b).
  destruct (dt_cmp a b); simpl; split; done.
Qed.

Lemma dt_geb_le a b : dt_geb a b = true <-> dt_le b a.
Proof.
  unfold dt_geb, dt_le. rewrite (dt_cmp_antisym a b).
  destruct (dt_cmp a b); simpl; split; done.
Qed.

Lemma dt_geb_false_not_le a b : dt_geb a b = false <-> ~ dt_le b a.
Proof. rewrite <- dt_geb_le. destruct (dt_geb a b); split; congruence. Qed.

Lemma dt_le_refl a : dt_le a a.
Proof. unfold dt_le. by rewrite dt_cmp_refl. Qed.

Lemma dt_le_total a b : dt_le a b \/ dt_le b a.
Proof.
  unfold dt_le. rewrite (dt_cmp_antisym a b).
  destruct (dt_cmp a b); simpl; auto.
Qed.

Lemma dt_le_antisym a b : dt_le a b -> dt_le b a -> a = b.
Proof.
  unfold dt_le. rewrite (dt_cmp_antisym a b). intros H1 H2.
  apply dt_cmp_eq. destruct (dt_cmp a b); simpl in *; congruence.
Qed.

Lemma dt_le_trans a b c : dt_le a b -> dt_le b c -> dt_le a c.
Proof.
  intros Hab Hbc.
  destruct (decide (dt_le a c)) as [|Hn]; [done|exfalso].
  apply dt_ltb_not_le in Hn. unfold dt_ltb in Hn.
  destruct (dt_cmp c a) eqn:Hca; try discriminate.
  destruct (dt_cmp a b) eqn:E1.
  - apply dt_cmp_eq in E1 as ->. apply Hbc.
    rewrite dt_cmp_antisym, Hca. done.
  - apply Hbc. rewrite dt_cmp_antisym.
    by rewrite (dt_cmp_lt_trans c a b).
  - by apply Hab.
Qed.

(** ** Status *)

(** With an explicit reference date, [get_status] reads no clock and
    changes nothing. *)
Lemma get_status_explicit self t w :
  exists s, get_status self (Some t) w = (Ok s, w).
Proof.
  unfold get_status. run.
  destruct (retirement_date self) as [r|], (deprecation_date self) as [d|];
    repeat case_match; eauto.
Qed.

(** C4.  For every entity and every reference time [t]: the status is
    Retired when a retirement date is present and [t] is at or after it;
    otherwise Deprecated when a deprecation date is present and [t] is at or
    after it; otherwise Active.  The comparisons are inclusive: at [t] equal
    to the retirement instant the status is Retired, and at [t] equal to the
    deprecation instant it is not Active, namely Deprecated unless the first
    rule already answers Retired. *)
Theorem get_status_decision_order (self : Model) (t : datetime) (w : World) :
  let retired := exists ret, retirement_date self = Some ret /\ dt_le ret t in
  let deprecated := exists dep, deprecation_date self = Some dep /\ dt_le dep t in
  (retired -> get_status self (Some t) w = (Ok RETIRED, w)) /\
  (~ retired -> deprecated -> get_status self (Some t) w = (Ok DEPRECATED, w)) /\
  (~ retired -> ~ deprecated -> get_status self (Some t) w = (Ok ACTIVE, w)) /\
  (retirement_date self = Some t -> get_status self (Some t) w = (Ok RETIRED, w)) /\
  (deprecation_date self = Some t ->
     get_status self (Some t) w <> (Ok ACTIVE, w) /\
     (~ retired -> get_status self (Some t) w = (Ok DEPRECATED, w))).
Proof.
  intros retired deprecated.
  assert (Hret : retired ->
            get_status self (Some t) w = (Ok RETIRED, w)).
  { intros (ret & Hr & Hle). unfold get_status. run. rewrite Hr.
    apply dt_geb_le in Hle. by rewrite Hle. }
  assert (Hdep : ~ retired -> deprecated ->
            get_status self (Some t) w = (Ok DEPRECATED, w)).
  { intros Hn (dep & Hd & Hle). unfold get_status. run. rewrite Hd.
    apply dt_geb_le in Hle. rewrite Hle.
    destruct (retirement_date self) as [ret|] eqn:Hr; [|done].
    destruct (dt_geb t ret) eqn:Hg; [|done].
    exfalso. apply Hn. exists ret. split; [done|]. by apply dt_geb_le. }
  split; [done|]. split; [done|]. split; [|split].
  - intros Hn Hnd. unfold get_status. run.
    destruct (retirement_date self) as [ret|] eqn:Hr.
    + destruct (dt_geb t ret) eqn:Hg.
      { exfalso. apply Hn. exists ret. split; [done|]. by apply dt_geb_le. }
      destruct (deprecation_date self) as [dep|] eqn:Hd; [|done].
      destruct (dt_geb t dep) eqn:Hg'; [|done].
      exfalso. apply Hnd. exists dep. split; [done|]. by apply dt_geb_le.
    + destruct (deprecation_date self) as [dep|] eqn:Hd; [|done].
      destruct (dt_geb t dep) eqn:Hg'; [|done].
      exfalso. apply Hnd. exists dep. split; [done|]. by apply dt_geb_le.
  - intros Hr. apply Hret. exists t. split; [done|apply dt_le_refl].
  - intros Hd.
    assert (Hdd : deprecated) by (exists t; split; [done|apply dt_le_refl]).
    split; [|by auto].
    assert (Hdec : retired \/ ~ retired).
    { subst retired. destruct (retirement_date self) as [ret|].
      - destruct (decide (dt_le ret t)); [left; eauto|right].
        intros (? & [= <-] & ?). done.
      - right. intros (? & [=] & _). }
    destruct Hdec as [Hy|Hn].
    + rewrite Hret by done. congruence.
    + rewrite Hdep by done. congruence.
Qed.

(** ** Construction *)

Lemma validate_dates_ok self :
  _validate_dates self = Ok tt <->
  I1 (created_date self) (deprecation_date self) /\
  I2 (deprecation_date self) (retirement_date self) /\
  I3 (created_date self) (deprecation_date self) (retirement_date self).
Proof.
  unfold _validate_dates, I1, I2, I3.
  destruct (deprecation_date self) as [dep|], (retirement_date self) as [ret|];
    repeat match goal with
    | |- context [dt_ltb ?a ?b] =>
        let E := fresh "E" in
        destruct (dt_ltb a b) eqn:E;
        [apply dt_ltb_not_le in E | apply dt_ltb_false_le in E]
    end; split; try done; try tauto; intros H; try discriminate H.
Qed.

Lemma init_runs_validation nm ver created dep ret w :
  __init__ nm ver (Some created) dep ret w =
  match _validate_dates (mk_Model nm ver created dep ret) with
  | Ok _ => (Ok (mk_Model nm ver created dep ret), w)
  | Raise e => (Raise e, w)
  end.
Proof. unfold __init__. run. by destruct (_validate_dates _) as [[]|]. Qed.

(** C5.  Construction with given timestamps succeeds exactly when I1, I2
    and I3 hold, and then yields the entity with the values given; the
    checks run in the order I1, I2, I3, and the first one violated decides
    which of three different errors is raised.  Nothing else changes. *)
Theorem construction_validates_in_order
    (nm ver : string) (created : datetime) (dep ret : option datetime) (w : World) :
  let outcome := __init__ nm ver (Some created) dep ret w in
  (is_ok (fst outcome) = true <-> I1 created dep /\ I2 dep ret /\ I3 created dep ret) /\
  (I1 created dep /\ I2 dep ret /\ I3 created dep ret ->
     outcome = (Ok (mk_Model nm ver created dep ret), w)) /\
  (~ I1 created dep -> outcome = (Raise deprecation_before_creation, w)) /\
  (I1 created dep -> ~ I2 dep ret ->
     outcome = (Raise retirement_before_deprecation, w)) /\
  (I1 created dep -> I2 dep ret -> ~ I3 created dep ret ->
     outcome = (Raise retirement_before_creation, w)) /\
  deprecation_before_creation <> retirement_before_deprecation /\
  deprecation_before_creation <> retirement_before_creation /\
  retirement_before_deprecation <> retirement_before_creation.
Proof.
  intros outcome. subst outcome. rewrite init_runs_validation.
  unfold _validate_dates, I1, I2, I3. simpl.
  destruct dep as [dep|], ret as [ret|];
    repeat match goal with
    | |- context [dt_ltb ?a ?b] =>
        let E := fresh "E" in
        destruct (dt_ltb a b) eqn:E;
        [apply dt_ltb_not_le in E | apply dt_ltb_false_le in E]
    end; simpl; repeat split; try done; try tauto; try discriminate.
Qed.

(** C6, as stated, fails: construction with an empty name and an empty
    version succeeds and yields an entity whose name and version are
    empty. *)
Lemma empty_name_and_version_accepted :
  __init__ EmptyString EmptyString (Some t0) None None world0
    = (Ok (mk_Model EmptyString EmptyString t0 None None), world0) /\
  name (mk_Model EmptyString EmptyString t0 None None) = EmptyString /\
  version (mk_Model EmptyString EmptyString t0 None None) = EmptyString.
Proof. repeat split. Qed.

Lemma init_outcome nm ver created dep ret w :
  let c := default (clock w (ticks w)) created in
  let w1 := match created with Some _ => w | None => tick w end in
  __init__ nm ver created dep ret w =
  match _validate_dates (mk_Model nm ver c dep ret) with
  | Ok _ => (Ok (mk_Model nm ver c dep ret), w1)
  | Raise e => (Raise e, w1)
  end.
Proof.
  unfold __init__, now. run.
  destruct created as [c|]; simpl; by destruct (_validate_dates _) as [[]|].
Qed.

(** C6, amended.  Every successfully constructed entity carries exactly the
    name and the version it was given, and construction does not look at
    them: whether it succeeds depends on the timestamps alone, so an empty
    name or version is taken like any other. *)
Theorem construction_keeps_name_and_version
    (nm ver : string) (created dep ret : option datetime) (w : World) :
  (forall self w', __init__ nm ver created dep ret w = (Ok self, w') ->
     name self = nm /\ version self = ver) /\
  (forall nm' ver',
     is_ok (fst (__init__ nm' ver' created dep ret w))
     = is_ok (fst (__init__ nm ver created dep ret w))).
Proof.
  split.
  - intros self w'. rewrite init_outcome. cbv zeta.
    destruct (_validate_dates _); intros [= <- _]; done.
  - intros nm' ver'. rewrite !init_outcome. cbv zeta.
    unfold _validate_dates. simpl.
    repeat case_match; done.
Qed.

(** ** Listing by status *)

Lemma get_status_at self t w :
  get_status self (Some t) w = (Ok (status_at self t), w).
Proof. unfold get_status, status_at. run. by repeat case_match. Qed.

Lemma get_models_by_status_filter status t w :
  get_models_by_status status (Some t) w
  = (Ok (filter (fun m => status_at m t = status) (_models (registry w))), w).
Proof.
  unfold get_models_by_status. run.
  induction (_models (registry w)) as [|m ms IH]; [done|].
  cbn [comprehension_if]. run. rewrite get_status_at, IH.
  rewrite filter_cons.
  destruct (decide (status_at m t = status)) as [E|E];
    [rewrite bool_decide_eq_true_2 by done|rewrite bool_decide_eq_false_2 by done];
    done.
Qed.

Lemma filter_by_status_partition (ms : list Model) t :
  filter (fun m => status_at m t = ACTIVE) ms
  ++ filter (fun m => status_at m t = DEPRECATED) ms
  ++ filter (fun m => status_at m t = RETIRED) ms ≡ₚ ms.
Proof.
  induction ms as [|m ms IH]; [done|].
  rewrite !filter_cons.
  destruct (status_at m t); repeat case_decide; try done; simpl.
  - by rewrite IH.
  - rewrite <- Permutation_middle. by rewrite IH.
  - rewrite app_assoc, <- Permutation_middle, <- app_assoc. by rewrite IH.
Qed.

(** C9.  For every registry and every explicit reference time, the three
    lists by status partition the enumeration: together they are the
    enumeration up to order, each keeps the enumeration's relative order,
    and every entity of the enumeration is in exactly one of them. *)
Theorem list_by_status_partitions (t : datetime) (w : World) :
  exists active deprecated retired all : list Model,
    get_models_by_status ACTIVE (Some t) w = (Ok active, w) /\
    get_models_by_status DEPRECATED (Some t) w = (Ok deprecated, w) /\
    get_models_by_status RETIRED (Some t) w = (Ok retired, w) /\
    get_all_models w = (Ok all, w) /\
    active ++ deprecated ++ retired ≡ₚ all /\
    sublist active all /\ sublist deprecated all /\ sublist retired all /\
    (forall m, m ∈ all ->
       (m ∈ active /\ (m ∉ deprecated) /\ (m ∉ retired)) \/
       ((m ∉ active) /\ m ∈ deprecated /\ (m ∉ retired)) \/
       ((m ∉ active) /\ (m ∉ deprecated) /\ m ∈ retired)).
Proof.
  eexists _, _, _, _.
  rewrite !get_models_by_status_filter.
  repeat (split; [reflexivity|]).
  split; [apply filter_by_status_partition|].
  repeat (split; [apply sublist_filter|]).
  intros m Hm. rewrite !list_elem_of_filter.
  destruct (status_at m t) eqn:E; [left|right; left|right; right];
    repeat split; try done; intros [? _]; congruence.
Qed.

(** ** Lookup and removal *)

Lemma key_matches_key nm ver m :
  key_matches nm ver m = true <-> key m = (nm, ver).
Proof.
  unfold key_matches, key. rewrite andb_true_iff, !String.eqb_eq.
  split; [by intros [-> ->]|by intros [= -> ->]].
Qed.

Lemma get_model_in_first ms1 m ms2 nm ver :
  Forall (fun x => key_matches nm ver x = false) ms1 ->
  key_matches nm ver m = true ->
  get_model_in (ms1 ++ m :: ms2) nm ver = Some m.
Proof.
  intros Hno Hm. induction Hno as [|x ms1 Hx _ IH]; simpl.
  - by rewrite Hm.
  - by rewrite Hx.
Qed.

Lemma get_model_in_none ms nm ver :
  get_model_in ms nm ver = None <->
  Forall (fun x => key_matches nm ver x = false) ms.
Proof.
  induction ms as [|x ms IH]; simpl.
  - split; [constructor|done].
  - destruct (key_matches nm ver x) eqn:E.
    + split; [done|]. intros H. inversion H; congruence.
    + rewrite IH. split; [by constructor|]. intros H. by inversion H.
Qed.

(** Where [get_model] finds its answer: the list splits at the first
    element with the key. *)
Lemma get_model_in_some ms nm ver m :
  get_model_in ms nm ver = Some m ->
  exists ms1 ms2,
    ms = ms1 ++ m :: ms2 /\
    Forall (fun x => key_matches nm ver x = false) ms1 /\
    key_matches nm ver m = true.
Proof.
  induction ms as [|x ms IH]; simpl; [done|].
  destruct (key_matches nm ver x) eqn:E.
  - intros [= ->]. exists [], ms. by repeat split.
  - intros H. destruct (IH H) as (ms1 & ms2 & -> & Hno & Hm).
    exists (x :: ms1), ms2. repeat split; [|done]. by constructor.
Qed.

(** [list.remove] of the element [get_model] found drops the element at
    the position of the find: an element before it has another key, so it
    is neither that object nor equal to it. *)
Lemma remove_first_found ms1 m ms2 nm ver :
  Forall (fun x => key_matches nm ver x = false) ms1 ->
  key_matches nm ver m = true ->
  remove_first m (ms1 ++ m :: ms2) = Some (ms1 ++ ms2).
Proof.
  intros Hno Hm. induction Hno as [|x ms1 Hx _ IH]; simpl.
  - by rewrite decide_True.
  - rewrite decide_False by congruence. by rewrite IH.
Qed.

Lemma get_model_run nm ver w :
  get_model nm ver w = (Ok (get_model_in (_models (registry w)) nm ver), w).
Proof. reflexivity. Qed.

Lemma remove_model_run nm ver w :
  remove_model nm ver w =
  match get_model_in (_models (registry w)) nm ver with
  | Some m =>
      match remove_first m (_models (registry w)) with
      | Some ms => (Ok true, set_registry (mk_ModelRegistry ms) w)
      | None => (Raise (ValueError "list.remove(x): x not in list"), w)
      end
  | None => (Ok false, w)
  end.
Proof.
  unfold remove_model, list_remove, get_model. run.
  destruct (get_model_in _ _ _); [|done]. by destruct (remove_first _ _).
Qed.


Lemma world_dup_models : _models (registry world_dup) = [model_a; model_b].
Proof. vm_compute. reflexivity. Qed.


(** ** The round trip through text and dictionaries *)

Lemma digit_of_digit k : digit_of (digit k) = Some (k mod 10).
Proof.
  pose proof (Z.mod_pos_bound k 10 eq_refl) as Hr.
  unfold digit. set (r := k mod 10) in *.
  assert (r = 0 \/ r = 1 \/ r = 2 \/ r = 3 \/ r = 4 \/ r = 5 \/ r = 6
          \/ r = 7 \/ r = 8 \/ r = 9) as Hc by lia.
  clearbody r.
  repeat (destruct Hc as [-> | Hc]; [reflexivity|]). by subst.
Qed.

Lemma parse_two n :
  0 <= n < 100 -> parse_digits 0 [digit (n / 10); digit n] = Some n.
Proof.
  intros Hn. cbn [parse_digits]. rewrite !digit_of_digit. f_equal.
  Z.to_euclidean_division_equations. lia.
Qed.

Lemma parse_four n :
  0 <= n < 10000 ->
  parse_digits 0 [digit (n / 1000); digit (n / 100); digit (n / 10); digit n] = Some n.
Proof.
  intros Hn. cbn [parse_digits]. rewrite !digit_of_digit. f_equal.
  Z.to_euclidean_division_equations. lia.
Qed.

Lemma parse_six n :
  0 <= n < 1000000 ->
  parse_digits 0 [digit (n / 100000); digit (n / 10000); digit (n / 1000);
                  digit (n / 100); digit (n / 10); digit n] = Some n.
Proof.
  intros Hn. cbn [parse_digits]. rewrite !digit_of_digit. f_equal.
  Z.to_euclidean_division_equations. lia.
Qed.

Lemma chars_text cs : chars (text cs) = cs.
Proof. apply list_ascii_of_string_of_list_ascii. Qed.

Lemma check_fields_valid d : valid_datetime d -> check_fields d = None.
Proof. unfold valid_datetime, valid_datetimeb. by destruct (check_fields d). Qed.

Lemma valid_datetime_ranges d :
  valid_datetime d ->
  0 <= year d < 10000 /\ 0 <= month d < 100 /\ 0 <= day d < 100 /\
  0 <= hour d < 100 /\ 0 <= minute d < 100 /\ 0 <= second d < 100 /\
  0 <= microsecond d < 1000000.
Proof.
  intros Hv. apply check_fields_valid in Hv. revert Hv. unfold check_fields.
  repeat match goal with
         | |- context [negb ?b] =>
             let E := fresh "E" in destruct b eqn:E; simpl; [|discriminate]
         end.
  intros _.
  repeat match goal with
         | H : _ && _ = true |- _ => apply andb_true_iff in H as [? ?]
         end.
  assert (days_in_month (year d) (month d) <= 31).
  { unfold days_in_month. repeat case_match; lia. }
  lia.
Qed.

Lemma fromisoformat_isoformat d :
  valid_datetime d -> fromisoformat (isoformat d) = Ok d.
Proof.
  intros Hv. pose proof (valid_datetime_ranges d Hv) as (Hy & Hmo & Hd & Hh & Hmi & Hs & Hus).
  unfold fromisoformat, isoformat. rewrite chars_text.
  unfold fmt4, fmt2. cbn [app chars list_ascii_of_string].
  rewrite parse_four, !parse_two by done.
  destruct (microsecond d =? 0) eqn:Hz.
  - apply Z.eqb_eq in Hz. cbn [app parse_time].
    rewrite !parse_two by done. cbn [mbind option_bind].
    unfold colon, dash. rewrite !decide_True by done.
    replace (mk_datetime _ _ _ _ _ _ _) with d by (destruct d; simpl in *; congruence).
    by rewrite check_fields_valid.
  - unfold fmt6. cbn [app parse_time chars list_ascii_of_string].
    rewrite !parse_two, parse_six by done. cbn [mbind option_bind].
    unfold colon, dash, dot. rewrite !decide_True by done.
    replace (mk_datetime _ _ _ _ _ _ _) with d by (by destruct d).
    by rewrite check_fields_valid.
Qed.

Lemma isoformat_truthy d : truthy (JStr (isoformat d)) = true.
Proof. reflexivity. Qed.

Lemma to_dict_at self w :
  to_dict self w = (Ok (dict_at self (clock w (ticks w))), tick w).
Proof.
  unfold to_dict, dict_at, get_status, status_at, now. run.
  repeat match goal with
         | |- context [if ?b then _ else _] => destruct b
         end; reflexivity.
Qed.

Lemma optional_date_isoformat kvs key d :
  assoc key kvs = Some (isoformat_or_none d) ->
  from_option valid_datetime True d ->
  optional_date (JDict kvs) key = Ok d.
Proof.
  intros Hk Hv. unfold optional_date, dict_get, getitem. rewrite Hk. run.
  destruct d as [d|]; cbn [default from_option isoformat_or_none id] in *; [|done].
  rewrite isoformat_truthy. cbn [fromisoformat_value].
  by rewrite fromisoformat_isoformat.
Qed.

(** What [from_dict] does with a record whose five entries read well: it
    calls the constructor on them. *)
Lemma from_dict_calls_init data nm ver c d r w :
  getitem data "name" = Ok (JStr nm) ->
  getitem data "version" = Ok (JStr ver) ->
  (v ← getitem data "created_date"; fromisoformat_value v) = Ok c ->
  optional_date data "deprecation_date" = Ok d ->
  optional_date data "retirement_date" = Ok r ->
  from_dict data w = __init__ nm ver (Some c) d r w.
Proof.
  intros Hn Hv Hc Hd Hr. unfold from_dict.
  rewrite Hn, Hv, Hc, Hd, Hr. reflexivity.
Qed.

(** Deserializing the dictionary of a validated entity with representable
    timestamps gives the entity back, whatever [status] the dictionary
    carries. *)
Lemma from_dict_dict_at e t w :
  valid_dates e -> _validate_dates e = Ok tt ->
  from_dict (dict_at e t) w = (Ok e, w).
Proof.
  intros (Hc & Hd & Hr) Hval. unfold dict_at.
  rewrite (from_dict_calls_init _ (name e) (version e) (created_date e)
             (deprecation_date e) (retirement_date e)).
  - rewrite init_runs_validation. destruct e. simpl in *. by rewrite Hval.
  - reflexivity.
  - reflexivity.
  - simpl. by rewrite fromisoformat_isoformat.
  - by apply optional_date_isoformat.
  - by apply optional_date_isoformat.
Qed.

(** What the constructor returns has passed validation. *)
Lemma init_validated nm ver created dep ret w e w' :
  __init__ nm ver created dep ret w = (Ok e, w') -> _validate_dates e = Ok tt.
Proof.
  rewrite init_outcome. cbv zeta.
  destruct (_validate_dates _) as [[]|] eqn:Hval; [|discriminate].
  by intros [= <- _].
Qed.

(** The round trip on naive entities.  For every validly constructed
    entity [e] with naive timestamps, deserializing the dictionary
    [to_dict] gives for it succeeds and yields an entity with the same
    name, version and three timestamps, to the microsecond.
    Deserialization runs the constructor on the entries it reads, hence
    the same validation: a record with an invalid order of timestamps
    fails with the error construction raises for those timestamps.
    [round_trip_of_naive_milestones] below is the statement for entities
    with timestamps of both kinds. *)
Theorem from_dict_to_dict_round_trip
    (nm ver : string) (created dep ret : option datetime)
    (w0 w0' : World) (e : Model) (w : World) :
  __init__ nm ver created dep ret w0 = (Ok e, w0') ->
  valid_dates e ->
  (exists data w1, to_dict e w = (Ok data, w1) /\ from_dict data w1 = (Ok e, w1)) /\
  deserialization_revalidates.
Proof.
  intros Hinit Hv. split.
  - rewrite to_dict_at. eexists _, _. split; [reflexivity|].
    apply from_dict_dict_at; [done|]. by eapply init_validated.
  - intros data nm' ver' c d r w' Hn Hver Hc Hd Hr.
    rewrite (from_dict_calls_init _ _ _ _ _ _ _ Hn Hver Hc Hd Hr).
    split; [done|]. intros Hbad. rewrite init_runs_validation.
    destruct (_validate_dates (mk_Model nm' ver' c d r)) as [[]|e'] eqn:Hval.
    + exfalso. apply Hbad. by apply validate_dates_ok in Hval.
    + exists e'. split; [done|]. revert Hval. unfold _validate_dates.
      repeat case_match; intros [= <-]; auto.
Qed.

Lemma round_trip_witness :
  (exists data w1, to_dict model_full world0 = (Ok data, w1)
                   /\ from_dict data w1 = (Ok model_full, w1)) /\
  deserialization_revalidates.
Proof.
  apply (from_dict_to_dict_round_trip "M" "1.0"
           (Some (created_date model_full)) (deprecation_date model_full)
           (retirement_date model_full) world0 world0 model_full world0).
  - reflexivity.
  - repeat split.
Defined.

(** ** Load *)

(** [from_dict] passes a creation date to the constructor, so it reads no
    clock: whatever it answers, the world is as before. *)
Lemma from_dict_world data w : snd (from_dict data w) = w.
Proof.
  unfold from_dict. run.
  repeat match goal with
         | |- context [match ?r with Ok _ => _ | Raise _ => _ end] =>
             destruct r; cbn [snd]; try reflexivity
         end.
  rewrite init_outcome. cbv zeta. by destruct (_validate_dates _).
Qed.

Lemma comprehension_from_dict_world items w :
  snd (comprehension from_dict items w) = w.
Proof.
  revert w. induction items as [|x items IH]; intros w; [done|].
  cbn [comprehension]. run.
  pose proof (from_dict_world x w) as Hx.
  destruct (from_dict x w) as [[m|e] w1]; simpl in Hx; subst w1; [|done].
  specialize (IH w).
  destruct (comprehension from_dict items w) as [[ms|e] w2]; simpl in IH; by subst.
Qed.

(** The run of [load_from_file], step by step. *)
Lemma load_from_file_run loads filepath w :
  load_from_file loads filepath w =
  match files w !! filepath with
  | None => (Raise FileNotFoundError, w)
  | Some s =>
      if decide (filepath ∈ denied w) then (Raise OSError, w)
      else
        match (data ← loads s;
               listed ← dict_get data "models" (JList []);
               iter listed) with
        | Raise e => (Raise e, w)
        | Ok items =>
            match fst (comprehension from_dict items w) with
            | Raise e => (Raise e, w)
            | Ok ms => (Ok tt, set_registry (mk_ModelRegistry ms) w)
            end
        end
  end.
Proof.
  unfold load_from_file, read_text. run.
  destruct (files w !! filepath) as [s|]; [|done].
  destruct (decide _); [done|].
  destruct (loads s) as [data|]; [|done].
  destruct (dict_get data "models" (JList [])) as [listed|]; [|done].
  destruct (iter listed) as [items|]; [|done].
  pose proof (comprehension_from_dict_world items w) as Hw.
  destruct (comprehension from_dict items w) as [[ms|e] w1];
    simpl in *; by subst.
Qed.

(** C2.  Whenever Load fails, for whatever reason and so in particular
    because one entity of the file does not deserialize, the registry holds
    after the call exactly what it held before: nothing of the file has
    been taken over.  (The rest of the world is unchanged too.) *)
Theorem failed_load_changes_nothing
    (loads : string -> result json) (filepath : string) (w w' : World) (e : exn) :
  load_from_file loads filepath w = (Raise e, w') ->
  _models (registry w') = _models (registry w) /\ w' = w.
Proof.
  rewrite load_from_file_run. intros H.
  assert (w' = w) as ->; [|done].
  repeat case_match; by simplify_eq.
Qed.

Lemma failed_load_witness :
  let after bad := snd (load_from_file json_loads "registry.json" (world_bad bad)) in
  (_models (registry (after record_bad_order)) = [model_b]
   /\ after record_bad_order = world_bad record_bad_order) /\
  (_models (registry (after record_bad_timestamp)) = [model_b]
   /\ after record_bad_timestamp = world_bad record_bad_timestamp) /\
  (_models (registry (after record_no_version)) = [model_b]
   /\ after record_no_version = world_bad record_no_version).
Proof.
  split; [|split].
  - apply (failed_load_changes_nothing json_loads "registry.json"
             (world_bad record_bad_order) _ deprecation_before_creation).
    vm_compute. reflexivity.
  - apply (failed_load_changes_nothing json_loads "registry.json"
             (world_bad record_bad_timestamp) _ (invalid_isoformat "yesterday")).
    vm_compute. reflexivity.
  - apply (failed_load_changes_nothing json_loads "registry.json"
             (world_bad record_no_version) _ (KeyError "version")).
    vm_compute. reflexivity.
Defined.

(** C8, as stated, fails: the file of [world_no_models] is well-formed text
    without the [models] field, and loading it succeeds; the registry,
    which held [model_a], is left empty. *)
Lemma load_without_models_succeeds :
  files world_no_models !! "registry.json" = Some (json_dumps (JDict [("version", JInt 1)])) /\
  json_loads (json_dumps (JDict [("version", JInt 1)])) = Ok (JDict [("version", JInt 1)]) /\
  _models (registry world_no_models) = [model_a] /\
  load_from_file json_loads "registry.json" world_no_models
    = (Ok tt, set_registry (mk_ModelRegistry []) world_no_models).
Proof. repeat split; vm_compute; reflexivity. Qed.

(** C8, amended.  For every source record that is well-formed text for an
    object without the top-level [models] field, Load succeeds: the field
    defaults to the empty list and the registry is left empty. *)
Theorem load_without_models_empties
    (loads : string -> result json) (filepath s : string)
    (pairs : list (string * json)) (w : World) :
  files w !! filepath = Some s ->
  filepath ∉ denied w ->
  loads s = Ok (JDict pairs) ->
  assoc "models" pairs = None ->
  load_from_file loads filepath w = (Ok tt, set_registry (mk_ModelRegistry []) w).
Proof.
  intros Hf Hd Hl Hm. rewrite load_from_file_run, Hf.
  rewrite decide_False by done. rewrite Hl. simpl. by rewrite Hm.
Qed.

Lemma load_without_models_witness :
  load_from_file json_loads "registry.json" world_no_models
    = (Ok tt, set_registry (mk_ModelRegistry []) world_no_models).
Proof.
  apply (load_without_models_empties json_loads "registry.json"
           (json_dumps (JDict [("version", JInt 1)])) [("version", JInt 1)]).
  - reflexivity.
  - vm_compute. set_solver.
  - vm_compute. reflexivity.
  - reflexivity.
Defined.

(** ** Uniqueness of keys *)

Lemma get_model_in_none_key ms m :
  get_model_in ms (name m) (version m) = None <-> key m ∉ key <$> ms.
Proof.
  rewrite get_model_in_none, Forall_forall, list_elem_of_fmap.
  split.
  - intros H (x & Hk & Hx). specialize (H _ Hx).
    assert (key_matches (name m) (version m) x = true); [|congruence].
    by apply key_matches_key.
  - intros H x Hx. destruct (key_matches (name m) (version m) x) eqn:E; [|done].
    exfalso. apply H. exists x. split; [|done].
    by apply key_matches_key in E.
Qed.

(** Add keeps the keys distinct: it appends only a key that is not there. *)
Lemma add_model_I4 model w : I4 w -> I4 (snd (add_model model w)).
Proof.
  unfold I4, add_model, get_model. run. intros Hw.
  destruct (get_model_in _ _ _) eqn:E; [done|]. simpl.
  rewrite fmap_app. apply NoDup_app. repeat split; [done| |apply NoDup_singleton].
  intros k Hk Hin. simpl in Hin. apply list_elem_of_singleton in Hin as ->.
  by apply get_model_in_none_key in E.
Qed.

Lemma remove_first_sublist x ms ms' :
  remove_first x ms = Some ms' -> sublist ms' ms.
Proof.
  revert ms'. induction ms as [|y ms IH]; intros ms'; simpl; [done|].
  case_decide.
  - intros [= <-]. by apply sublist_cons.
  - destruct (remove_first x ms) as [r|]; simpl; [|done].
    intros [= <-]. apply sublist_skip. by apply IH.
Qed.

(** Remove keeps the keys distinct: it only takes an element out. *)
Lemma remove_model_I4 nm ver w : I4 w -> I4 (snd (remove_model nm ver w)).
Proof.
  unfold I4. rewrite remove_model_run. intros Hw.
  destruct (get_model_in _ _ _) as [m|]; [|done].
  destruct (remove_first _ _) as [ms|] eqn:E; [|done]. simpl.
  apply remove_first_sublist in E.
  eapply sublist_NoDup; [done|]. by apply fmap_sublist.
Qed.

(** C1 at its failing input: the world reached from an empty registry by
    one Load of a file that lists (GPT-4, 1.0) twice holds two entities
    with that key, so I4 does not hold in it. *)
Theorem load_admits_duplicate_keys :
  reachable json_loads world_dup /\
  _models (registry world_dup) = [model_a; model_b] /\
  key model_a = key model_b /\
  ~ I4 world_dup.
Proof.
  split; [|split; [|split]].
  - apply reach_load; [apply reach_new; reflexivity|exact I].
  - apply world_dup_models.
  - reflexivity.
  - unfold I4. rewrite world_dup_models. simpl.
    intros H. apply NoDup_cons in H as [H _]. apply H. set_solver.
Qed.

Lemma from_dict_key item w m w' :
  from_dict item w = (Ok m, w') ->
  record_key item = (Ok (JStr (name m)), Ok (JStr (version m))).
Proof.
  unfold from_dict, record_key. run.
  destruct (getitem item "name") as [nm|]; [|done].
  destruct (getitem item "version") as [ver|]; [|done].
  destruct nm, ver; cbn [as_str];
    repeat match goal with
           | |- context [match ?r with Ok _ => _ | Raise _ => _ end] =>
               destruct r; try done
           end.
  rewrite init_outcome. cbv zeta.
  destruct (_validate_dates _); [|done]. by intros [= <- _].
Qed.

Lemma comprehension_from_dict_keys items w ms w' :
  comprehension from_dict items w = (Ok ms, w') ->
  record_key <$> items
  = (fun k => (Ok (JStr (fst k)), Ok (JStr (snd k)))) <$> (key <$> ms).
Proof.
  revert w ms w'. induction items as [|x items IH]; intros w ms w'.
  - by intros [= <- _].
  - cbn [comprehension]. run.
    destruct (from_dict x w) as [[m|e] w1] eqn:Hx; [|done].
    destruct (comprehension from_dict items w1) as [[ms1|e] w2] eqn:Hr; [|done].
    intros [= <- _]. rewrite !fmap_cons.
    rewrite (from_dict_key _ _ _ _ Hx), (IH _ _ _ Hr). done.
Qed.

(** A Load that succeeds installs one entity per record of the file, with
    the record's name and version: the keys are as distinct as the file's. *)
Lemma load_from_file_I4 loads filepath w :
  lists_distinct_keys loads w filepath ->
  I4 w -> I4 (snd (load_from_file loads filepath w)).
Proof.
  intros Hfile Hw. rewrite load_from_file_run.
  destruct (files w !! filepath) as [s|] eqn:Hs; [|done].
  destruct (decide _); [done|].
  destruct (_ ← loads s; _) as [items|] eqn:Hitems; [|done].
  destruct (comprehension from_dict items w) as [[ms|e] w1] eqn:Hc; [|done].
  simpl. unfold I4. simpl.
  specialize (Hfile s items Hs Hitems).
  rewrite (comprehension_from_dict_keys _ _ _ _ Hc) in Hfile.
  by apply NoDup_fmap_1 in Hfile.
Qed.

(** X1.  Starting from an empty registry, any sequence of Add and Remove
    calls, and of Load calls on files that list no key twice, leaves a
    registry in which no two entities share their (name, version). *)
Theorem unique_keys_invariant (loads : string -> result json) (w : World) :
  reachable_by (lists_distinct_keys loads) loads w -> I4 w.
Proof.
  induction 1 as [w Hnew|w model _ IH|w nm ver _ IH|w filepath _ IH Hok|w w' _ IH Heq].
  - unfold I4. rewrite Hnew. constructor.
  - by apply add_model_I4.
  - by apply remove_model_I4.
  - by apply load_from_file_I4.
  - unfold I4 in *. by rewrite Heq.
Qed.

Lemma unique_keys_witness :
  _models (registry world_clean)
    = [model_a; mk_Model "GPT-4" "2.0" (mk_datetime 2024 3 1 0 0 0 0) None None]
  /\ I4 world_clean.
Proof.
  split; [vm_compute; reflexivity|].
  apply (unique_keys_invariant json_loads world_clean).
  unfold world_clean. cbv zeta.
  apply reach_load; [apply reach_remove, reach_add, reach_add, reach_new; reflexivity|].
  intros s items Hs Hitems.
  vm_compute in Hs. injection Hs as <-.
  vm_compute in Hitems. injection Hitems as <-.
  vm_compute. apply NoDup_cons. split; [|apply NoDup_singleton].
  intros H%list_elem_of_singleton. discriminate H.
Defined.

(** ** Save *)

Lemma advance_tick n w : advance n (tick w) = advance (S n) w.
Proof. unfold advance, tick. simpl. f_equal. lia. Qed.

Lemma comprehension_to_dict ms w :
  comprehension to_dict ms w
  = (Ok (dicts_from (clock w) (ticks w) ms), advance (length ms) w).
Proof.
  revert w. induction ms as [|m ms IH]; intros w.
  - by destruct w.
  - cbn [comprehension]. run. rewrite to_dict_at, IH.
    by rewrite advance_tick.
Qed.

(** The run of [save_to_file], step by step: the dictionaries are built,
    the parent directory is made, the file is opened, which empties it,
    and the text is written as far as the medium takes it. *)
Lemma save_to_file_run dumps filepath w :
  save_to_file dumps filepath w =
  let new := saved_text dumps w in
  let w1 := advance (length (_models (registry w))) w in
  if decide (filepath ∈ no_parent w) then (Raise OSError, w1)
  else if decide (filepath ∈ denied w) then (Raise OSError, w1)
  else
    match quota w with
    | None => (Ok tt, set_files (<[filepath := new]> (files w)) w1)
    | Some q =>
        if decide (String.length new ≤ q)%nat
        then (Ok tt, set_quota (Some (q - String.length new)%nat)
                       (set_files (<[filepath := new]> (files w)) w1))
        else (Raise OSError,
              set_quota (Some 0%nat)
                (set_files (<[filepath := text (take q (chars new))]> (files w)) w1))
    end.
Proof.
  unfold save_to_file, mkdir_parent, open_w, write, saved_text, saved_data. run.
  rewrite comprehension_to_dict. cbv zeta. simpl.
  destruct (decide (filepath ∈ no_parent w)) as [Hp|Hp]; simpl; [reflexivity|].
  destruct (decide (filepath ∈ denied w)) as [Hd|Hd]; simpl; [reflexivity|].
  rewrite lookup_insert_eq. unfold set_files, set_quota.
  destruct (quota w) as [q|]; [case_decide|];
    cbn [default from_option id String.append files registry denied no_parent
         quota clock ticks advance];
    rewrite insert_insert_eq; reflexivity.
Qed.

(** C3, as stated, fails: a Save that the medium cuts short after ten
    characters raises, and the destination then holds the first ten
    characters of the new text, which is neither the new text nor the text
    the file held before. *)
Lemma save_cut_short_is_observable :
  let out := save_to_file json_dumps "registry.json" world_short in
  let new := saved_text json_dumps world_short in
  fst out = Raise OSError /\
  files world_short !! "registry.json" = Some old_text /\
  files (snd out) !! "registry.json" = Some (text (take 10 (chars new))) /\
  text (take 10 (chars new)) <> new /\
  text (take 10 (chars new)) <> old_text.
Proof. cbv zeta. repeat split; vm_compute; congruence. Qed.

(** C3, amended.  Save writes in place.  It succeeds exactly when the
    destination can be opened and the medium takes the whole text, and the
    destination then holds exactly the new text.  When it fails before the
    destination is opened, the destination keeps its prior content; when it
    fails while writing, the destination holds the part of the new text
    that was written, a proper prefix of it, and the prior content is
    gone.  The registry and every other file are as before. *)
Theorem save_writes_in_place
    (dumps : json -> string) (filepath : string) (w : World) :
  let new := saved_text dumps w in
  let r := fst (save_to_file dumps filepath w) in
  let w' := snd (save_to_file dumps filepath w) in
  let can_open := (filepath ∉ no_parent w) /\ (filepath ∉ denied w) in
  registry w' = registry w /\
  (forall p, p <> filepath -> files w' !! p = files w !! p) /\
  (r = Ok tt <->
     can_open /\
     (quota w = None \/ exists q, quota w = Some q /\ (String.length new <= q)%nat)) /\
  (r = Ok tt -> files w' !! filepath = Some new) /\
  (forall e, r = Raise e ->
     e = OSError /\
     (~ can_open /\ files w' !! filepath = files w !! filepath
      \/ can_open /\ exists q,
           quota w = Some q /\ (q < String.length new)%nat /\
           files w' !! filepath = Some (text (take q (chars new))))).
Proof.
  cbv zeta. rewrite save_to_file_run. cbv zeta.
  destruct (decide (filepath ∈ no_parent w)) as [Hp|Hp];
    [|destruct (decide (filepath ∈ denied w)) as [Hd|Hd];
      [|destruct (quota w) as [q|] eqn:Hq;
        [destruct (decide (String.length (saved_text dumps w) ≤ q)%nat) as [Hl|Hl]|]]];
    cbn [fst snd registry files advance set_files set_quota]; split_and!;
    try done.
  - split; [done|]. intros [[? ?] _]. done.
  - intros e [= <-]. split; [done|]. left. tauto.
  - split; [done|]. intros [[? ?] _]. done.
  - intros e [= <-]. split; [done|]. left. tauto.
  - intros p Hne. by rewrite lookup_insert_ne.
  - split; [|done]. intros _. split; [done|]. right. eauto.
  - intros _. by rewrite lookup_insert_eq.
  - intros p Hne. by rewrite lookup_insert_ne.
  - split; [done|]. intros (_ & [[=]|(q' & [= <-] & Hle)]). lia.
  - intros e [= <-]. split; [done|]. right. split; [done|]. exists q.
    rewrite lookup_insert_eq. split_and!; [done|lia|done].
  - intros p Hne. by rewrite lookup_insert_ne.
  - split; [|done]. intros _. split; [done|]. by left.
  - intros _. by rewrite lookup_insert_eq.
Qed.

(** ** The scenarios of the specification *)

(** Created at T0, deprecated thirty days later, retired a year later:
    active at T0, deprecated from the thirtieth day, retired from the
    365th. *)
Example status_scenario :
  let m := mk_Model "M" "1.0" t0 (Some (mk_datetime 2024 1 31 0 0 0 0))
                    (Some (mk_datetime 2024 12 31 0 0 0 0)) in
  fst (get_status m (Some t0) world0) = Ok ACTIVE /\
  fst (get_status m (Some (mk_datetime 2024 1 30 23 59 59 999999)) world0) = Ok ACTIVE /\
  fst (get_status m (Some (mk_datetime 2024 1 31 0 0 0 0)) world0) = Ok DEPRECATED /\
  fst (get_status m (Some (mk_datetime 2024 12 31 0 0 0 0)) world0) = Ok RETIRED /\
  fst (get_status m (Some (mk_datetime 2025 2 4 0 0 0 0)) world0) = Ok RETIRED.
Proof. repeat split. Qed.

(** A deprecation date one day before the creation date is refused. *)
Example construction_scenario :
  __init__ "M" "1.0" (Some t0) (Some (mk_datetime 2023 12 31 0 0 0 0)) None world0
  = (Raise deprecation_before_creation, world0).
Proof. reflexivity. Qed.

(** The second Add of a key fails and leaves the one entity in place. *)
Example add_twice_scenario :
  let w1 := snd (add_model model_a world0) in
  add_model model_b w1 = (Raise (already_exists model_b), w1) /\
  _models (registry w1) = [model_a].
Proof. split; reflexivity. Qed.

(** ** Further properties *)

(** X2.  For an entity that passed validation and has both milestones, the
    status is Active strictly before the deprecation date, Deprecated from
    the deprecation date up to, not including, the retirement date, and
    Retired from the retirement date on. *)
Theorem status_intervals
    (self : Model) (dep ret t : datetime) (w : World) :
  _validate_dates self = Ok tt ->
  deprecation_date self = Some dep ->
  retirement_date self = Some ret ->
  (get_status self (Some t) w = (Ok ACTIVE, w) <-> ~ dt_le dep t) /\
  (get_status self (Some t) w = (Ok DEPRECATED, w) <-> dt_le dep t /\ ~ dt_le ret t) /\
  (get_status self (Some t) w = (Ok RETIRED, w) <-> dt_le ret t).
Proof.
  intros Hval Hd Hr. rewrite get_status_at. unfold status_at. rewrite Hd, Hr.
  apply validate_dates_ok in Hval as (_ & H2 & _).
  rewrite Hd, Hr in H2. simpl in H2.
  destruct (dt_geb t ret) eqn:Er; [apply dt_geb_le in Er|apply dt_geb_false_not_le in Er];
    (destruct (dt_geb t dep) eqn:Ed;
       [apply dt_geb_le in Ed|apply dt_geb_false_not_le in Ed]);
    try (exfalso; apply Ed; by eapply dt_le_trans);
    split_and!; split; intros; try done; try tauto; try congruence.
Qed.

Lemma status_intervals_witness :
  let t := mk_datetime 2024 6 1 12 0 0 0 in
  (get_status model_full (Some t) world0 = (Ok ACTIVE, world0)
     <-> ~ dt_le (mk_datetime 2024 1 31 0 0 0 0) t) /\
  (get_status model_full (Some t) world0 = (Ok DEPRECATED, world0)
     <-> dt_le (mk_datetime 2024 1 31 0 0 0 0) t
         /\ ~ dt_le (mk_datetime 2024 12 31 23 59 59 999999) t) /\
  (get_status model_full (Some t) world0 = (Ok RETIRED, world0)
     <-> dt_le (mk_datetime 2024 12 31 23 59 59 999999) t).
Proof.
  apply (status_intervals model_full (mk_datetime 2024 1 31 0 0 0 0)
           (mk_datetime 2024 12 31 23 59 59 999999)
           (mk_datetime 2024 6 1 12 0 0 0) world0); reflexivity.
Defined.

Lemma filter_key_absent (k : string * string) (ms : list Model) :
  k ∉ key <$> ms -> filter (fun x => key x = k) ms = [].
Proof.
  induction ms as [|m ms IH]; [done|]. rewrite fmap_cons, not_elem_of_cons.
  intros [Hne Hnin]. rewrite filter_cons_False by congruence. by apply IH.
Qed.

(** X3.  Add: when the registry holds an entity with the key of the new
    one, the call raises and nothing changes; otherwise the new entity goes
    to the end of the list.  After a successful Add in a registry with
    distinct keys, a second Add of the same key fails and the registry holds
    exactly one entity with that key. *)
Theorem add_model_outcome (model : Model) (w : World) :
  let ms := _models (registry w) in
  (key model ∈ key <$> ms ->
     add_model model w = (Raise (already_exists model), w)) /\
  (key model ∉ key <$> ms ->
     add_model model w = (Ok tt, set_registry (mk_ModelRegistry (ms ++ [model])) w)) /\
  (forall model' w1,
     I4 w -> add_model model w = (Ok tt, w1) -> key model' = key model ->
     add_model model' w1 = (Raise (already_exists model'), w1) /\
     length (filter (fun x => key x = key model) (_models (registry w1))) = 1%nat).
Proof.
  cbv zeta.
  assert (Hin : key model ∈ key <$> _models (registry w) ->
                add_model model w = (Raise (already_exists model), w)).
  { intros Hin. unfold add_model, get_model. run.
    destruct (get_model_in _ _ _) eqn:E; [done|].
    by apply get_model_in_none_key in E. }
  assert (Hout : key model ∉ key <$> _models (registry w) ->
                 add_model model w
                 = (Ok tt, set_registry
                             (mk_ModelRegistry (_models (registry w) ++ [model])) w)).
  { intros Hnin. apply get_model_in_none_key in Hnin.
    unfold add_model, get_model. run. by rewrite Hnin. }
  split_and!; [done|done|].
  intros model' w1 Hw Hadd Hkey.
  destruct (decide (key model ∈ key <$> _models (registry w))) as [Hi|Hn].
  { rewrite Hin in Hadd by done. discriminate. }
  rewrite Hout in Hadd by done. injection Hadd as <-. split.
  - unfold add_model, get_model. run. simpl.
    destruct (get_model_in _ _ _) eqn:E; [done|].
    apply get_model_in_none_key in E. exfalso. apply E.
    rewrite fmap_app, Hkey. set_solver.
  - simpl. rewrite filter_app, length_app, filter_cons_True by done. simpl.
    by rewrite filter_key_absent.
Qed.

(** X4.  Remove of a key the registry does not hold returns [False] and
    changes nothing; Remove of a key it holds returns [True]. *)
Theorem remove_model_outcome (nm ver : string) (w : World) :
  ((nm, ver) ∉ key <$> _models (registry w) ->
     remove_model nm ver w = (Ok false, w)) /\
  ((nm, ver) ∈ key <$> _models (registry w) ->
     fst (remove_model nm ver w) = Ok true /\
     length (_models (registry (snd (remove_model nm ver w))))
       = pred (length (_models (registry w)))).
Proof.
  rewrite remove_model_run. split.
  - intros Hn. destruct (get_model_in _ nm ver) as [m|] eqn:E; [|done].
    apply get_model_in_some in E as (ms1 & ms2 & Hms & _ & Hm).
    exfalso. apply Hn. rewrite Hms, fmap_app, fmap_cons.
    apply key_matches_key in Hm. rewrite Hm. set_solver.
  - intros Hi. destruct (get_model_in _ nm ver) as [m|] eqn:E.
    + apply get_model_in_some in E as (ms1 & ms2 & Hms & Hno & Hm).
      rewrite Hms, (remove_first_found _ _ _ _ _ Hno Hm). simpl.
      split; [done|]. rewrite !length_app. simpl. lia.
    + exfalso. apply get_model_in_none in E.
      apply list_elem_of_fmap in Hi as (x & Hk & Hx).
      rewrite Forall_forall in E. specialize (E _ Hx).
      assert (key_matches nm ver x = true); [|congruence].
      by apply key_matches_key.
Qed.

Lemma comprehension_from_dict_dicts clk k ms w :
  Forall well_formed ms ->
  comprehension from_dict (dicts_from clk k ms) w = (Ok ms, w).
Proof.
  intros Hms. revert k. induction Hms as [|m ms [Hv Hval] _ IH]; intros k; [done|].
  cbn [dicts_from comprehension]. run.
  by rewrite from_dict_dict_at, IH.
Qed.

(** X5.  Save and then Load of the same path, by a registry with whatever
    contents, reproduces the saved entities in their order: same names,
    versions and timestamps.  The entities are validated ones with
    timestamps Python can hold, and the codec reads back the text it wrote
    for them. *)
Theorem save_then_load
    (dumps : json -> string) (loads : string -> result json)
    (filepath : string) (w : World) (others : list Model) :
  Forall well_formed (_models (registry w)) ->
  loads (saved_text dumps w) = Ok (saved_data w) ->
  fst (save_to_file dumps filepath w) = Ok tt ->
  let w1 := set_registry (mk_ModelRegistry others)
              (snd (save_to_file dumps filepath w)) in
  load_from_file loads filepath w1
  = (Ok tt, set_registry (mk_ModelRegistry (_models (registry w))) w1).
Proof.
  intros Hms Hcodec Hsave w1.
  assert (Hfile : files w1 !! filepath = Some (saved_text dumps w)
                  /\ denied w1 = denied w /\ filepath ∉ denied w).
  { subst w1. revert Hsave. rewrite save_to_file_run. cbv zeta.
    repeat case_match; simpl; try discriminate; intros _;
      by rewrite lookup_insert_eq. }
  destruct Hfile as (Hf & Hd & Hnd).
  rewrite load_from_file_run, Hf, Hd, decide_False by done.
  rewrite Hcodec. cbn [mbind result_bind saved_data dict_get assoc String.eqb
                       Ascii.eqb Bool.eqb default from_option id iter].
  by rewrite comprehension_from_dict_dicts.
Qed.

Lemma save_then_load_witness :
  let w1 := set_registry (mk_ModelRegistry [])
              (snd (save_to_file json_dumps "registry.json" world_two)) in
  load_from_file json_loads "registry.json" w1
  = (Ok tt, set_registry (mk_ModelRegistry [model_a; model_full]) w1).
Proof.
  apply (save_then_load json_dumps json_loads "registry.json" world_two []).
  - repeat constructor.
  - vm_compute. reflexivity.
  - vm_compute. reflexivity.
Defined.

(** A record whose deprecation date is before its creation date fails to
    deserialize with the error of construction. *)
Example from_dict_scenario :
  from_dict record_bad_order world0 = (Raise deprecation_before_creation, world0) /\
  __init__ "GPT-3" "1.0" (Some t0) (Some (mk_datetime 2023 12 31 0 0 0 0)) None world0
    = (Raise deprecation_before_creation, world0).
Proof. split; reflexivity. Qed.

(** ** More on status *)

(** X6.  The status never goes back as the reference time advances: for
    [t] not later than [t'], the status at [t'] is the status at [t] or a
    later stage of the lifecycle. *)
Theorem status_never_goes_back
    (self : Model) (t t' : datetime) (w w' : World) :
  dt_le t t' ->
  exists s s',
    get_status self (Some t) w = (Ok s, w) /\
    get_status self (Some t') w' = (Ok s', w') /\
    (status_rank s <= status_rank s')%nat.
Proof.
  intros Hle. exists (status_at self t), (status_at self t').
  rewrite !get_status_at. split; [done|]. split; [done|].
  unfold status_at.
  destruct (retirement_date self) as [ret|], (deprecation_date self) as [dep|];
    repeat match goal with
           | |- context [dt_geb ?a ?b] =>
               let E := fresh "E" in
               destruct (dt_geb a b) eqn:E;
               [apply dt_geb_le in E | apply dt_geb_false_not_le in E]
           end; simpl; try lia;
    exfalso; eauto using dt_le_trans.
Qed.

Lemma status_never_goes_back_witness :
  exists s s',
    get_status model_full (Some (mk_datetime 2024 1 31 0 0 0 0)) world0 = (Ok s, world0) /\
    get_status model_full (Some (mk_datetime 2025 1 1 0 0 0 0)) world0 = (Ok s', world0) /\
    (status_rank s <= status_rank s')%nat.
Proof.
  apply (status_never_goes_back model_full (mk_datetime 2024 1 31 0 0 0 0)
           (mk_datetime 2025 1 1 0 0 0 0) world0 world0).
  vm_compute. discriminate.
Defined.

(** X7.  At an explicit reference time exactly one of [is_active],
    [is_deprecated] and [is_retired] answers [True], namely the one that
    names the status [get_status] answers; none of them changes
    anything. *)
Theorem status_predicates_exclusive (self : Model) (t : datetime) (w : World) :
  exists (s : ModelStatus) (a d r : bool),
    get_status self (Some t) w = (Ok s, w) /\
    is_active self (Some t) w = (Ok a, w) /\
    is_deprecated self (Some t) w = (Ok d, w) /\
    is_retired self (Some t) w = (Ok r, w) /\
    (a = true <-> s = ACTIVE) /\
    (d = true <-> s = DEPRECATED) /\
    (r = true <-> s = RETIRED) /\
    ((a, d, r) = (true, false, false) \/
     (a, d, r) = (false, true, false) \/
     (a, d, r) = (false, false, true)).
Proof.
  exists (status_at self t).
  unfold is_active, is_deprecated, is_retired. run.
  rewrite !get_status_at. eexists _, _, _.
  repeat (split; [reflexivity|]).
  rewrite !bool_decide_eq_true.
  repeat (split; [done|]).
  destruct (status_at self t); auto.
Qed.

(** X8.  With the creation date omitted, construction reads the clock once
    and then behaves as construction with that reading as creation date:
    same entity, same error. *)
Theorem construction_defaults_to_now
    (nm ver : string) (dep ret : option datetime) (w : World) :
  let t := clock w (ticks w) in
  ticks (snd (__init__ nm ver None dep ret w)) = S (ticks w) /\
  registry (snd (__init__ nm ver None dep ret w)) = registry w /\
  files (snd (__init__ nm ver None dep ret w)) = files w /\
  fst (__init__ nm ver None dep ret w) = fst (__init__ nm ver (Some t) dep ret w) /\
  (forall self, fst (__init__ nm ver None dep ret w) = Ok self ->
     created_date self = t /\ I1 t dep /\ I2 dep ret /\ I3 t dep ret).
Proof.
  cbv zeta. rewrite !init_outcome. cbv zeta. simpl.
  destruct (_validate_dates _) as [[]|e] eqn:Hval; simpl; split_and!; try done.
  intros self [= <-]. split; [done|]. by apply validate_dates_ok in Hval.
Qed.

(** ** More on deserialization *)

Lemma optional_date_cases pairs k :
  optional_date (JDict pairs) k =
  match assoc k pairs with
  | Some v => if truthy v then (d ← fromisoformat_value v; Ok (Some d)) else Ok None
  | None => Ok None
  end.
Proof.
  unfold optional_date, dict_get, getitem. run.
  destruct (assoc k pairs) as [v|]; simpl; [|done]. by destruct (truthy v).
Qed.

(** What a successful [from_dict] has read. *)
Lemma from_dict_ok_inv pairs w self w' :
  from_dict (JDict pairs) w = (Ok self, w') ->
  exists cs,
    assoc "name" pairs = Some (JStr (name self)) /\
    assoc "version" pairs = Some (JStr (version self)) /\
    assoc "created_date" pairs = Some (JStr cs) /\
    fromisoformat cs = Ok (created_date self) /\
    optional_date (JDict pairs) "deprecation_date" = Ok (deprecation_date self) /\
    optional_date (JDict pairs) "retirement_date" = Ok (retirement_date self) /\
    _validate_dates self = Ok tt /\ w' = w.
Proof.
  unfold from_dict, getitem. run.
  destruct (assoc "name" pairs) as [nm|]; [|done].
  destruct (assoc "version" pairs) as [ver|]; [|done].
  destruct (assoc "created_date" pairs) as [cv|]; [|done].
  destruct cv as [| | |cs| |]; simpl; try done.
  destruct (fromisoformat cs) as [c|] eqn:Hc; [|done].
  destruct (optional_date _ "deprecation_date") as [dep|]; [|done].
  destruct (optional_date _ "retirement_date") as [ret|]; [|done].
  destruct nm as [| | |nm| |]; simpl; try done.
  destruct ver as [| | |ver| |]; simpl; try done.
  rewrite init_runs_validation.
  destruct (_validate_dates _) as [[]|] eqn:Hval; [|done].
  intros [= <- <-]. exists cs. by split_and!.
Qed.

(** X9.  [from_dict] reads five entries of the record and nothing else:
    two records that agree on [name], [version], [created_date],
    [deprecation_date] and [retirement_date] deserialize alike, whatever
    their [status] and other entries say. *)
Theorem from_dict_reads_five_entries
    (pairs pairs' : list (string * json)) (w : World) :
  Forall (fun k => assoc k pairs = assoc k pairs') entries_read ->
  from_dict (JDict pairs) w = from_dict (JDict pairs') w.
Proof.
  unfold entries_read. rewrite !Forall_cons.
  intros (Hn & Hv & Hc & Hd & Hr & _).
  unfold from_dict. rewrite !optional_date_cases. unfold getitem.
  by rewrite Hn, Hv, Hc, Hd, Hr.
Qed.

Lemma from_dict_reads_five_entries_witness :
  from_dict record_a world0 = from_dict record_a_relabelled world0.
Proof.
  apply (from_dict_reads_five_entries _ _ world0).
  unfold entries_read. repeat (constructor; [reflexivity|]). constructor.
Defined.

(** X10.  The errors of [from_dict] on a record that lacks what it needs,
    in the order the entries are read: [TypeError] when the record is not
    a dictionary; [KeyError] for the first of [name], [version] and
    [created_date] that is missing; the error of [fromisoformat] or
    [TypeError] when the creation date is no timestamp.  In each case
    nothing changes. *)
Theorem from_dict_missing_entries (data : json) (w : World) :
  ((forall pairs, data <> JDict pairs) -> from_dict data w = (Raise TypeError, w)) /\
  (forall pairs, data = JDict pairs ->
     (assoc "name" pairs = None ->
        from_dict data w = (Raise (KeyError "name"), w)) /\
     (assoc "name" pairs <> None -> assoc "version" pairs = None ->
        from_dict data w = (Raise (KeyError "version"), w)) /\
     (assoc "name" pairs <> None -> assoc "version" pairs <> None ->
        assoc "created_date" pairs = None ->
        from_dict data w = (Raise (KeyError "created_date"), w)) /\
     (forall v, assoc "name" pairs <> None -> assoc "version" pairs <> None ->
        assoc "created_date" pairs = Some v ->
        (forall s, v <> JStr s) ->
        from_dict data w = (Raise TypeError, w)) /\
     (forall s e, assoc "name" pairs <> None -> assoc "version" pairs <> None ->
        assoc "created_date" pairs = Some (JStr s) ->
        fromisoformat s = Raise e ->
        from_dict data w = (Raise e, w))).
Proof.
  split.
  - intros Hno. unfold from_dict, getitem. run.
    destruct data; try done. by destruct (Hno pairs).
  - intros pairs ->. unfold from_dict, getitem. run. split_and!.
    + by intros ->.
    + intros Hn ->. by destruct (assoc "name" pairs).
    + intros Hn Hv ->.
      by destruct (assoc "name" pairs), (assoc "version" pairs).
    + intros v Hn Hv -> Hs.
      destruct (assoc "name" pairs), (assoc "version" pairs); try done.
      destruct v; simpl; try done. by destruct (Hs s).
    + intros s e Hn Hv -> He.
      destruct (assoc "name" pairs), (assoc "version" pairs); try done.
      simpl. by rewrite He.
Qed.

(** X11.  The optional dates of a deserialized entity: the deprecation
    date is absent exactly when the record's [deprecation_date] entry is
    missing or falsy ([null], the empty string, zero, an empty list), and
    a date that is present is the timestamp the entry's string denotes;
    likewise for the retirement date. *)
Theorem from_dict_optional_dates
    (pairs : list (string * json)) (w : World) (self : Model) (w' : World) :
  from_dict (JDict pairs) w = (Ok self, w') ->
  (deprecation_date self = None <->
     truthy (default JNull (assoc "deprecation_date" pairs)) = false) /\
  (retirement_date self = None <->
     truthy (default JNull (assoc "retirement_date" pairs)) = false) /\
  (forall d, deprecation_date self = Some d ->
     exists s, assoc "deprecation_date" pairs = Some (JStr s) /\ fromisoformat s = Ok d) /\
  (forall d, retirement_date self = Some d ->
     exists s, assoc "retirement_date" pairs = Some (JStr s) /\ fromisoformat s = Ok d).
Proof.
  intros (cs & _ & _ & _ & _ & Hd & Hr & _ & _)%from_dict_ok_inv.
  rewrite optional_date_cases in Hd, Hr.
  assert (Hgen : forall k o,
    match assoc k pairs with
    | Some v => if truthy v then (d ← fromisoformat_value v; Ok (Some d)) else Ok None
    | None => Ok None
    end = Ok o ->
    (o = None <-> truthy (default JNull (assoc k pairs)) = false) /\
    (forall d, o = Some d ->
       exists s, assoc k pairs = Some (JStr s) /\ fromisoformat s = Ok d)).
  { intros k o. destruct (assoc k pairs) as [v|]; simpl.
    - destruct (truthy v) eqn:Ht.
      + destruct v; simpl; try done.
        destruct (fromisoformat s) as [d|] eqn:Hs; simpl; [|done].
        intros [= <-]. split; [done|]. intros d' [= <-]. eauto.
      + intros [= <-]. done.
    - intros [= <-]. done. }
  destruct (Hgen _ _ Hd) as [? ?], (Hgen _ _ Hr) as [? ?]. done.
Qed.

Lemma from_dict_optional_dates_witness :
  let self := mk_Model "GPT-4" "1.0" t0 None (Some (mk_datetime 2025 1 1 0 0 0 0)) in
  (deprecation_date self = None <-> truthy (JStr EmptyString) = false) /\
  (retirement_date self = None <-> truthy (JStr "2025-01-01") = false) /\
  (forall d, deprecation_date self = Some d ->
     exists s, Some (JStr EmptyString) = Some (JStr s) /\ fromisoformat s = Ok d) /\
  (forall d, retirement_date self = Some d ->
     exists s, Some (JStr "2025-01-01") = Some (JStr s) /\ fromisoformat s = Ok d).
Proof.
  apply (from_dict_optional_dates
           [("name", JStr "GPT-4"); ("version", JStr "1.0");
            ("created_date", JStr "2024-01-01T00:00:00");
            ("deprecation_date", JStr EmptyString);
            ("retirement_date", JStr "2025-01-01")] world0 _ world0).
  reflexivity.
Defined.

(** ** More on the registry *)

Lemma get_model_in_elem ms nm ver m :
  get_model_in ms nm ver = Some m -> m ∈ ms /\ key m = (nm, ver).
Proof.
  intros (ms1 & ms2 & -> & _ & Hm)%get_model_in_some.
  split; [set_solver|]. by apply key_matches_key.
Qed.

Lemma get_model_in_none_iff ms nm ver :
  get_model_in ms nm ver = None <-> (nm, ver) ∉ key <$> ms.
Proof.
  rewrite get_model_in_none, Forall_forall, list_elem_of_fmap. split.
  - intros H (x & Hk & Hx). specialize (H _ Hx).
    assert (key_matches nm ver x = true); [|congruence].
    by apply key_matches_key.
  - intros H x Hx. destruct (key_matches nm ver x) eqn:E; [|done].
    exfalso. apply H. exists x. split; [|done].
    by apply key_matches_key in E.
Qed.

(** X12.  Lookup: [get_model] changes nothing; it answers [None] exactly
    when no entity of the registry has the key, and otherwise an entity of
    the registry with that key; when the keys of the registry are distinct
    that is the only such entity. *)
Theorem get_model_lookup (nm ver : string) (w : World) :
  exists r,
    get_model nm ver w = (Ok r, w) /\
    (r = None <-> (nm, ver) ∉ key <$> _models (registry w)) /\
    (forall m, r = Some m -> m ∈ _models (registry w) /\ key m = (nm, ver)) /\
    (I4 w -> forall m, m ∈ _models (registry w) -> key m = (nm, ver) -> r = Some m).
Proof.
  exists (get_model_in (_models (registry w)) nm ver).
  split; [apply get_model_run|]. split; [apply get_model_in_none_iff|].
  split; [intros m; apply get_model_in_elem|].
  unfold I4. intros Hnd m Hm Hk.
  destruct (get_model_in _ nm ver) as [m'|] eqn:E.
  - apply get_model_in_elem in E as [Hm' Hk']. f_equal.
    apply list_elem_of_lookup in Hm as [i Hi], Hm' as [j Hj].
    assert (i = j) as ->; [|congruence].
    eapply NoDup_lookup; [done| |]; rewrite list_lookup_fmap.
    + by rewrite Hi.
    + rewrite Hj. simpl. congruence.
  - apply get_model_in_none_iff in E. exfalso. apply E.
    rewrite <- Hk. by apply list_elem_of_fmap_2.
Qed.

Lemma get_model_in_app ms ms' nm ver :
  get_model_in (ms ++ ms') nm ver
  = match get_model_in ms nm ver with
    | Some m => Some m
    | None => get_model_in ms' nm ver
    end.
Proof.
  induction ms as [|x ms IH]; simpl; [done|]. by destruct (key_matches nm ver x).
Qed.

(** X13.  Add then look up: after a successful Add the entity is found
    under its key, and the lookup of every other key answers as before. *)
Theorem add_then_get (model : Model) (w w1 : World) :
  add_model model w = (Ok tt, w1) ->
  get_model (name model) (version model) w1 = (Ok (Some model), w1) /\
  (forall nm ver, (nm, ver) <> key model ->
     fst (get_model nm ver w1) = fst (get_model nm ver w)).
Proof.
  unfold add_model, get_model. run.
  destruct (get_model_in _ (name model) (version model)) eqn:E; [done|].
  intros [= <-]. simpl. rewrite !get_model_in_app, E. simpl.
  assert (Hself : key_matches (name model) (version model) model = true)
    by by apply key_matches_key.
  rewrite Hself. split; [done|]. intros nm ver Hne.
  rewrite get_model_in_app.
  destruct (get_model_in _ nm ver); [done|]. simpl.
  destruct (key_matches nm ver model) eqn:Hk; [|done].
  apply key_matches_key in Hk. congruence.
Qed.

Lemma add_then_get_witness :
  let w1 := snd (add_model model_full world_dup) in
  get_model "M" "1.0" w1 = (Ok (Some model_full), w1) /\
  (forall nm ver, (nm, ver) <> key model_full ->
     fst (get_model nm ver w1) = fst (get_model nm ver world_dup)).
Proof.
  apply (add_then_get model_full world_dup).
  vm_compute. reflexivity.
Defined.

Lemma remove_first_other_keys x ms ms' nm ver :
  remove_first x ms = Some ms' -> key x <> (nm, ver) ->
  get_model_in ms' nm ver = get_model_in ms nm ver.
Proof.
  revert ms'. induction ms as [|y ms IH]; intros ms'; simpl; [done|].
  case_decide as Hy.
  - intros [= <-] Hne. subst y.
    destruct (key_matches nm ver x) eqn:Hk; [|done].
    apply key_matches_key in Hk. congruence.
  - destruct (remove_first x ms) as [r|]; simpl; [|done].
    intros [= <-] Hne. simpl. rewrite (IH r) by done. done.
Qed.

(** X14.  Remove then look up: in a registry with distinct keys the key
    removed is no longer found; in any registry the lookup of every other
    key answers as before. *)
Theorem remove_then_get (nm ver : string) (w : World) :
  let w1 := snd (remove_model nm ver w) in
  (I4 w -> get_model nm ver w1 = (Ok None, w1)) /\
  (forall nm' ver', (nm', ver') <> (nm, ver) ->
     fst (get_model nm' ver' w1) = fst (get_model nm' ver' w)).
Proof.
  cbv zeta. rewrite remove_model_run. split.
  - intros Hw. rewrite get_model_run.
    destruct (get_model_in (_models (registry w)) nm ver) as [m|] eqn:E.
    + apply get_model_in_some in E as (ms1 & ms2 & Hms & Hno & Hm).
      rewrite Hms, (remove_first_found _ _ _ _ _ Hno Hm). simpl.
      f_equal. f_equal. apply get_model_in_none_iff.
      unfold I4 in Hw. rewrite Hms, fmap_app, fmap_cons in Hw.
      apply NoDup_app in Hw as (_ & Hdis & Hnd).
      apply NoDup_cons in Hnd as [Hnin _].
      apply key_matches_key in Hm. rewrite Hm in *.
      rewrite fmap_app, elem_of_app. intros [Hin|Hin]; [|done].
      apply (Hdis _ Hin). apply list_elem_of_here.
    + simpl. by rewrite E.
  - intros nm' ver' Hne. rewrite !get_model_run.
    destruct (get_model_in (_models (registry w)) nm ver) as [m|] eqn:E; [|done].
    destruct (remove_first m _) as [ms|] eqn:Hr; [|done]. simpl. f_equal.
    apply get_model_in_elem in E as [_ Hk].
    apply (remove_first_other_keys _ _ _ _ _ Hr). congruence.
Qed.

Lemma versions_distinct (nm : string) (l : list Model) :
  Forall (fun m => name m = nm) l -> NoDup (key <$> l) -> NoDup (version <$> l).
Proof.
  induction 1 as [|x l Hx Hl IH]; [constructor|].
  rewrite !fmap_cons, !NoDup_cons. intros [Hnin Hnd]. split; [|by apply IH].
  intros (y & Hv & Hy)%list_elem_of_fmap. apply Hnin.
  apply list_elem_of_fmap. exists y. split; [|done].
  rewrite Forall_forall in Hl. unfold key. by rewrite Hx, (Hl _ Hy), Hv.
Qed.

(** X15.  Listing by name: [get_models_by_name] changes nothing and
    answers the entities with that name, in the order of the enumeration;
    [get_model] finds in that list what it finds in the registry; and when
    the keys of the registry are distinct, so are the versions listed. *)
Theorem get_models_by_name_lists (nm : string) (w : World) :
  exists l,
    get_models_by_name nm w = (Ok l, w) /\
    sublist l (_models (registry w)) /\
    (forall m, m ∈ l <-> m ∈ _models (registry w) /\ name m = nm) /\
    (forall ver, get_model_in l nm ver = get_model_in (_models (registry w)) nm ver) /\
    (I4 w -> NoDup (version <$> l)).
Proof.
  eexists. split; [reflexivity|]. split; [apply sublist_filter|].
  split; [intros m; rewrite list_elem_of_filter; tauto|]. split.
  - intros ver. induction (_models (registry w)) as [|x ms IH]; [done|].
    rewrite filter_cons. simpl. case_decide as Hx; simpl.
    + by rewrite IH.
    + rewrite IH. unfold key_matches.
      destruct (String.eqb_spec (name x) nm); done.
  - unfold I4. intros Hnd. apply (versions_distinct nm).
    + apply Forall_forall. by intros m [? _]%list_elem_of_filter.
    + eapply sublist_NoDup; [done|]. apply fmap_sublist, sublist_filter.
Qed.

(** ** More on Load *)

Lemma from_dict_fst_indep data w w' : fst (from_dict data w) = fst (from_dict data w').
Proof.
  unfold from_dict. run.
  repeat match goal with
         | |- context [match ?r with Ok _ => _ | Raise _ => _ end] =>
             destruct r; cbn [fst]; try reflexivity
         end.
  rewrite !init_runs_validation. by destruct (_validate_dates _).
Qed.

Lemma comprehension_from_dict_indep items w w' :
  fst (comprehension from_dict items w) = fst (comprehension from_dict items w').
Proof.
  induction items as [|x items IH]; [done|]. cbn [comprehension]. run.
  pose proof (from_dict_fst_indep x w w') as Hx.
  pose proof (from_dict_world x w) as Hw. pose proof (from_dict_world x w') as Hw'.
  destruct (from_dict x w) as [[m|e] w1], (from_dict x w') as [[m'|e'] w1'];
    simpl in *; simplify_eq; try done.
  pose proof (comprehension_from_dict_world items w) as Hc.
  pose proof (comprehension_from_dict_world items w') as Hc'.
  destruct (comprehension from_dict items w) as [[ms|e] w2],
           (comprehension from_dict items w') as [[ms'|e'] w2'];
    simpl in *; simplify_eq; done.
Qed.

(** X16.  Load replaces the contents wholesale: whether it succeeds, the
    error it raises and the contents it installs do not depend on what the
    registry held before. *)
Theorem load_ignores_prior_contents
    (loads : string -> result json) (filepath : string) (w : World)
    (others : list Model) :
  let before := set_registry (mk_ModelRegistry others) w in
  fst (load_from_file loads filepath before) = fst (load_from_file loads filepath w) /\
  (fst (load_from_file loads filepath w) = Ok tt ->
   registry (snd (load_from_file loads filepath before))
   = registry (snd (load_from_file loads filepath w))).
Proof.
  cbv zeta. rewrite !load_from_file_run. simpl.
  destruct (files w !! filepath) as [s|]; [|done].
  destruct (decide _); [done|].
  destruct (_ ← loads s; _) as [items|]; [|done].
  rewrite (comprehension_from_dict_indep items _ w).
  by destruct (fst (comprehension from_dict items w)).
Qed.

Lemma comprehension_from_dict_Forall2 items w ms w' :
  comprehension from_dict items w = (Ok ms, w') ->
  Forall2 (fun item m => from_dict item w = (Ok m, w)) items ms.
Proof.
  revert ms w'. induction items as [|x items IH]; intros ms w'.
  - intros [= <- _]. constructor.
  - cbn [comprehension]. run.
    pose proof (from_dict_world x w) as Hw.
    destruct (from_dict x w) as [[m|e] w1] eqn:Hx; simpl in Hw; subst; [|done].
    destruct (comprehension from_dict items w) as [[ms1|e] w2] eqn:Hr; [|done].
    intros [= <- _]. constructor; [done|]. by eapply IH.
Qed.

Lemma from_dict_validated item w m w' :
  from_dict item w = (Ok m, w') -> _validate_dates m = Ok tt.
Proof.
  destruct item; try (unfold from_dict; run; simpl; done).
  by intros (? & _ & _ & _ & _ & _ & _ & ? & _)%from_dict_ok_inv.
Qed.

(** X17.  What a successful Load installs: one entity per record of the
    file's [models] list, in the order of the file, each the
    deserialization of its record and each validated as by the constructor
    (I1, I2 and I3 hold of it); nothing but the registry changes. *)
Theorem load_installs_validated_entities
    (loads : string -> result json) (filepath : string) (w w' : World) :
  load_from_file loads filepath w = (Ok tt, w') ->
  exists s items,
    files w !! filepath = Some s /\
    (data ← loads s; listed ← dict_get data "models" (JList []); iter listed)
      = Ok items /\
    Forall2 (fun item m => from_dict item w = (Ok m, w)) items (_models (registry w')) /\
    Forall (fun m => I1 (created_date m) (deprecation_date m) /\
                     I2 (deprecation_date m) (retirement_date m) /\
                     I3 (created_date m) (deprecation_date m) (retirement_date m))
           (_models (registry w')) /\
    w' = set_registry (registry w') w.
Proof.
  rewrite load_from_file_run.
  destruct (files w !! filepath) as [s|]; [|done].
  destruct (decide _); [done|].
  destruct (_ ← loads s; _) as [items|] eqn:Hitems; [|done].
  destruct (comprehension from_dict items w) as [[ms|e] w1] eqn:Hc; [|done].
  simpl. intros [= <-]. exists s, items. simpl.
  pose proof (comprehension_from_dict_Forall2 _ _ _ _ Hc) as H2.
  split_and!; try done.
  apply Forall_forall. intros m Hm.
  apply list_elem_of_lookup in Hm as [i Hi].
  destruct (Forall2_lookup_r _ _ _ _ _ H2 Hi) as (item & _ & Hitem).
  apply validate_dates_ok. by eapply from_dict_validated.
Qed.

Lemma load_installs_validated_entities_witness :
  exists s items,
    files (world_holding [] "registry.json" duplicate_text) !! "registry.json" = Some s /\
    (data ← json_loads s; listed ← dict_get data "models" (JList []); iter listed)
      = Ok items /\
    Forall2 (fun item m => from_dict item (world_holding [] "registry.json" duplicate_text)
                           = (Ok m, world_holding [] "registry.json" duplicate_text))
            items (_models (registry world_dup)) /\
    Forall (fun m => I1 (created_date m) (deprecation_date m) /\
                     I2 (deprecation_date m) (retirement_date m) /\
                     I3 (created_date m) (deprecation_date m) (retirement_date m))
           (_models (registry world_dup)) /\
    world_dup = set_registry (registry world_dup)
                  (world_holding [] "registry.json" duplicate_text).
Proof.
  apply (load_installs_validated_entities json_loads "registry.json"
           (world_holding [] "registry.json" duplicate_text) world_dup).
  vm_compute. reflexivity.
Defined.

(** ** Listing by status at the default reference time *)

Lemma by_status_from_sublist clk k status ms :
  sublist (by_status_from clk k status ms) ms.
Proof.
  revert k. induction ms as [|m ms IH]; intros k; simpl; [done|].
  case_decide; [by apply sublist_skip|by apply sublist_cons].
Qed.

Lemma by_status_from_still clk k status ms t :
  (forall i, (k <= i < k + length ms)%nat -> clk i = t) ->
  by_status_from clk k status ms = filter (fun m => status_at m t = status) ms.
Proof.
  revert k. induction ms as [|m ms IH]; intros k Hclk; simpl; [done|].
  rewrite filter_cons, (Hclk k) by (simpl; lia).
  rewrite (IH (S k)) by (intros i Hi; apply Hclk; simpl; lia). done.
Qed.

Lemma get_status_default self w :
  get_status self None w = (Ok (status_at self (clock w (ticks w))), tick w).
Proof.
  unfold get_status, status_at, now. run.
  repeat match goal with
         | |- context [if ?b then _ else _] => destruct b
         end; reflexivity.
Qed.

Lemma comprehension_if_status_default status ms w :
  comprehension_if
    (fun model => s ← get_status model None; mret (bool_decide (s = status))) ms w
  = (Ok (by_status_from (clock w) (ticks w) status ms), advance (length ms) w).
Proof.
  revert w. induction ms as [|m ms IH]; intros w.
  - by destruct w.
  - cbn [comprehension_if by_status_from]. run.
    rewrite get_status_default, (IH (tick w)). simpl.
    rewrite <- advance_tick.
    destruct (decide (status_at m (clock w (ticks w)) = status)) as [E|E];
      [rewrite bool_decide_eq_true_2 by done|rewrite bool_decide_eq_false_2 by done];
      done.
Qed.

Lemma get_models_by_status_default_run status w :
  get_models_by_status status None w
  = (Ok (by_status_from (clock w) (ticks w) status (_models (registry w))),
     advance (length (_models (registry w))) w).
Proof.
  unfold get_models_by_status. run. apply comprehension_if_status_default.
Qed.

(** Listing at the default reference time, on naive entities.  With the
    reference time omitted, [get_models_by_status] (and so
    [get_active_models], [get_deprecated_models] and [get_retired_models])
    reads the clock once for every entity of the registry and changes
    nothing else; it answers a part of the enumeration in its order, every
    entity of it having the status at one of these readings; and when the
    clock shows one instant [t] throughout, the answer is that for the
    explicit reference time [t].  [tz_get_models_by_status_default] below
    is the statement for entities with timestamps of both kinds. *)
Theorem get_models_by_status_default (status : ModelStatus) (w : World) :
  let ms := _models (registry w) in
  exists l,
    get_models_by_status status None w = (Ok l, advance (length ms) w) /\
    sublist l ms /\
    (forall m, m ∈ l ->
       exists i, (ticks w <= i < ticks w + length ms)%nat /\
                 status_at m (clock w i) = status) /\
    (forall t, (forall i, (ticks w <= i < ticks w + length ms)%nat -> clock w i = t) ->
       get_models_by_status status (Some t) w = (Ok l, w)).
Proof.
  cbv zeta. eexists. split; [apply get_models_by_status_default_run|].
  split; [apply by_status_from_sublist|]. split.
  - generalize (ticks w) as k. induction (_models (registry w)) as [|x ms IH];
      intros k m; simpl; [by intros ?%not_elem_of_nil|].
    case_decide as Hx.
    + intros [->|Hm]%elem_of_cons.
      * exists k. split; [lia|done].
      * destruct (IH (S k) m Hm) as (i & Hi & Hs). exists i. split; [lia|done].
    + intros Hm. destruct (IH (S k) m Hm) as (i & Hi & Hs).
      exists i. split; [lia|done].
  - intros t Ht. rewrite get_models_by_status_filter.
    by rewrite (by_status_from_still _ _ _ _ t).
Qed.

(** ** The command line: dates and the registry file *)

Lemma fromisoformat_raises s e : fromisoformat s = Raise e -> is_ValueError e = true.
Proof.
  unfold fromisoformat, invalid_isoformat.
  repeat case_match; intros [= <-]; reflexivity.
Qed.

(** What [fromisoformat] answers is a datetime Python can hold. *)
Lemma fromisoformat_valid s d : fromisoformat s = Ok d -> valid_datetime d.
Proof.
  unfold fromisoformat, valid_datetime, valid_datetimeb.
  repeat case_match; try discriminate; intros [= <-]; simplify_eq; done.
Qed.

(** X19.  [parse_date] answers the datetime [fromisoformat] reads, always
    one Python can hold; whatever [fromisoformat] raises comes out as an
    [ArgumentTypeError] with one fixed message that quotes the whole
    argument, the reason [fromisoformat] gave being dropped. *)
Theorem parse_date_outcome (s : string) :
  (forall d, fromisoformat s = Ok d -> parse_date s = Done d /\ valid_datetime d) /\
  (forall e, fromisoformat s = Raise e ->
     parse_date s
     = Stop (ArgumentTypeError ("Invalid date format: " +:+ s
                                +:+ ". Use ISO format (YYYY-MM-DD)"))).
Proof.
  split.
  - intros d Hd. unfold parse_date. rewrite Hd. split; [done|].
    by eapply fromisoformat_valid.
  - intros e He. unfold parse_date. rewrite He.
    by rewrite (fromisoformat_raises _ _ He).
Qed.

Lemma midnight_valid d : valid_datetime d -> valid_datetime (midnight d).
Proof.
  unfold valid_datetime, valid_datetimeb, check_fields, midnight. simpl.
  repeat match goal with
         | |- context [negb ?b] => destruct b; simpl; try discriminate
         end; done.
Qed.

Lemma fromisoformat_iso_date d :
  valid_datetime d -> fromisoformat (iso_date d) = Ok (midnight d).
Proof.
  intros Hv. pose proof (valid_datetime_ranges d Hv) as (Hy & Hmo & Hd & _).
  unfold fromisoformat, iso_date. rewrite chars_text.
  unfold fmt4, fmt2. cbn [app chars list_ascii_of_string].
  rewrite parse_four, !parse_two by done.
  unfold dash. rewrite decide_True by done.
  fold (midnight d). by rewrite (check_fields_valid _ (midnight_valid _ Hv)).
Qed.

(** X20.  [parse_date] reads back what [isoformat] writes, to the
    microsecond, and reads the date [YYYY-MM-DD] of the help texts as
    midnight of that day. *)
Theorem parse_date_reads_dates (d : datetime) :
  valid_datetime d ->
  parse_date (isoformat d) = Done d /\
  parse_date (iso_date d) = Done (midnight d).
Proof.
  intros Hv. unfold parse_date.
  by rewrite fromisoformat_isoformat, fromisoformat_iso_date.
Qed.

Lemma parse_date_reads_dates_witness :
  parse_date (isoformat (created_date model_full)) = Done (created_date model_full) /\
  parse_date (iso_date (created_date model_full))
  = Done (midnight (created_date model_full)).
Proof. apply (parse_date_reads_dates (created_date model_full)). reflexivity. Defined.

Lemma load_registry_run loads filepath w :
  load_registry loads filepath w =
  match files w !! filepath with
  | None => (Ok tt, set_registry (mk_ModelRegistry []) w)
  | Some _ => load_from_file loads filepath (set_registry (mk_ModelRegistry []) w)
  end.
Proof.
  unfold load_registry. run. simpl.
  destruct (files w !! filepath) as [s|] eqn:E.
  - by rewrite bool_decide_eq_true_2.
  - rewrite bool_decide_eq_false_2; [done|]. by intros [? ?].
Qed.

(** [load_registry] changes the registry and nothing else. *)
Lemma load_registry_world loads filepath w :
  snd (load_registry loads filepath w)
  = set_registry (registry (snd (load_registry loads filepath w))) w.
Proof.
  rewrite load_registry_run. destruct (files w !! filepath) as [s|] eqn:E; [|done].
  rewrite load_from_file_run. simpl. rewrite E.
  repeat case_match; done.
Qed.

(** X21.  [load_registry]: without a file at the path the answer is an
    empty registry and no error; with one, the outcome and the contents
    are those of Load, whatever the registry held; in every case the
    answer does not depend on an earlier registry, and nothing but the
    registry changes. *)
Theorem load_registry_outcome
    (loads : string -> result json) (filepath : string) (w : World) :
  let r := load_registry loads filepath w in
  (files w !! filepath = None ->
     r = (Ok tt, set_registry (mk_ModelRegistry []) w)) /\
  (is_Some (files w !! filepath) ->
     fst r = fst (load_from_file loads filepath w) /\
     (fst r = Ok tt ->
      registry (snd r) = registry (snd (load_from_file loads filepath w)))) /\
  (forall others,
     load_registry loads filepath (set_registry (mk_ModelRegistry others) w) = r) /\
  snd r = set_registry (registry (snd r)) w.
Proof.
  cbv zeta. split_and!.
  - intros E. by rewrite load_registry_run, E.
  - intros [s E]. rewrite load_registry_run, E, !load_from_file_run. simpl. rewrite E.
    destruct (decide _); [done|].
    destruct (_ ← loads s; _) as [items|]; [|done].
    rewrite (comprehension_from_dict_indep items _ w).
    by destruct (fst (comprehension from_dict items w)).
  - intros others. rewrite !load_registry_run. simpl.
    destruct (files w !! filepath); done.
  - apply load_registry_world.
Qed.

(** ** The command line: the four commands *)

Ltac crun :=
  unfold mbind, mret, C_bind, C_ret, in_world, ending, print, print_err,
    sys_exit, try_except_ValueError in *;
  cbn beta iota in *.

(** Remove changes the registry and nothing else. *)
Lemma remove_model_world nm ver w :
  snd (remove_model nm ver w)
  = set_registry (registry (snd (remove_model nm ver w))) w.
Proof. rewrite remove_model_run. repeat case_match; by destruct w. Qed.

(** Save touches no file but its own. *)
Lemma save_to_file_other dumps filepath w other :
  other <> filepath ->
  files (snd (save_to_file dumps filepath w)) !! other = files w !! other.
Proof.
  intros Hne. rewrite save_to_file_run. cbv zeta.
  repeat case_match; simpl; try done; by rewrite lookup_insert_ne.
Qed.

Lemma save_to_file_writable dumps filepath w :
  writable w filepath ->
  save_to_file dumps filepath w
  = (Ok tt, set_files (<[filepath := saved_text dumps w]> (files w))
              (advance (length (_models (registry w))) w)).
Proof.
  intros (Hp & Hd & Hq). rewrite save_to_file_run. cbv zeta.
  by rewrite !decide_False, Hq by done.
Qed.

(** X22.  [cmd_remove], on a registry file whose timestamps carry no UTC
    offset.  An exception of the load ends the command.  When the loaded
    registry does not hold the key, the command exits with status 1 after
    one line on the error stream, and no file changes: none is made where
    none was.  When it holds the key and the file can be written, the file
    becomes the serialization of the loaded entities without the first one
    with the key, and one line goes to the output.  No other file is
    touched in any case. *)
Theorem cmd_remove_outcome
    (dumps : json -> string) (loads : string -> result json)
    (check_mark cross_mark : string) (args : remove_args) (p : Process) :
  offset_free_file loads (world p) (remove_registry args) = true ->
  let path := remove_registry args in
  let nm := remove_name args in
  let ver := remove_version args in
  let loaded := load_registry loads path (world p) in
  let ms := _models (registry (snd loaded)) in
  let r := cmd_remove dumps loads check_mark cross_mark args p in
  (forall e, fst loaded = Raise e ->
     fst r = Stop (Uncaught e) /\
     stdout (snd r) = stdout p /\ stderr (snd r) = stderr p /\
     files (world (snd r)) = files (world p)) /\
  (fst loaded = Ok tt -> (nm, ver) ∉ key <$> ms ->
     fst r = Stop (SystemExit 1) /\
     stdout (snd r) = stdout p /\
     stderr (snd r)
     = stderr p ++ [cross_mark +:+ " Model " +:+ nm +:+ " v" +:+ ver +:+ " not found"] /\
     files (world (snd r)) = files (world p)) /\
  (forall ms1 m ms2,
     fst loaded = Ok tt ->
     ms = ms1 ++ m :: ms2 -> key m = (nm, ver) -> (nm, ver) ∉ key <$> ms1 ->
     writable (world p) path ->
     fst r = Done tt /\
     stdout (snd r)
     = stdout p ++ [check_mark +:+ " Removed model: " +:+ nm +:+ " v" +:+ ver] /\
     stderr (snd r) = stderr p /\
     files (world (snd r))
     = <[path := text_of dumps (clock (world p)) (ticks (world p)) (ms1 ++ ms2)]>
         (files (world p))) /\
  (forall other, other <> path ->
     files (world (snd r)) !! other = files (world p) !! other).
Proof.
  intros _.
  cbv zeta. unfold cmd_remove. crun.
  pose proof (load_registry_world loads (remove_registry args) (world p)) as Hw.
  destruct (load_registry loads (remove_registry args) (world p)) as [[[]|e0] w1];
    cbn [fst snd world stdout stderr] in *.
  2:{ split_and!; try done.
      - intros e [= <-]. by rewrite Hw.
      - intros other _. by rewrite Hw. }
  pose proof (remove_model_world (remove_name args) (remove_version args) w1) as Hr.
  split_and!; [done| | |].
  - intros _ Hn.
    apply get_model_in_none_iff in Hn. rewrite remove_model_run, Hn.
    cbn [fst snd world stdout stderr]. by rewrite Hw.
  - intros ms1 m ms2 _ Hms Hk Hn1 Hwr.
    rewrite remove_model_run, Hms.
    assert (Hno : Forall (fun x => key_matches (remove_name args) (remove_version args) x
                                   = false) ms1).
    { apply Forall_forall. intros x Hx.
      destruct (key_matches _ _ x) eqn:E; [|done].
      apply key_matches_key in E. exfalso. apply Hn1.
      rewrite <- E. by apply list_elem_of_fmap_2. }
    assert (Hm : key_matches (remove_name args) (remove_version args) m = true)
      by by apply key_matches_key.
    rewrite (get_model_in_first _ _ _ _ _ Hno Hm),
      (remove_first_found _ _ _ _ _ Hno Hm).
    cbn [world stdout stderr].
    rewrite save_to_file_writable.
    2:{ rewrite Hw. exact Hwr. }
    cbn [fst snd world stdout stderr]. split_and!; try done.
    rewrite Hw. reflexivity.
  - intros other Hne.
    destruct (remove_model _ _ w1) as [[[]|e1] w2]; cbn [fst snd world stdout stderr] in *.
    + pose proof (save_to_file_other dumps (remove_registry args) w2 other Hne) as Hs.
      destruct (save_to_file _ _ w2) as [[[]|e2] w3]; cbn [fst snd world] in *;
        rewrite Hs, Hr, Hw; done.
    + by rewrite Hr, Hw.
    + by rewrite Hr, Hw.
Qed.

Lemma add_model_run model w :
  add_model model w =
  match get_model_in (_models (registry w)) (name model) (version model) with
  | Some _ => (Raise (already_exists model), w)
  | None => (Ok tt, set_registry (mk_ModelRegistry (_models (registry w) ++ [model])) w)
  end.
Proof. unfold add_model, get_model. run. by destruct (get_model_in _ _ _). Qed.

Lemma str_run self w :
  __str__ self w
  = (Ok (name self +:+ " v" +:+ version self +:+ " ["
         +:+ value (status_at self (clock w (ticks w))) +:+ "]"), tick w).
Proof. unfold __str__. run. by rewrite get_status_default. Qed.

(** An option of the command line stops with nothing but the
    [ArgumentTypeError] of [parse_date]. *)
Lemma optional_arg_stop a e :
  optional_arg a = Stop e -> exists msg, e = ArgumentTypeError msg.
Proof.
  unfold optional_arg, parse_date.
  destruct a as [s|]; [|done]. destruct (String.eqb s _); [done|].
  destruct (fromisoformat s) as [d|e1] eqn:E; cbn; [done|].
  rewrite (fromisoformat_raises _ _ E). intros [= <-]. eauto.
Qed.

(** X23.  [cmd_add], on a registry file and date options whose timestamps
    carry no UTC offset.  An exception of the load ends the command.  A
    date option that does not parse ends it with the [ArgumentTypeError]
    of [parse_date], which the handler of the command does not catch:
    nothing is printed and the exit status 1 of the other refusals is not
    used.  When the dates parse, a violation of the order of the dates,
    and a key the loaded registry already holds, end the command with
    status 1 after one line on the error stream that carries the message
    of the exception; no file changes.  Otherwise, the file being
    writable, it becomes the serialization of the loaded entities followed
    by the new one, whose creation date is the one given or else the
    reading of the clock, and one line goes to the output.  No other file
    is touched in any case. *)
Theorem cmd_add_outcome
    (dumps : json -> string) (loads : string -> result json)
    (check_mark cross_mark decode_error_text : string)
    (args : add_args) (p : Process) :
  offset_free_file loads (world p) (add_registry args) = true ->
  offset_free_arg (add_created args) = true ->
  offset_free_arg (add_deprecation args) = true ->
  offset_free_arg (add_retirement args) = true ->
  let path := add_registry args in
  let nm := add_name args in
  let ver := add_version args in
  let loaded := load_registry loads path (world p) in
  let ms := _models (registry (snd loaded)) in
  let clk := clock (world p) in
  let k := ticks (world p) in
  let r := cmd_add dumps loads check_mark cross_mark decode_error_text args p in
  (forall e, fst loaded = Raise e ->
     fst r = Stop (Uncaught e) /\
     stdout (snd r) = stdout p /\ stderr (snd r) = stderr p /\
     files (world (snd r)) = files (world p)) /\
  (forall e, fst loaded = Ok tt -> add_dates args = Stop e ->
     (exists msg, e = ArgumentTypeError msg) /\
     fst r = Stop e /\
     stdout (snd r) = stdout p /\ stderr (snd r) = stderr p /\
     files (world (snd r)) = files (world p)) /\
  (forall created dep ret,
     fst loaded = Ok tt -> add_dates args = Done (created, dep, ret) ->
     let model := mk_Model nm ver (default (clk k) created) dep ret in
     let k1 := match created with Some _ => k | None => S k end in
     (forall e, _validate_dates model = Raise e ->
        exists msg, e = ValueError msg /\
        fst r = Stop (SystemExit 1) /\
        stdout (snd r) = stdout p /\
        stderr (snd r) = stderr p ++ [cross_mark +:+ " Error: " +:+ msg] /\
        files (world (snd r)) = files (world p)) /\
     (_validate_dates model = Ok tt -> (nm, ver) ∈ key <$> ms ->
        fst r = Stop (SystemExit 1) /\
        stdout (snd r) = stdout p /\
        stderr (snd r)
        = stderr p ++ [cross_mark +:+ " Error: Model " +:+ nm +:+ " v" +:+ ver
                       +:+ " already exists in registry"] /\
        files (world (snd r)) = files (world p)) /\
     (_validate_dates model = Ok tt -> (nm, ver) ∉ key <$> ms ->
      writable (world p) path ->
        fst r = Done tt /\
        stdout (snd r)
        = stdout p ++ [check_mark +:+ " Added model: " +:+ nm +:+ " v" +:+ ver +:+ " ["
                       +:+ value (status_at model (clk (S (length ms) + k1)%nat))
                       +:+ "]"] /\
        stderr (snd r) = stderr p /\
        files (world (snd r))
        = <[path := text_of dumps clk k1 (ms ++ [model])]> (files (world p)))) /\
  (forall other, other <> path ->
     files (world (snd r)) !! other = files (world p) !! other).
Proof.
  intros _ _ _ _.
  cbv zeta. unfold cmd_add, add_dates. crun. unfold outcome_bind.
  pose proof (load_registry_world loads (add_registry args) (world p)) as Hw.
  destruct (load_registry loads (add_registry args) (world p)) as [[[]|e0] w1];
    cbn [fst snd world stdout stderr] in *.
  2:{ split_and!; try done.
      - intros e [= <-]. by rewrite Hw.
      - intros other _. by rewrite Hw. }
  assert (Hf : files w1 = files (world p)) by by rewrite Hw.
  assert (Hc : clock w1 = clock (world p)) by by rewrite Hw.
  assert (Ht : ticks w1 = ticks (world p)) by by rewrite Hw.
  split_and!; [done| | |].
  - intros e _.
    destruct (optional_arg (add_created args)) as [c|e1] eqn:E1.
    2:{ intros [= <-]. destruct (optional_arg_stop _ _ E1) as [msg ->].
        cbn [fst snd world stdout stderr]. split_and!; eauto. }
    destruct (optional_arg (add_deprecation args)) as [d|e2] eqn:E2.
    2:{ intros [= <-]. destruct (optional_arg_stop _ _ E2) as [msg ->].
        cbn [fst snd world stdout stderr]. split_and!; eauto. }
    destruct (optional_arg (add_retirement args)) as [t|e3] eqn:E3; [done|].
    intros [= <-]. destruct (optional_arg_stop _ _ E3) as [msg ->].
    cbn [fst snd world stdout stderr]. split_and!; eauto.
  - intros created dep ret _.
    destruct (optional_arg (add_created args)) as [c|e1]; [|done].
    destruct (optional_arg (add_deprecation args)) as [d|e2]; [|done].
    destruct (optional_arg (add_retirement args)) as [t|e3]; [|done].
    intros [= <- <- <-]. cbn [world stdout stderr].
    rewrite init_outcome. cbv zeta. rewrite Hc, Ht.
    set (model := mk_Model _ _ _ d t).
    set (w2 := match c with Some _ => w1 | None => tick w1 end).
    assert (Hw2 : w2 = set_registry (registry w1)
                         (match c with Some _ => world p | None => tick (world p) end)).
    { subst w2. rewrite Hw. by destruct c. }
    split_and!.
    + intros e He. rewrite He.
      assert (exists msg, e = ValueError msg) as [msg ->].
      { revert He. unfold _validate_dates. repeat case_match; intros [= <-]; eauto. }
      exists msg. cbn [fst snd world stdout stderr str_ValueError].
      split_and!; try done. rewrite Hw2. by destruct c.
    + intros Hv Hin. rewrite Hv. cbn [world stdout stderr].
      rewrite add_model_run.
      destruct (get_model_in (_models (registry w2)) (name model) (version model))
        as [m'|] eqn:Hg.
      * cbn [fst snd world stdout stderr str_ValueError already_exists].
        split_and!; try done. rewrite Hw2. by destruct c.
      * exfalso. apply get_model_in_none_iff in Hg. apply Hg.
        rewrite Hw2. by destruct c.
    + intros Hv Hnin Hwr. rewrite Hv. cbn [world stdout stderr].
      rewrite add_model_run.
      destruct (get_model_in (_models (registry w2)) (name model) (version model))
        as [m'|] eqn:Hg.
      { exfalso. apply Hnin. apply dec_stable. intros Hn.
        apply get_model_in_none_iff in Hn. rewrite Hw2 in Hg.
        destruct c; simpl in Hg, Hn; congruence. }
      cbn [world stdout stderr].
      rewrite save_to_file_writable.
      2:{ rewrite Hw2. by destruct c. }
      cbn [world stdout stderr]. rewrite str_run.
      cbn [fst snd world stdout stderr].
      rewrite Hw2. destruct c; cbn; rewrite length_app; cbn;
        (split_and!; try done);
        repeat f_equal; lia.
  - intros other Hne.
    destruct (optional_arg (add_created args)) as [c|e1] eqn:E1;
      [|destruct (optional_arg_stop _ _ E1) as [msg ->]; cbn [fst snd world]; by rewrite Hf].
    destruct (optional_arg (add_deprecation args)) as [d|e2] eqn:E2;
      [|destruct (optional_arg_stop _ _ E2) as [msg ->]; cbn [fst snd world]; by rewrite Hf].
    destruct (optional_arg (add_retirement args)) as [t|e3] eqn:E3;
      [|destruct (optional_arg_stop _ _ E3) as [msg ->]; cbn [fst snd world]; by rewrite Hf].
    cbn [world stdout stderr].
    rewrite init_outcome. cbv zeta.
    set (w2 := match c with Some _ => w1 | None => tick w1 end).
    assert (Hf2 : files w2 = files (world p)) by (subst w2; by destruct c).
    destruct (_validate_dates _) as [[]|e].
    2:{ destruct (str_ValueError _ e); cbn [fst snd world]; by rewrite Hf2. }
    cbn [world stdout stderr]. rewrite add_model_run.
    destruct (get_model_in _ _ _); cbn [fst snd world str_ValueError already_exists].
    { by rewrite Hf2. }
    match goal with
    | |- context [save_to_file dumps ?f ?w] =>
        pose proof (save_to_file_other dumps f w other Hne) as Hs;
        destruct (save_to_file dumps f w) as [[[]|e] w3]
    end; cbn [fst snd world stdout stderr] in *.
    + rewrite str_run. cbn [fst snd world]. simpl. by rewrite Hs, <- Hf2.
    + destruct (str_ValueError _ e); cbn [fst snd world]; by rewrite Hs, <- Hf2.
Qed.

(** X24.  [cmd_status], on a registry file and a [--date] option whose
    timestamps carry no UTC offset.  An exception of the load ends the
    command.  When the loaded registry does not hold the key, the command
    exits with status 1 after one line on the error stream, whatever the
    [--date] option is: the option is not read.  When it holds the key, a
    date that does not parse ends the command with the
    [ArgumentTypeError] of [parse_date] and nothing printed; otherwise the
    command prints the first entity with the key, its status at the date
    given or else at the reading of the clock, and its dates.  No file
    changes in any case. *)
Theorem cmd_status_outcome
    (loads : string -> result json) (cross_mark : string)
    (strftime_date : datetime -> string) (args : status_args) (p : Process) :
  offset_free_file loads (world p) (status_registry args) = true ->
  offset_free_arg (status_date args) = true ->
  let nm := status_name args in
  let ver := status_version args in
  let loaded := load_registry loads (status_registry args) (world p) in
  let ms := _models (registry (snd loaded)) in
  let r := cmd_status loads cross_mark strftime_date args p in
  (forall e, fst loaded = Raise e ->
     fst r = Stop (Uncaught e) /\
     stdout (snd r) = stdout p /\ stderr (snd r) = stderr p) /\
  (fst loaded = Ok tt -> (nm, ver) ∉ key <$> ms ->
     fst r = Stop (SystemExit 1) /\
     stdout (snd r) = stdout p /\
     stderr (snd r)
     = stderr p ++ [cross_mark +:+ " Model " +:+ nm +:+ " v" +:+ ver +:+ " not found"]) /\
  (forall m, fst loaded = Ok tt -> get_model_in ms nm ver = Some m ->
     (forall e, optional_arg (status_date args) = Stop e ->
        fst r = Stop e /\
        stdout (snd r) = stdout p /\ stderr (snd r) = stderr p) /\
     (forall reference, optional_arg (status_date args) = Done reference ->
        let t := default (clock (world p) (ticks (world p))) reference in
        fst r = Done tt /\
        stdout (snd r)
        = stdout p
          ++ [(line_end +:+ "Model: " +:+ name m +:+ " v" +:+ version m);
              ("Status: " +:+ value (status_at m t))]
          ++ date_lines strftime_date EmptyString m /\
        stderr (snd r) = stderr p)) /\
  files (world (snd r)) = files (world p).
Proof.
  intros _ _.
  cbv zeta. unfold cmd_status. crun.
  pose proof (load_registry_world loads (status_registry args) (world p)) as Hw.
  destruct (load_registry loads (status_registry args) (world p)) as [[[]|e0] w1];
    cbn [fst snd world stdout stderr] in *.
  2:{ split_and!; try done.
      - by intros e [= <-].
      - by rewrite Hw. }
  assert (Hf : files w1 = files (world p)) by by rewrite Hw.
  assert (Hc : clock w1 = clock (world p)) by by rewrite Hw.
  assert (Ht : ticks w1 = ticks (world p)) by by rewrite Hw.
  rewrite get_model_run. cbn [world stdout stderr].
  split_and!; [done| | |].
  - intros _ Hn. apply get_model_in_none_iff in Hn. by rewrite Hn.
  - intros m _ ->. split.
    + intros e ->. done.
    + intros reference ->. cbn [world stdout stderr].
      destruct reference as [t|].
      * rewrite get_status_at. cbn [fst snd world stdout stderr default from_option id].
        unfold date_lines.
        destruct (deprecation_date m), (retirement_date m);
          cbn [fst snd world stdout stderr app]; rewrite <- ?app_assoc; done.
      * rewrite get_status_default, Hc, Ht.
        cbn [fst snd world stdout stderr default from_option id].
        unfold date_lines.
        destruct (deprecation_date m), (retirement_date m);
          cbn [fst snd world stdout stderr app]; rewrite <- ?app_assoc; done.
  - destruct (get_model_in _ _ _) as [m|]; [|done].
    destruct (optional_arg (status_date args)) as [[t|]|e]; [| |done];
      cbn [world stdout stderr];
      rewrite ?get_status_at, ?get_status_default;
      destruct (deprecation_date m), (retirement_date m);
      cbn [fst snd world stdout stderr]; done.
Qed.

Lemma advance_0 w : advance 0 w = w.
Proof. by destruct w. Qed.

(** The lines [cmd_list] prints for one model and for a list of models:
    one reading of the clock for each, nothing else changes. *)
Lemma print_model_run strftime_date m p :
  print_model strftime_date m p
  = (Done tt,
     mk_Process (tick (world p))
       (stdout p ++ listed_lines strftime_date m
                      (status_at m (clock (world p) (ticks (world p)))))
       (stderr p)).
Proof.
  unfold print_model. crun. cbn [world stdout stderr].
  rewrite get_status_default. cbn [world stdout stderr].
  unfold listed_lines, date_lines.
  destruct (deprecation_date m), (retirement_date m);
    cbn [world stdout stderr app]; rewrite <- ?app_assoc; reflexivity.
Qed.

Lemma for_each_print_model strftime_date ms p :
  for_each (print_model strftime_date) ms p
  = (Done tt,
     mk_Process (advance (length ms) (world p))
       (stdout p ++ listing_from strftime_date (clock (world p)) (ticks (world p)) ms)
       (stderr p)).
Proof.
  revert p. induction ms as [|m ms IH]; intros p.
  - cbn. rewrite advance_0, app_nil_r. by destruct p.
  - cbn [for_each listing_from length]. unfold mbind, C_bind.
    rewrite print_model_run, IH. cbn [world stdout stderr].
    rewrite advance_tick. cbn [clock ticks tick]. by rewrite <- app_assoc.
Qed.

(** X25.  [ModelStatus(v)] finds the member whose value is [v]: the three
    values are pairwise distinct, each names its own member, and every
    other string raises [ValueError]. *)
Theorem ModelStatus_of_value_outcome (v : string) :
  (forall s, ModelStatus_of_value v = Ok s <-> v = value s) /\
  (is_ok (ModelStatus_of_value v) = false <->
   v <> "active" /\ v <> "deprecated" /\ v <> "retired") /\
  (forall e, ModelStatus_of_value v = Raise e -> is_ValueError e = true).
Proof.
  unfold ModelStatus_of_value.
  destruct (String.eqb_spec v "active") as [->|H1].
  { split_and!; [intros []; split; done|split; [done|intros (? & _); done]|done]. }
  destruct (String.eqb_spec v "deprecated") as [->|H2].
  { split_and!; [intros []; split; done|split; [done|intros (? & ? & _); done]|done]. }
  destruct (String.eqb_spec v "retired") as [->|H3].
  { split_and!; [intros []; split; done|split; [done|intros (? & ? & ?); done]|done]. }
  split_and!.
  - intros []; split; try done; simpl; intros ->; done.
  - done.
  - by intros e [= <-].
Qed.

(** X26.  [cmd_list], on a registry file whose timestamps carry no UTC
    offset.  An exception of the load ends the command.  A [--status] that
    names no status ends it with status 1 after one line on the error
    stream.  Otherwise the command succeeds: the selection is the loaded
    entities in their order, those of the status asked for when one is
    given, each judged at its own reading of the clock, and of them those
    with the name asked for when one is given; an empty selection prints
    one line saying so, any other a header with its size and then the
    lines of each entity, the status in them being read from the clock
    once more.  An empty [--status] or [--name] is as good as none.  No
    file changes in any case. *)
Theorem cmd_list_outcome
    (loads : string -> result json) (cross_mark decode_error_text : string)
    (strftime_date : datetime -> string) (args : list_args) (p : Process) :
  offset_free_file loads (world p) (list_registry args) = true ->
  let loaded := load_registry loads (list_registry args) (world p) in
  let ms := _models (registry (snd loaded)) in
  let clk := clock (world p) in
  let k := ticks (world p) in
  let r := cmd_list loads cross_mark decode_error_text strftime_date args p in
  let by_name (l : list Model) :=
    match given (list_name args) with
    | Some nm => filter (fun m => name m = nm) l
    | None => l
    end in
  let report (k1 : nat) (selected : list Model) :=
    match selected with
    | [] => ["No models found."]
    | _ => (line_end +:+ "Found " +:+ pretty (length selected) +:+ " model(s):"
            +:+ line_end)
           :: listing_from strftime_date clk k1 selected
    end in
  (forall e, fst loaded = Raise e ->
     fst r = Stop (Uncaught e) /\
     stdout (snd r) = stdout p /\ stderr (snd r) = stderr p) /\
  (forall v, fst loaded = Ok tt -> given (list_status args) = Some v ->
     is_ok (ModelStatus_of_value v) = false ->
     fst r = Stop (SystemExit 1) /\
     stdout (snd r) = stdout p /\
     stderr (snd r) = stderr p ++ [cross_mark +:+ " Invalid status: " +:+ v]) /\
  (fst loaded = Ok tt -> given (list_status args) = None ->
     fst r = Done tt /\
     stdout (snd r) = stdout p ++ report k (by_name ms) /\
     stderr (snd r) = stderr p) /\
  (forall v status, fst loaded = Ok tt -> given (list_status args) = Some v ->
     ModelStatus_of_value v = Ok status ->
     fst r = Done tt /\
     stdout (snd r)
     = stdout p ++ report (length ms + k)%nat (by_name (by_status_from clk k status ms)) /\
     stderr (snd r) = stderr p) /\
  files (world (snd r)) = files (world p).
Proof.
  intros _.
  cbv zeta. unfold cmd_list. crun.
  pose proof (load_registry_world loads (list_registry args) (world p)) as Hw.
  destruct (load_registry loads (list_registry args) (world p)) as [[[]|e0] w1];
    cbn [fst snd world stdout stderr] in *.
  2:{ split_and!; try done.
      - by intros e [= <-].
      - by rewrite Hw. }
  assert (Hf : files w1 = files (world p)) by by rewrite Hw.
  assert (Hc : clock w1 = clock (world p)) by by rewrite Hw.
  assert (Ht : ticks w1 = ticks (world p)) by by rewrite Hw.
  unfold get_all_models. run. cbn [world stdout stderr].
  assert (Hrep : forall w l out,
            clock w = clock (world p) ->
            let r' := match l with
                      | [] => print "No models found."
                      | _ :: _ =>
                          fun p0 =>
                            for_each (print_model strftime_date) l
                              (mk_Process (world p0)
                                 (stdout p0 ++ [line_end +:+ "Found " +:+ pretty (length l)
                                                +:+ " model(s):" +:+ line_end])
                                 (stderr p0))
                      end (mk_Process w out (stderr p)) in
            fst r' = Done tt /\
            stdout (snd r')
            = out ++ match l with
                     | [] => ["No models found."]
                     | _ :: _ =>
                         (line_end +:+ "Found " +:+ pretty (length l) +:+ " model(s):"
                          +:+ line_end)
                         :: listing_from strftime_date (clock (world p)) (ticks w) l
                     end /\
            stderr (snd r') = stderr p /\
            files (world (snd r')) = files w).
  { intros w l out Hcw. cbv zeta. destruct l as [|x l]; [done|].
    rewrite for_each_print_model. cbn [fst snd world stdout stderr].
    rewrite Hcw, <- app_assoc. done. }
  split_and!; [done| | | |].
  - intros v _ -> Hv. destruct (ModelStatus_of_value v) as [s|e] eqn:E; [done|].
    cbn [world stdout stderr].
    assert (exists msg, e = ValueError msg) as [msg ->].
    { revert E. unfold ModelStatus_of_value. repeat case_match; intros [= <-]; eauto. }
    done.
  - intros _ ->.
    destruct (Hrep w1 (match given (list_name args) with
                       | Some nm => filter (fun m => name m = nm) (_models (registry w1))
                       | None => _models (registry w1)
                       end) (stdout p) Hc) as (H1 & H2 & H3 & _).
    rewrite Ht in H2. done.
  - intros v status _ -> ->. cbn [world stdout stderr].
    rewrite get_models_by_status_default_run. cbn [world stdout stderr].
    rewrite Hc, Ht.
    destruct (Hrep (advance (length (_models (registry w1))) w1)
                (match given (list_name args) with
                 | Some nm => filter (fun m => name m = nm)
                                (by_status_from (clock (world p)) (ticks (world p)) status
                                   (_models (registry w1)))
                 | None => by_status_from (clock (world p)) (ticks (world p)) status
                             (_models (registry w1))
                 end) (stdout p) Hc) as (H1 & H2 & H3 & _).
    cbn [ticks advance] in H2. rewrite Ht in H2. done.
  - destruct (given (list_status args)) as [v|].
    + destruct (ModelStatus_of_value v) as [s|e] eqn:E; cbn [world stdout stderr].
      * rewrite get_models_by_status_default_run. cbn [world stdout stderr].
        match goal with
        | |- context [match ?l with [] => _ | _ :: _ => _ end] =>
            destruct (Hrep (advance (length (_models (registry w1))) w1) l (stdout p) Hc)
              as (_ & _ & _ & H4)
        end.
        etrans; [exact H4|exact Hf].
      * assert (exists msg, e = ValueError msg) as [msg ->].
        { revert E. unfold ModelStatus_of_value. repeat case_match; intros [= <-]; eauto. }
        done.
    + match goal with
      | |- context [match ?l with [] => _ | _ :: _ => _ end] =>
          destruct (Hrep w1 l (stdout p) Hc) as (_ & _ & _ & H4)
      end.
      etrans; [exact H4|exact Hf].
Qed.

(** ** The command line: from one run to the next *)

Lemma optional_date_valid pairs k d :
  optional_date (JDict pairs) k = Ok d -> from_option valid_datetime True d.
Proof.
  rewrite optional_date_cases.
  destruct (assoc k pairs) as [v|]; [|by intros [= <-]].
  destruct (truthy v); [|by intros [= <-]].
  destruct v; simpl; try done.
  destruct (fromisoformat s) as [d'|] eqn:E; simpl; [|done].
  intros [= <-]. by eapply fromisoformat_valid.
Qed.

(** What [from_dict] answers is well formed. *)
Lemma from_dict_well_formed item w m w' :
  from_dict item w = (Ok m, w') -> well_formed m.
Proof.
  destruct item; try (unfold from_dict; run; simpl; done).
  intros (cs & _ & _ & _ & Hc & Hd & Hr & Hv & _)%from_dict_ok_inv.
  split; [|done]. split_and!.
  - by eapply fromisoformat_valid.
  - by eapply optional_date_valid.
  - by eapply optional_date_valid.
Qed.

Lemma load_registry_well_formed loads filepath w :
  fst (load_registry loads filepath w) = Ok tt ->
  Forall well_formed (_models (registry (snd (load_registry loads filepath w)))).
Proof.
  rewrite load_registry_run. destruct (files w !! filepath) as [s|] eqn:E; [|done].
  rewrite load_from_file_run. simpl. rewrite E.
  destruct (decide _); [done|].
  destruct (_ ← loads s; _) as [items|]; [|done].
  destruct (comprehension from_dict items _) as [[ms|e] w1] eqn:Hc; [|done].
  intros _. simpl.
  pose proof (comprehension_from_dict_Forall2 _ _ _ _ Hc) as H2.
  apply Forall_forall. intros m Hm.
  apply list_elem_of_lookup in Hm as [i Hi].
  destruct (Forall2_lookup_r _ _ _ _ _ H2 Hi) as (item & _ & Hitem).
  by eapply from_dict_well_formed.
Qed.

Lemma optional_arg_valid a d :
  optional_arg a = Done d -> from_option valid_datetime True d.
Proof.
  unfold optional_arg, parse_date. destruct a as [s|]; [|by intros [= <-]].
  destruct (String.eqb s _); [by intros [= <-]|].
  destruct (fromisoformat s) as [d'|e] eqn:E; cbn.
  - intros [= <-]. by eapply fromisoformat_valid.
  - by destruct (is_ValueError e).
Qed.

(** A later run reads what an earlier one saved. *)
Lemma load_registry_saved dumps loads filepath w clk k ms :
  files w !! filepath = Some (text_of dumps clk k ms) ->
  filepath ∉ denied w ->
  Forall well_formed ms ->
  loads (text_of dumps clk k ms) = Ok (JDict [("models", JList (dicts_from clk k ms))]) ->
  load_registry loads filepath w = (Ok tt, set_registry (mk_ModelRegistry ms) w).
Proof.
  intros Hf Hd Hms Hcodec.
  rewrite load_registry_run, Hf, load_from_file_run. simpl.
  rewrite Hf, decide_False, Hcodec by done.
  cbn [mbind result_bind dict_get assoc String.eqb Ascii.eqb Bool.eqb
       default from_option id iter].
  by rewrite comprehension_from_dict_dicts.
Qed.

(** X27.  What [cmd_add] saved, the next run loads: after a successful
    [cmd_add], [load_registry] of the same path answers the entities the
    command had loaded followed by the new one, in this order, provided
    the clock shows a datetime Python can hold and the codec reads back
    the text it wrote. *)
Theorem cmd_add_persists
    (dumps : json -> string) (loads : string -> result json)
    (check_mark cross_mark decode_error_text : string)
    (args : add_args) (p : Process)
    (created dep ret : option datetime) :
  let path := add_registry args in
  let loaded := load_registry loads path (world p) in
  let ms := _models (registry (snd loaded)) in
  let clk := clock (world p) in
  let k := ticks (world p) in
  let r := cmd_add dumps loads check_mark cross_mark decode_error_text args p in
  let model := mk_Model (add_name args) (add_version args)
                 (default (clk k) created) dep ret in
  let k1 := match created with Some _ => k | None => S k end in
  fst loaded = Ok tt ->
  add_dates args = Done (created, dep, ret) ->
  _validate_dates model = Ok tt ->
  key model ∉ key <$> ms ->
  writable (world p) path ->
  valid_datetime (clk k) ->
  loads (text_of dumps clk k1 (ms ++ [model]))
  = Ok (JDict [("models", JList (dicts_from clk k1 (ms ++ [model])))]) ->
  fst r = Done tt /\
  load_registry loads path (world (snd r))
  = (Ok tt, set_registry (mk_ModelRegistry (ms ++ [model])) (world (snd r))).
Proof.
  cbv zeta. intros Hl Hdates Hv Hnin Hwr Hclk Hcodec.
  pose proof (load_registry_well_formed loads (add_registry args) (world p) Hl) as Hms.
  assert (Hmodel : well_formed
            (mk_Model (add_name args) (add_version args)
               (default (clock (world p) (ticks (world p))) created) dep ret)).
  { split; [|done]. revert Hdates. unfold add_dates, mbind, outcome_bind.
    destruct (optional_arg (add_created args)) as [c|] eqn:E1; [|done].
    destruct (optional_arg (add_deprecation args)) as [d|] eqn:E2; [|done].
    destruct (optional_arg (add_retirement args)) as [t|] eqn:E3; [|done].
    intros [= <- <- <-]. apply optional_arg_valid in E1, E2, E3.
    split_and!; simpl; try done. by destruct c. }
  revert Hdates Hv Hnin Hcodec.
  unfold cmd_add, add_dates. crun. unfold outcome_bind.
  pose proof (load_registry_world loads (add_registry args) (world p)) as Hw.
  destruct (load_registry loads (add_registry args) (world p)) as [[[]|e0] w1];
    cbn [fst snd world stdout stderr] in *; [|done].
  destruct (optional_arg (add_created args)) as [c|e1]; [|done].
  destruct (optional_arg (add_deprecation args)) as [d|e2]; [|done].
  destruct (optional_arg (add_retirement args)) as [t|e3]; [|done].
  intros [= <- <- <-] Hv Hnin Hcodec. cbn [world stdout stderr].
  rewrite init_outcome. cbv zeta.
  assert (Hc : clock w1 = clock (world p)) by by rewrite Hw.
  assert (Ht : ticks w1 = ticks (world p)) by by rewrite Hw.
  rewrite Hc, Ht, Hv. cbn [world stdout stderr].
  rewrite add_model_run.
  set (w2 := match c with Some _ => w1 | None => tick w1 end) in *.
  assert (Hw2 : w2 = set_registry (registry w1)
                       (match c with Some _ => world p | None => tick (world p) end)).
  { subst w2. rewrite Hw. by destruct c. }
  destruct (get_model_in (_models (registry w2)) _ _) as [m'|] eqn:Hg.
  { exfalso. apply Hnin. apply dec_stable. intros Hn.
    apply get_model_in_none_iff in Hn. rewrite Hw2 in Hg.
    destruct c; simpl in Hg, Hn; congruence. }
  cbn [world stdout stderr].
  rewrite save_to_file_writable by (rewrite Hw2; by destruct c).
  cbn [world stdout stderr]. rewrite str_run. cbn [fst snd world stdout stderr].
  split; [done|].
  destruct Hwr as (_ & Hden & _).
  rewrite (load_registry_saved dumps loads _ _ (clock (world p))
             (match c with Some _ => ticks (world p) | None => S (ticks (world p)) end)
             (_models (registry w1) ++ [mk_Model (add_name args) (add_version args)
                 (default (clock (world p) (ticks (world p))) c) d t])).
  - rewrite Hw2. by destruct c.
  - rewrite Hw2. destruct c; simpl; by rewrite lookup_insert_eq.
  - rewrite Hw2. by destruct c.
  - apply Forall_app. split; [done|]. by constructor.
  - done.
Qed.

Lemma cmd_add_persists_witness :
  fst (cmd_add json_dumps json_loads check_mark_utf8 cross_mark_utf8
         decode_error_example add_gpt4 (process_in world0)) = Done tt /\
  load_registry json_loads "registry.json"
    (world (snd (cmd_add json_dumps json_loads check_mark_utf8 cross_mark_utf8
                   decode_error_example add_gpt4 (process_in world0))))
  = (Ok tt,
     set_registry (mk_ModelRegistry ([] ++ [model_a]))
       (world (snd (cmd_add json_dumps json_loads check_mark_utf8 cross_mark_utf8
                      decode_error_example add_gpt4 (process_in world0))))).
Proof.
  apply (cmd_add_persists json_dumps json_loads check_mark_utf8 cross_mark_utf8
           decode_error_example add_gpt4 (process_in world0) (Some t0) None None).
  - reflexivity.
  - reflexivity.
  - reflexivity.
  - vm_compute. apply not_elem_of_nil.
  - split_and!; [apply not_elem_of_empty|apply not_elem_of_empty|reflexivity].
  - reflexivity.
  - vm_compute. reflexivity.
Defined.

(** X28.  What [cmd_remove] saved, the next run loads: after a successful
    [cmd_remove], [load_registry] of the same path answers the entities
    the command had loaded without the first one with the key, in their
    order, provided the codec reads back the text it wrote. *)
Theorem cmd_remove_persists
    (dumps : json -> string) (loads : string -> result json)
    (check_mark cross_mark : string) (args : remove_args) (p : Process)
    (ms1 : list Model) (m : Model) (ms2 : list Model) :
  let path := remove_registry args in
  let loaded := load_registry loads path (world p) in
  let clk := clock (world p) in
  let k := ticks (world p) in
  let r := cmd_remove dumps loads check_mark cross_mark args p in
  fst loaded = Ok tt ->
  _models (registry (snd loaded)) = ms1 ++ m :: ms2 ->
  key m = (remove_name args, remove_version args) ->
  (remove_name args, remove_version args) ∉ key <$> ms1 ->
  writable (world p) path ->
  loads (text_of dumps clk k (ms1 ++ ms2))
  = Ok (JDict [("models", JList (dicts_from clk k (ms1 ++ ms2)))]) ->
  fst r = Done tt /\
  load_registry loads path (world (snd r))
  = (Ok tt, set_registry (mk_ModelRegistry (ms1 ++ ms2)) (world (snd r))).
Proof.
  cbv zeta. intros Hl Hms Hk Hn1 Hwr Hcodec.
  pose proof (load_registry_well_formed loads (remove_registry args) (world p) Hl) as Hwf.
  rewrite Hms in Hwf. apply Forall_app in Hwf as [Hwf1 Hwf2].
  apply Forall_cons in Hwf2 as [_ Hwf2].
  revert Hms. unfold cmd_remove. crun.
  pose proof (load_registry_world loads (remove_registry args) (world p)) as Hw.
  destruct (load_registry loads (remove_registry args) (world p)) as [[[]|e0] w1];
    cbn [fst snd world stdout stderr] in *; [|done].
  intros Hms. rewrite remove_model_run, Hms.
  assert (Hno : Forall (fun x => key_matches (remove_name args) (remove_version args) x
                                 = false) ms1).
  { apply Forall_forall. intros x Hx.
    destruct (key_matches _ _ x) eqn:E; [|done].
    apply key_matches_key in E. exfalso. apply Hn1.
    rewrite <- E. by apply list_elem_of_fmap_2. }
  assert (Hm : key_matches (remove_name args) (remove_version args) m = true)
    by by apply key_matches_key.
  rewrite (get_model_in_first _ _ _ _ _ Hno Hm), (remove_first_found _ _ _ _ _ Hno Hm).
  cbn [world stdout stderr].
  rewrite save_to_file_writable by (rewrite Hw; exact Hwr).
  cbn [fst snd world stdout stderr]. split; [done|].
  destruct Hwr as (_ & Hden & _).
  rewrite (load_registry_saved dumps loads _ _ (clock (world p)) (ticks (world p))
             (ms1 ++ ms2)).
  - done.
  - rewrite Hw. simpl. by rewrite lookup_insert_eq.
  - by rewrite Hw.
  - apply Forall_app. done.
  - done.
Qed.

Lemma cmd_remove_persists_witness :
  fst (cmd_remove json_dumps json_loads check_mark_utf8 cross_mark_utf8
         remove_gpt4 (process_in world_listed)) = Done tt /\
  load_registry json_loads "registry.json"
    (world (snd (cmd_remove json_dumps json_loads check_mark_utf8 cross_mark_utf8
                   remove_gpt4 (process_in world_listed))))
  = (Ok tt,
     set_registry (mk_ModelRegistry ([] ++ [model_c]))
       (world (snd (cmd_remove json_dumps json_loads check_mark_utf8 cross_mark_utf8
                      remove_gpt4 (process_in world_listed))))).
Proof.
  apply (cmd_remove_persists json_dumps json_loads check_mark_utf8 cross_mark_utf8
           remove_gpt4 (process_in world_listed) [] model_a [model_c]).
  - vm_compute. reflexivity.
  - vm_compute. reflexivity.
  - reflexivity.
  - apply not_elem_of_nil.
  - split_and!; [apply not_elem_of_empty|apply not_elem_of_empty|reflexivity].
  - vm_compute. reflexivity.
Defined.

(** ** The command line: the status asked for and the status printed *)

Lemma listing_from_still strftime_date clk k ms t status :
  (forall i, clk i = t) ->
  Forall (fun m => status_at m t = status) ms ->
  listing_from strftime_date clk k ms
  = concat ((fun m => listed_lines strftime_date m status) <$> ms).
Proof.
  intros Hclk Hms. revert k. induction Hms as [|m ms Hm _ IH]; intros k; [done|].
  cbn [listing_from fmap list_fmap concat]. by rewrite Hclk, Hm, IH.
Qed.

(** X29.  [cmd_list --status], on a registry file whose timestamps carry
    no UTC offset: the status is judged once to select the entities and
    read again to print each of them.  While the clock shows one instant
    [t], the selection is that of the entities whose status at [t] is the
    one asked for, and every entity is printed with that status. *)
Theorem cmd_list_by_status_still_clock
    (loads : string -> result json) (cross_mark decode_error_text : string)
    (strftime_date : datetime -> string) (args : list_args) (p : Process)
    (v : string) (status : ModelStatus) (t : datetime) :
  offset_free_file loads (world p) (list_registry args) = true ->
  let loaded := load_registry loads (list_registry args) (world p) in
  let ms := _models (registry (snd loaded)) in
  let r := cmd_list loads cross_mark decode_error_text strftime_date args p in
  let selected :=
    let l := filter (fun m => status_at m t = status) ms in
    match given (list_name args) with
    | Some nm => filter (fun m => name m = nm) l
    | None => l
    end in
  fst loaded = Ok tt ->
  given (list_status args) = Some v ->
  ModelStatus_of_value v = Ok status ->
  (forall i, clock (world p) i = t) ->
  stdout (snd r)
  = stdout p
    ++ match selected with
       | [] => ["No models found."]
       | _ => (line_end +:+ "Found " +:+ pretty (length selected) +:+ " model(s):"
               +:+ line_end)
              :: concat ((fun m => listed_lines strftime_date m status) <$> selected)
       end.
Proof.
  intros _.
  cbv zeta. intros Hl Hgiven Hv Hclk. unfold cmd_list. crun.
  pose proof (load_registry_world loads (list_registry args) (world p)) as Hw.
  destruct (load_registry loads (list_registry args) (world p)) as [[[]|e0] w1];
    cbn [fst snd world stdout stderr] in *; [|done].
  assert (Hc : clock w1 = clock (world p)) by by rewrite Hw.
  unfold get_all_models. run. cbn [world stdout stderr].
  rewrite Hgiven, Hv. cbn [world stdout stderr].
  rewrite get_models_by_status_default_run. cbn [world stdout stderr].
  rewrite (by_status_from_still _ _ _ _ t) by (intros i _; rewrite Hc; apply Hclk).
  set (l := filter (fun m => status_at m t = status) (_models (registry w1))).
  assert (Hsel : Forall (fun m => status_at m t = status)
                   match given (list_name args) with
                   | Some nm => filter (fun m => name m = nm) l
                   | None => l
                   end).
  { assert (Forall (fun m => status_at m t = status) l) as Hall.
    { apply Forall_forall. intros m Hm. subst l.
      by apply list_elem_of_filter in Hm as [? _]. }
    destruct (given (list_name args)); [|done].
    apply Forall_forall. intros m Hm. apply list_elem_of_filter in Hm as [_ Hm].
    rewrite Forall_forall in Hall. by apply Hall. }
  destruct (match given (list_name args) with
            | Some nm => filter (fun m => name m = nm) l
            | None => l
            end) as [|x sel] eqn:Esel; [done|].
  rewrite for_each_print_model. cbn [fst snd world stdout stderr].
  rewrite (listing_from_still _ _ _ _ t status) by (done || (intros i; cbn [clock advance]; rewrite Hc; apply Hclk)).
  by rewrite <- app_assoc.
Qed.

Lemma cmd_list_by_status_still_clock_witness :
  stdout (snd (cmd_list json_loads cross_mark_utf8 decode_error_example
                 strftime_example list_active (process_in world_listed)))
  = stdout (process_in world_listed)
    ++ [(line_end +:+ "Found " +:+ pretty 2%nat +:+ " model(s):" +:+ line_end)]
    ++ listed_lines strftime_example model_a ACTIVE
    ++ listed_lines strftime_example model_c ACTIVE.
Proof.
  apply (cmd_list_by_status_still_clock json_loads cross_mark_utf8
           decode_error_example strftime_example list_active
           (process_in world_listed) "active" ACTIVE t0).
  - vm_compute. reflexivity.
  - vm_compute. reflexivity.
  - reflexivity.
  - reflexivity.
  - reflexivity.
Defined.

(** When the clock moves between the two readings, the two can differ: an
    entity selected as active is printed as deprecated. *)
Example cmd_list_moving_clock :
  cmd_list json_loads cross_mark_utf8 decode_error_example strftime_example
    list_active (process_in world_moving)
  = (Done tt,
     mk_Process (advance 2 (set_registry (mk_ModelRegistry [model_d]) world_moving))
       [(line_end +:+ "Found 1 model(s):" +:+ line_end);
        "  GPT-3 v1.0";
        "    Status: deprecated";
        "    Created: 2024-01-01";
        "    Deprecation: 2024-02-01";
        EmptyString]
       []).
Proof. vm_compute. reflexivity. Qed.

(** The four commands, one after the other, from no file at all: the
    entity is added, found, listed and removed. *)
Example command_line_scenario :
  let p1 := snd (cmd_add json_dumps json_loads check_mark_utf8 cross_mark_utf8
                   decode_error_example add_gpt4 (process_in world0)) in
  let p2 := snd (cmd_status json_loads cross_mark_utf8 strftime_example status_gpt4 p1) in
  let p3 := snd (cmd_remove json_dumps json_loads check_mark_utf8 cross_mark_utf8
                   remove_gpt4 p2) in
  let r4 := cmd_remove json_dumps json_loads check_mark_utf8 cross_mark_utf8
              remove_gpt4 p3 in
  stdout p3
  = [(check_mark_utf8 +:+ " Added model: GPT-4 v1.0 [active]");
     (line_end +:+ "Model: GPT-4 v1.0");
     "Status: active";
     "Created: 2024-01-01";
     (check_mark_utf8 +:+ " Removed model: GPT-4 v1.0")] /\
  stderr p3 = [] /\
  files (world p3) !! "registry.json" = Some old_text /\
  fst r4 = Stop (SystemExit 1) /\
  stderr (snd r4) = [cross_mark_utf8 +:+ " Model GPT-4 v1.0 not found"] /\
  files (world (snd r4)) = files (world p3).
Proof. cbv zeta. split_and!; vm_compute; reflexivity. Qed.

(** A date that is no date ends [cmd_add] with an [ArgumentTypeError],
    not with the status 1 of its handler; a deprecation date before the
    creation date ends it with status 1. *)
Example cmd_add_refusals :
  fst (cmd_add json_dumps json_loads check_mark_utf8 cross_mark_utf8 decode_error_example
         (mk_add_args "registry.json" "GPT-4" "1.0" (Some "yesterday") None None)
         (process_in world0))
  = Stop (ArgumentTypeError
            "Invalid date format: yesterday. Use ISO format (YYYY-MM-DD)") /\
  cmd_add json_dumps json_loads check_mark_utf8 cross_mark_utf8 decode_error_example
    (mk_add_args "registry.json" "GPT-4" "1.0" (Some "2024-01-01") (Some "2023-12-31") None)
    (process_in world0)
  = (Stop (SystemExit 1),
     mk_Process world0 []
       [cross_mark_utf8 +:+ " Error: Deprecation date cannot be before creation date"]).
Proof. vm_compute. split; reflexivity. Qed.

(** ** Datetimes with offsets: the text round trip *)

Lemma digit_not_sign k : digit k <> plus /\ digit k <> dash.
Proof.
  pose proof (Z.mod_pos_bound k 10 eq_refl) as Hr.
  unfold digit. set (r := k mod 10) in *.
  assert (r = 0 \/ r = 1 \/ r = 2 \/ r = 3 \/ r = 4 \/ r = 5 \/ r = 6
          \/ r = 7 \/ r = 8 \/ r = 9) as Hc by lia.
  clearbody r.
  repeat (destruct Hc as [-> | Hc]; [split; discriminate|]). subst. split; discriminate.
Qed.

Lemma split_offset_no_sign l :
  Forall no_sign l -> Tz.split_offset l = (l, None).
Proof.
  induction 1 as [|c l [Hp Hd] _ IH]; [done|]. cbn [Tz.split_offset].
  rewrite decide_False by tauto. by rewrite IH.
Qed.

Lemma split_offset_at_sign l c rest :
  Forall no_sign l -> c = plus \/ c = dash ->
  Tz.split_offset (l ++ c :: rest) = (l, Some (c, rest)).
Proof.
  intros Hl Hc. induction Hl as [|x l [Hp Hd] _ IH]; cbn [app Tz.split_offset].
  - by rewrite decide_True.
  - rewrite decide_False by tauto. by rewrite IH.
Qed.

Lemma chars_isoformat d :
  chars (isoformat d)
  = fmt4 (year d) ++ chars "-" ++ fmt2 (month d) ++ chars "-" ++ fmt2 (day d)
    ++ chars "T" ++ time_chars d.
Proof. unfold isoformat. by rewrite chars_text. Qed.

Lemma time_chars_no_sign d : Forall no_sign (time_chars d).
Proof.
  unfold time_chars, fmt2, fmt6.
  destruct (microsecond d =? 0); cbn [app chars list_ascii_of_string];
    repeat (apply Forall_cons; split; [first [apply digit_not_sign|split; discriminate]|]);
    apply Forall_nil_2.
Qed.

Lemma parse_time_time_chars d :
  valid_datetime d ->
  parse_time (time_chars d) = Some (hour d, minute d, second d, microsecond d).
Proof.
  intros Hv. pose proof (valid_datetime_ranges d Hv) as (_ & _ & _ & Hh & Hmi & Hs & Hus).
  unfold time_chars, fmt2.
  destruct (microsecond d =? 0) eqn:Hz.
  - apply Z.eqb_eq in Hz. cbn [app chars list_ascii_of_string parse_time].
    rewrite !parse_two by done. cbn [mbind option_bind].
    unfold colon. rewrite decide_True by done. by rewrite Hz.
  - unfold fmt6. cbn [app chars list_ascii_of_string parse_time].
    rewrite !parse_two, parse_six by done. cbn [mbind option_bind].
    unfold colon, dot. by rewrite !decide_True by done.
Qed.

Lemma offset_of_isoformat d : Tz.offset_of (isoformat d) = None.
Proof.
  unfold Tz.offset_of. rewrite chars_isoformat. unfold fmt4, fmt2 at 1 2.
  cbn [app chars list_ascii_of_string].
  by rewrite (split_offset_no_sign _ (time_chars_no_sign d)).
Qed.

Lemma format_offset_sign o :
  exists body, Tz.format_offset o = (if o <? 0 then dash else plus) :: body.
Proof. unfold Tz.format_offset. eauto. Qed.

Lemma parse_offset_format o :
  Tz.valid_offset o = true ->
  exists body,
    Tz.format_offset o = (if o <? 0 then dash else plus) :: body /\
    Tz.parse_offset body = Some (Z.abs o / 1000000, Z.abs o mod 1000000).
Proof.
  unfold Tz.valid_offset. intros [Hlo Hhi]%andb_true_iff.
  apply Z.ltb_lt in Hlo, Hhi.
  unfold Tz.format_offset. cbv zeta. eexists. split; [reflexivity|].
  set (a := Z.abs o). assert (0 <= a < 86400000000) as Ha by (subst a; lia).
  clearbody a.
  assert (0 <= a / 3600000000 < 100) by (Z.to_euclidean_division_equations; lia).
  assert (0 <= (a / 60000000) mod 60 < 100) by (Z.to_euclidean_division_equations; lia).
  assert (0 <= (a / 1000000) mod 60 < 100) by (Z.to_euclidean_division_equations; lia).
  assert (0 <= a mod 1000000 < 1000000) by (Z.to_euclidean_division_equations; lia).
  unfold Tz.parse_offset, fmt2, fmt6.
  destruct ((a / 1000000) mod 60 =? 0) eqn:Hs, (a mod 1000000 =? 0) eqn:Hu;
    cbn [andb app length parse_time];
    (rewrite decide_True by (cbn; lia));
    rewrite ?parse_two, ?parse_six by done; cbn [mbind option_bind];
    unfold colon, dot; rewrite ?decide_True by done;
    cbn [mbind option_bind]; f_equal;
    rewrite ?Z.eqb_eq, ?Z.eqb_neq in *;
    f_equal; Z.to_euclidean_division_equations; lia.
Qed.

Lemma offset_read_format o :
  Tz.offset_read (if o <? 0 then dash else plus)
    (Z.abs o / 1000000) (Z.abs o mod 1000000)
  = if Z.abs o <? 1000000 then 0 else o.
Proof.
  unfold Tz.offset_read.
  destruct (Z.abs o / 1000000 =? 0) eqn:E0, (Z.abs o <? 1000000) eqn:E1;
    rewrite ?Z.eqb_eq, ?Z.eqb_neq, ?Z.ltb_lt, ?Z.ltb_ge in *;
    try reflexivity; try (exfalso; Z.to_euclidean_division_equations; lia).
  destruct (o <? 0) eqn:E.
  - rewrite decide_True by done. apply Z.ltb_lt in E.
    Z.to_euclidean_division_equations; lia.
  - rewrite decide_False by discriminate. apply Z.ltb_ge in E.
    Z.to_euclidean_division_equations; lia.
Qed.

(** [fromisoformat] reads back what [isoformat] writes, the offset
    included when it is not of less than a second. *)
Lemma tz_fromisoformat_isoformat d :
  Tz.valid_datetime d -> Tz.fromisoformat (Tz.isoformat d) = Ok (tz_read_back d).
Proof.
  unfold Tz.valid_datetime, Tz.valid_datetimeb. intros [Hw Ho]%andb_true_iff.
  destruct d as [fields [o|]]; cbn [Tz.wall Tz.tzinfo] in *.
  - destruct (parse_offset_format o Ho) as (body & Hfmt & Hparse).
    pose proof (valid_datetime_ranges fields Hw) as (Hy & Hmo & Hd & _).
    unfold Tz.fromisoformat, Tz.isoformat, Tz.offset_of, tz_read_back.
    cbn [Tz.wall Tz.tzinfo].
    rewrite chars_text, chars_isoformat, Hfmt. unfold fmt4, fmt2 at 1 2 3 4.
    cbn [app chars list_ascii_of_string].
    rewrite (split_offset_at_sign _ _ _ (time_chars_no_sign fields))
      by (destruct (o <? 0); auto).
    cbn [fst snd]. rewrite parse_four, !parse_two by done.
    rewrite (parse_time_time_chars _ Hw), Hparse.
    rewrite (decide_True (P := _ /\ _)) by done.
    rewrite offset_read_format.
    replace (mk_datetime _ _ _ _ _ _ _) with fields by (by destruct fields).
    destruct (Z.abs o <? 1000000).
    + cbn [Tz.valid_offset andb Z.ltb Z.compare]. by rewrite (check_fields_valid _ Hw).
    + by rewrite Ho, (check_fields_valid _ Hw).
  - unfold Tz.fromisoformat, Tz.isoformat, tz_read_back. cbn [Tz.wall Tz.tzinfo].
    rewrite offset_of_isoformat, fromisoformat_isoformat by done. reflexivity.
Qed.

Lemma tz_read_back_naive d : is_naive d -> tz_read_back d = d.
Proof. unfold is_naive, tz_read_back. by intros ->. Qed.

(** ** Entities with offsets: construction, status, dictionaries *)

Example tz_fromisoformat_ex1 :
  Tz.fromisoformat "2024-01-15T09:30:00+00:00"
  = Ok (Tz.with_tzinfo (mk_datetime 2024 1 15 9 30 0 0) (Some 0)).
Proof. reflexivity. Qed.

Example tz_fromisoformat_ex2 :
  Tz.fromisoformat "2024-01-15T09:30:00.5"
  = Raise (invalid_isoformat "2024-01-15T09:30:00.5") /\
  Tz.fromisoformat "2024-01-15T09:30:00-05:30"
  = Ok (Tz.with_tzinfo (mk_datetime 2024 1 15 9 30 0 0) (Some (-19800000000))) /\
  Tz.fromisoformat "2024-01-15T09:30+24:00"
  = Raise (ValueError
      "offset must be a timedelta strictly between -timedelta(hours=24) and timedelta(hours=24), not datetime.timedelta(days=1).") /\
  Tz.fromisoformat "2024-01-15 09:30:00"
  = Ok (tz_naive (mk_datetime 2024 1 15 9 30 0 0)).
Proof. split_and!; vm_compute; reflexivity. Qed.

(** An offset of less than a second is written in full and read back as
    UTC. *)
Example tz_small_offset_ex :
  Tz.isoformat (Tz.with_tzinfo t0 (Some 1)) = "2024-01-01T00:00:00+00:00:00.000001" /\
  Tz.fromisoformat "2024-01-01T00:00:00+00:00:00.000001"
  = Ok (Tz.with_tzinfo t0 (Some 0)).
Proof. split; vm_compute; reflexivity. Qed.

Example tz_isoformat_ex :
  Tz.isoformat (Tz.with_tzinfo (mk_datetime 2024 1 1 0 0 0 0) (Some (-18003000007)))
  = "2024-01-01T00:00:00-05:00:03.000007" /\
  Tz.isoformat (noon_utc 2024 1 1) = "2024-01-01T12:00:00+00:00".
Proof. vm_compute. split; reflexivity. Qed.

(** Python orders a naive and an aware object in neither direction, and
    two aware ones by the instants they denote. *)
Example tz_order_ex :
  Tz.lt (noon_utc 2024 1 1) (tz_naive t0) = Raise TypeError /\
  Tz.ge (tz_naive t0) (noon_utc 2024 1 1) = Raise TypeError /\
  Tz.lt (Tz.with_tzinfo (mk_datetime 2024 1 1 12 0 0 0) (Some 19800000000))
        (noon_utc 2024 1 1) = Ok true.
Proof. vm_compute. split_and!; reflexivity. Qed.

(** On naive objects the order is the one of the fields. *)
Lemma tz_lt_naive a b : Tz.lt (tz_naive a) (tz_naive b) = Ok (dt_ltb a b).
Proof. unfold Tz.lt, Tz.cmp, dt_ltb. simpl. by destruct (dt_cmp a b). Qed.

Lemma tz_ge_naive a b : Tz.ge (tz_naive a) (tz_naive b) = Ok (dt_geb a b).
Proof. unfold Tz.ge, Tz.cmp, dt_geb. simpl. by destruct (dt_cmp a b). Qed.

(** A naive and an aware object are not ordered. *)
Lemma tz_ge_mixed a b :
  is_naive a -> ~ is_naive b -> Tz.ge a b = Raise TypeError.
Proof.
  unfold is_naive, Tz.ge, Tz.cmp. intros -> Hb. by destruct (Tz.tzinfo b).
Qed.

(** On naive entities the class of [Tz] is the class above. *)
Lemma tz_validate_dates_naive m :
  Tz._validate_dates (tz_model m) = _validate_dates m.
Proof.
  unfold Tz._validate_dates, _validate_dates, tz_model, Tz.lt, Tz.cmp, dt_ltb.
  cbn [Tz.deprecation_date Tz.retirement_date Tz.created_date].
  destruct (deprecation_date m) as [dep|], (retirement_date m) as [ret|];
    cbn [fmap option_fmap option_map tz_naive Tz.tzinfo Tz.wall mbind result_bind];
    repeat match goal with
           | |- context [dt_cmp ?a ?b] =>
               destruct (dt_cmp a b); cbn [mbind result_bind]
           end; reflexivity.
Qed.

Lemma tz_status_at_naive m t :
  Tz.status_at (tz_model m) (tz_naive t) = Ok (status_at m t).
Proof.
  unfold Tz.status_at, status_at, tz_model, Tz.ge, Tz.cmp, dt_geb.
  cbn [Tz.deprecation_date Tz.retirement_date Tz.created_date].
  destruct (retirement_date m) as [ret|], (deprecation_date m) as [dep|];
    cbn [fmap option_fmap option_map tz_naive Tz.tzinfo Tz.wall mbind result_bind];
    repeat match goal with
           | |- context [dt_cmp ?a ?b] =>
               destruct (dt_cmp a b); cbn [mbind result_bind]
           end; reflexivity.
Qed.

Lemma tz_get_status_default self w :
  Tz.get_status self None w
  = match Tz.status_at self (tz_naive (clock w (ticks w))) with
    | Ok s => (Ok s, tick w)
    | Raise e => (Raise e, tick w)
    end.
Proof. unfold Tz.get_status, Tz.now, now. run. by destruct (Tz.status_at _ _). Qed.

Lemma tz_get_status_at self t w :
  Tz.get_status self (Some t) w
  = match Tz.status_at self t with
    | Ok s => (Ok s, w)
    | Raise e => (Raise e, w)
    end.
Proof. unfold Tz.get_status. run. by destruct (Tz.status_at _ _). Qed.

(** The status of an entity whose milestones are naive, at a naive
    reference date, is found; [status_at] raises nothing but
    [TypeError]. *)
Lemma tz_status_at_naive_milestones self t :
  naive_milestones self -> exists s, Tz.status_at self (tz_naive t) = Ok s.
Proof.
  unfold naive_milestones, Tz.status_at, is_naive, Tz.ge, Tz.cmp.
  destruct (Tz.retirement_date self) as [[r [?|]]|],
           (Tz.deprecation_date self) as [[d [?|]]|]; simpl; intros [? ?]; try done;
    repeat match goal with
           | |- context [dt_cmp ?a ?b] => destruct (dt_cmp a b); simpl
           end; eauto.
Qed.

Lemma tz_init_runs_validation nm ver created dep ret w :
  Tz.__init__ nm ver (Some created) dep ret w =
  match Tz._validate_dates (Tz.mk_Model nm ver created dep ret) with
  | Ok _ => (Ok (Tz.mk_Model nm ver created dep ret), w)
  | Raise e => (Raise e, w)
  end.
Proof. unfold Tz.__init__. run. by destruct (Tz._validate_dates _) as [[]|]. Qed.

Lemma tz_init_validated nm ver created dep ret w e w' :
  Tz.__init__ nm ver created dep ret w = (Ok e, w') -> Tz._validate_dates e = Ok tt.
Proof.
  unfold Tz.__init__, Tz.now, now. run.
  destruct created as [c|]; simpl;
    destruct (Tz._validate_dates _) as [[]|] eqn:Hval; try discriminate;
    by intros [= <- _].
Qed.

Lemma tz_lt_mixed a b :
  is_naive a -> ~ is_naive b -> Tz.lt a b = Raise TypeError.
Proof.
  unfold is_naive, Tz.lt, Tz.cmp. intros -> Hb. by destruct (Tz.tzinfo b).
Qed.

(** A validated entity that has an aware milestone has no status at a
    naive reference date. *)
Lemma tz_status_at_aware_milestone self t :
  Tz._validate_dates self = Ok tt -> ~ naive_milestones self ->
  Tz.status_at self (tz_naive t) = Raise TypeError.
Proof.
  unfold naive_milestones, Tz._validate_dates, Tz.status_at.
  destruct (Tz.retirement_date self) as [r|], (Tz.deprecation_date self) as [d|];
    cbn [from_option]; intros Hv Hn.
  - destruct (decide (is_naive r)) as [Hr|Hr].
    + assert (~ is_naive d) as Hd by tauto.
      rewrite (tz_lt_mixed r d Hr Hd) in Hv.
      by destruct (Tz.lt d (Tz.created_date self)) as [[]|].
    + by rewrite (tz_ge_mixed (tz_naive t) r).
  - assert (~ is_naive r) as Hr by tauto.
    by rewrite (tz_ge_mixed (tz_naive t) r).
  - assert (~ is_naive d) as Hd by tauto.
    simpl. by rewrite (tz_ge_mixed (tz_naive t) d).
  - tauto.
Qed.

Lemma tz_from_dict_calls_init data nm ver c d r w :
  getitem data "name" = Ok (JStr nm) ->
  getitem data "version" = Ok (JStr ver) ->
  (v ← getitem data "created_date"; Tz.fromisoformat_value v) = Ok c ->
  Tz.optional_date data "deprecation_date" = Ok d ->
  Tz.optional_date data "retirement_date" = Ok r ->
  Tz.from_dict data w = Tz.__init__ nm ver (Some c) d r w.
Proof.
  intros Hn Hv Hc Hd Hr. unfold Tz.from_dict.
  rewrite Hn, Hv, Hc, Hd, Hr. reflexivity.
Qed.

Lemma tz_isoformat_truthy d : truthy (JStr (Tz.isoformat d)) = true.
Proof.
  unfold Tz.isoformat. destruct (Tz.tzinfo d); [|reflexivity].
  rewrite chars_isoformat. reflexivity.
Qed.

Lemma tz_optional_date_isoformat kvs key d :
  assoc key kvs = Some (Tz.isoformat_or_none d) ->
  from_option Tz.valid_datetime True d ->
  from_option is_naive True d ->
  Tz.optional_date (JDict kvs) key = Ok d.
Proof.
  intros Hk Hv Hn. unfold Tz.optional_date, dict_get, getitem. rewrite Hk. run.
  destruct d as [d|]; cbn [default from_option Tz.isoformat_or_none id] in *; [|done].
  rewrite tz_isoformat_truthy. cbn [Tz.fromisoformat_value].
  by rewrite tz_fromisoformat_isoformat, tz_read_back_naive.
Qed.

(** A validated entity whose milestones are naive is still valid with its
    creation date as it is read back: when it has a milestone its creation
    date is naive too. *)
Lemma tz_validate_read_back nm ver c d r :
  naive_milestones (Tz.mk_Model nm ver c d r) ->
  Tz._validate_dates (Tz.mk_Model nm ver c d r) = Ok tt ->
  Tz._validate_dates (Tz.mk_Model nm ver (tz_read_back c) d r) = Ok tt.
Proof.
  unfold naive_milestones, Tz._validate_dates, is_naive, Tz.lt, Tz.cmp.
  cbn [Tz.deprecation_date Tz.retirement_date Tz.created_date].
  destruct c as [fields [o|]]; [|done].
  destruct d as [[fd [?|]]|], r as [[fr [?|]]|]; cbn; intros [? ?] Hv; done.
Qed.

(** Deserializing the dictionary of a validated entity whose milestones
    are naive gives the entity back, with its creation date as it is read
    back, whatever [status] the dictionary carries. *)
Lemma tz_from_dict_dict_at e s w :
  tz_valid_dates e -> Tz._validate_dates e = Ok tt -> naive_milestones e ->
  Tz.from_dict (tz_dict_at e s) w
  = (Ok (Tz.mk_Model (Tz.name e) (Tz.version e) (tz_read_back (Tz.created_date e))
           (Tz.deprecation_date e) (Tz.retirement_date e)), w).
Proof.
  intros (Hc & Hd & Hr) Hval [Hnd Hnr]. unfold tz_dict_at.
  rewrite (tz_from_dict_calls_init _ (Tz.name e) (Tz.version e)
             (tz_read_back (Tz.created_date e))
             (Tz.deprecation_date e) (Tz.retirement_date e)).
  - rewrite tz_init_runs_validation. destruct e as [nm ver c d r].
    cbn [Tz.name Tz.version Tz.created_date Tz.deprecation_date Tz.retirement_date] in *.
    by rewrite tz_validate_read_back.
  - reflexivity.
  - reflexivity.
  - simpl. by rewrite tz_fromisoformat_isoformat.
  - by apply tz_optional_date_isoformat.
  - by apply tz_optional_date_isoformat.
Qed.

Lemma tz_deserialization_revalidates_holds : tz_deserialization_revalidates.
Proof.
  intros data nm ver c d r w Hn Hver Hc Hd Hr.
  rewrite (tz_from_dict_calls_init _ _ _ _ _ _ _ Hn Hver Hc Hd Hr).
  rewrite tz_init_runs_validation.
  unfold Tz._validate_dates, tz_I1, tz_I2, tz_before, tz_not_before. simpl.
  split_and!.
  - reflexivity.
  - intros (dep & -> & Hb). by rewrite Hb.
  - intros H1 (dep & ret & -> & -> & Hb). simpl. by rewrite H1, Hb.
  - intros H1 H2 (ret & -> & -> & Hb). simpl. by rewrite Hb.
Qed.

Lemma tz_to_dict_run self w :
  Tz.to_dict self w
  = match Tz.status_at self (tz_naive (clock w (ticks w))) with
    | Ok s => (Ok (tz_dict_at self s), tick w)
    | Raise e => (Raise e, tick w)
    end.
Proof.
  unfold Tz.to_dict. run. rewrite tz_get_status_default.
  by destruct (Tz.status_at _ _).
Qed.

(** On a naive entity [Tz.to_dict] builds the dictionary of [to_dict]. *)
Lemma tz_to_dict_naive m w : Tz.to_dict (tz_model m) w = to_dict m w.
Proof.
  rewrite tz_to_dict_run, tz_status_at_naive, to_dict_at.
  unfold tz_dict_at, dict_at, tz_model. simpl.
  by destruct (deprecation_date m), (retirement_date m).
Qed.




(** The round trip of the two example entities: the one with an offset and
    no milestone, and the naive one with both milestones. *)
Example tz_round_trip_scenario :
  Tz.to_dict model_offset world0
  = (Ok (JDict [("name", JStr "M"); ("version", JStr "2.0");
                ("created_date", JStr "2024-01-01T08:30:15.250000+05:30");
                ("deprecation_date", JNull); ("retirement_date", JNull);
                ("status", JStr "active")]), tick world0) /\
  (exists data w1, Tz.to_dict (tz_model model_full) world0 = (Ok data, w1)
                   /\ Tz.from_dict data w1 = (Ok (tz_model model_full), w1)).
Proof.
  split; [vm_compute; reflexivity|].
  eexists _, _. split; [reflexivity|]. vm_compute. reflexivity.
Qed.

(** ** Listing by status, entities with offsets *)

Lemma tz_ge_raises a b e : Tz.ge a b = Raise e -> e = TypeError.
Proof.
  unfold Tz.ge, Tz.cmp.
  destruct (Tz.tzinfo a) as [oa|], (Tz.tzinfo b) as [ob|];
    cbn [mbind result_bind];
    try destruct (oa =? ob); cbn [mbind result_bind];
    try discriminate; by intros [= <-].
Qed.

Lemma tz_status_at_raises self t e :
  Tz.status_at self t = Raise e -> e = TypeError.
Proof.
  unfold Tz.status_at.
  destruct (Tz.retirement_date self) as [r|].
  - destruct (Tz.ge t r) as [[]|e1] eqn:Hr; simpl; [done| |].
    + destruct (Tz.deprecation_date self) as [d|]; simpl; [|done].
      destruct (Tz.ge t d) as [[]|e2] eqn:Hd; simpl; try done.
      intros [= <-]. by eapply tz_ge_raises.
    + intros [= <-]. by eapply tz_ge_raises.
  - simpl. destruct (Tz.deprecation_date self) as [d|]; simpl; [|done].
    destruct (Tz.ge t d) as [[]|e2] eqn:Hd; simpl; try done.
    intros [= <-]. by eapply tz_ge_raises.
Qed.

Lemma tz_comprehension_if_default status ms w :
  Forall naive_milestones ms ->
  comprehension_if
    (fun model => s ← Tz.get_status model None; mret (bool_decide (s = status))) ms w
  = (Ok (tz_by_status_from (clock w) (ticks w) status ms), advance (length ms) w).
Proof.
  intros Hms. revert w. induction Hms as [|m ms Hm _ IH]; intros w.
  - by destruct w.
  - cbn [comprehension_if tz_by_status_from]. run.
    rewrite tz_get_status_default.
    destruct (tz_status_at_naive_milestones m (clock w (ticks w)) Hm) as [s ->].
    rewrite (IH (tick w)). simpl. rewrite <- advance_tick.
    destruct (decide (s = status)) as [E|E];
      [rewrite bool_decide_eq_true_2 by done|rewrite bool_decide_eq_false_2 by done];
      done.
Qed.

Lemma tz_comprehension_if_raises status ms w :
  Exists (fun m => Tz._validate_dates m = Ok tt /\ ~ naive_milestones m) ms ->
  fst (comprehension_if
         (fun model => s ← Tz.get_status model None; mret (bool_decide (s = status)))
         ms w) = Raise TypeError.
Proof.
  intros Hex. revert w. induction ms as [|m ms IH]; intros w.
  - by apply Exists_nil in Hex.
  - cbn [comprehension_if]. run. rewrite tz_get_status_default.
    destruct (Tz.status_at m _) as [s|e] eqn:Hs.
    + apply Exists_cons in Hex as [[Hv Hn]|Hex].
      { by rewrite (tz_status_at_aware_milestone m _ Hv Hn) in Hs. }
      specialize (IH Hex (tick w)).
      destruct (comprehension_if _ ms (tick w)) as [[l|e] w1]; simpl in *; done.
    + by apply tz_status_at_raises in Hs as ->.
Qed.

Lemma tz_by_status_from_sublist clk k status ms :
  sublist (tz_by_status_from clk k status ms) ms.
Proof.
  revert k. induction ms as [|m ms IH]; intros k; simpl; [done|].
  destruct (Tz.status_at m _); [case_decide|];
    first [by apply sublist_skip|by apply sublist_cons].
Qed.

Lemma tz_comprehension_if_at status t ms w :
  Forall naive_milestones ms ->
  comprehension_if
    (fun model => s ← Tz.get_status model (Some (tz_naive t));
                  mret (bool_decide (s = status))) ms w
  = (Ok (tz_by_status_from (fun _ => t) 0 status ms), w).
Proof.
  intros Hms. generalize 0%nat as k.
  induction Hms as [|m ms Hm _ IH]; intros k; [done|].
  cbn [comprehension_if tz_by_status_from]. run.
  rewrite tz_get_status_at.
  destruct (tz_status_at_naive_milestones m t Hm) as [s ->].
  rewrite (IH (S k)). simpl.
  destruct (decide (s = status)) as [E|E];
    [rewrite bool_decide_eq_true_2 by done|rewrite bool_decide_eq_false_2 by done];
    done.
Qed.

Lemma tz_by_status_from_still clk k k' status ms t :
  (forall i, (k <= i < k + length ms)%nat -> clk i = t) ->
  tz_by_status_from clk k status ms = tz_by_status_from (fun _ => t) k' status ms.
Proof.
  revert k k'. induction ms as [|m ms IH]; intros k k' Hclk; simpl; [done|].
  rewrite (Hclk k) by (simpl; lia).
  rewrite (IH (S k) (S k')) by (intros i Hi; apply Hclk; simpl; lia). done.
Qed.

(** X18.  With the reference time omitted, [get_models_by_status] judges
    every entity at a reading of the clock of its own, a naive object.
    When the milestones of the entities of the registry carry no UTC
    offset, it answers a part of the enumeration in its order, every
    entity of it having the status at one of these readings, and changes
    nothing but the count of the readings; and when the clock shows one
    instant [t] throughout, the answer is that for the explicit reference
    time [t].  When the registry holds a validated entity with a milestone
    that carries a UTC offset, the call raises [TypeError]. *)
Theorem tz_get_models_by_status_default
    (self : Tz.ModelRegistry) (status : ModelStatus) (w : World) :
  let ms := Tz._models self in
  (Forall naive_milestones ms ->
   exists l,
     Tz.get_models_by_status self status None w = (Ok l, advance (length ms) w) /\
     sublist l ms /\
     (forall m, m ∈ l ->
        exists i, (ticks w <= i < ticks w + length ms)%nat /\
                  Tz.status_at m (tz_naive (clock w i)) = Ok status) /\
     (forall t, (forall i, (ticks w <= i < ticks w + length ms)%nat -> clock w i = t) ->
        Tz.get_models_by_status self status (Some (tz_naive t)) w = (Ok l, w))) /\
  (Exists (fun m => Tz._validate_dates m = Ok tt /\ ~ naive_milestones m) ms ->
   fst (Tz.get_models_by_status self status None w) = Raise TypeError).
Proof.
  cbv zeta. unfold Tz.get_models_by_status. split.
  - intros Hms. eexists. split; [by apply tz_comprehension_if_default|].
    split; [apply tz_by_status_from_sublist|]. split.
    + clear Hms. generalize (ticks w) as k.
      induction (Tz._models self) as [|x ms IH]; intros k m; simpl;
        [by intros ?%not_elem_of_nil|].
      destruct (Tz.status_at x _) as [s|e] eqn:Hs; [case_decide as Hx|].
      * intros [->|Hm]%elem_of_cons.
        -- exists k. split; [lia|]. by rewrite Hs, Hx.
        -- destruct (IH (S k) m Hm) as (i & Hi & Hi'). exists i. split; [lia|done].
      * intros Hm. destruct (IH (S k) m Hm) as (i & Hi & Hi').
        exists i. split; [lia|done].
      * intros Hm. destruct (IH (S k) m Hm) as (i & Hi & Hi').
        exists i. split; [lia|done].
    + intros t Ht. rewrite tz_comprehension_if_at by done.
      by rewrite (tz_by_status_from_still (clock w) (ticks w) 0 _ _ t).
  - apply tz_comprehension_if_raises.
Qed.

(** A registry that holds [model_utc] cannot be listed by status at the
    default reference time; at an explicit reference time with an offset
    it can. *)
Example tz_listing_scenario :
  Tz.get_models_by_status (Tz.mk_ModelRegistry [tz_model model_a; model_utc])
    ACTIVE None world0 = (Raise TypeError, advance 2 world0) /\
  Tz.get_models_by_status (Tz.mk_ModelRegistry [model_offset; model_utc])
    DEPRECATED (Some (noon_utc 2024 6 1)) world0 = (Ok [model_utc], world0).
Proof. vm_compute. split; reflexivity. Qed.

(** ** Texts without offsets *)

Lemma tz_fromisoformat_offset_free s :
  offset_free s = true ->
  Tz.fromisoformat s = (d ← fromisoformat s; Ok (tz_naive d)).
Proof.
  unfold offset_free, Tz.fromisoformat.
  by destruct (Tz.offset_of s).
Qed.

Lemma tz_created_offset_free item k :
  match getitem item k with Ok (JStr s) => offset_free s | _ => true end = true ->
  (v ← getitem item k; Tz.fromisoformat_value v)
  = (d ← (v ← getitem item k; fromisoformat_value v); Ok (tz_naive d)).
Proof.
  destruct (getitem item k) as [[| | |s| |]|]; cbn; try done.
  apply tz_fromisoformat_offset_free.
Qed.

Lemma tz_optional_date_offset_free item k :
  match getitem item k with Ok (JStr s) => offset_free s | _ => true end = true ->
  Tz.optional_date item k
  = (d ← optional_date item k; Ok (tz_naive <$> (d : option datetime))
     : result (option Tz.datetime)).
Proof.
  intros H. unfold Tz.optional_date, optional_date.
  destruct (dict_get item k JNull) as [present|]; cbn [mbind result_bind]; [|done].
  destruct (truthy present); [|done].
  pose proof (tz_created_offset_free item k H) as Hc.
  destruct (getitem item k) as [v|]; cbn [mbind result_bind] in *; [|done].
  rewrite Hc. by destruct (fromisoformat_value v).
Qed.

(** On a record whose dates carry no UTC offset, the class of [Tz]
    deserializes as the class above: the same entity, as a naive one, or
    the same error. *)
Lemma tz_from_dict_offset_free item w :
  offset_free_record item = true ->
  Tz.from_dict item w =
  match from_dict item w with
  | (Ok m, w') => (Ok (tz_model m), w')
  | (Raise e, w') => (Raise e, w')
  end.
Proof.
  unfold offset_free_record. cbn [forallb].
  intros (Hc & (Hd & (Hr & _)%andb_true_iff)%andb_true_iff)%andb_true_iff.
  unfold Tz.from_dict, from_dict.
  rewrite (tz_created_offset_free _ _ Hc), (tz_optional_date_offset_free _ _ Hd),
    (tz_optional_date_offset_free _ _ Hr).
  destruct (getitem item "name") as [nm|]; [|done].
  destruct (getitem item "version") as [ver|]; [|done].
  destruct (_ ← getitem item "created_date"; fromisoformat_value _) as [c|]; [|done].
  destruct (optional_date item "deprecation_date") as [d|]; [|done].
  destruct (optional_date item "retirement_date") as [r|]; [|done].
  run. cbn [mbind result_bind].
  destruct (as_str nm) as [nm'|]; [|done].
  destruct (as_str ver) as [ver'|]; [|done].
  rewrite tz_init_runs_validation, init_runs_validation.
  change (Tz.mk_Model nm' ver' (tz_naive c) (tz_naive <$> d) (tz_naive <$> r))
    with (tz_model (mk_Model nm' ver' c d r)).
  rewrite tz_validate_dates_naive. by destruct (_validate_dates _) as [[]|].
Qed.

Lemma tz_model_naive_milestones m : naive_milestones (tz_model m).
Proof.
  unfold naive_milestones, tz_model. simpl.
  by destruct (deprecation_date m), (retirement_date m).
Qed.



(** A record with offsets is another matter: it deserializes to an entity
    that [from_dict] with naive datetimes cannot build. *)
Example record_with_offsets :
  offset_free_record record_utc = false /\
  Tz.from_dict record_utc world0 = (Ok model_utc, world0) /\
  ~ naive_milestones model_utc.
Proof.
  split_and!; [reflexivity|vm_compute; reflexivity|].
  intros [H _]. discriminate H.
Qed.

(** ** The command line at work, on files without offsets *)

Lemma cmd_remove_outcome_witness :
  offset_free_file json_loads (world (process_in world_listed)) "registry.json" = true /\
  fst (cmd_remove json_dumps json_loads check_mark_utf8 cross_mark_utf8 remove_gpt4
         (process_in world_listed)) = Done tt /\
  stdout (snd (cmd_remove json_dumps json_loads check_mark_utf8 cross_mark_utf8
                 remove_gpt4 (process_in world_listed)))
  = [check_mark_utf8 +:+ " Removed model: GPT-4 v1.0"].
Proof.
  assert (Hfree : offset_free_file json_loads (world (process_in world_listed))
                    "registry.json" = true) by (vm_compute; reflexivity).
  split; [exact Hfree|].
  pose proof (cmd_remove_outcome json_dumps json_loads check_mark_utf8 cross_mark_utf8
                remove_gpt4 (process_in world_listed) Hfree) as H.
  cbv zeta in H. destruct H as (_ & _ & H & _).
  destruct (H [] model_a [model_c]) as (H1 & H2 & _).
  - vm_compute. reflexivity.
  - vm_compute. reflexivity.
  - reflexivity.
  - apply not_elem_of_nil.
  - split_and!; [apply not_elem_of_empty|apply not_elem_of_empty|reflexivity].
  - split; [exact H1|exact H2].
Defined.

Lemma cmd_add_outcome_witness :
  offset_free_file json_loads (world (process_in world0)) "registry.json" = true /\
  offset_free_arg (add_created add_gpt4) = true /\
  fst (cmd_add json_dumps json_loads check_mark_utf8 cross_mark_utf8 decode_error_example
         add_gpt4 (process_in world0)) = Done tt /\
  stdout (snd (cmd_add json_dumps json_loads check_mark_utf8 cross_mark_utf8
                 decode_error_example add_gpt4 (process_in world0)))
  = [check_mark_utf8 +:+ " Added model: GPT-4 v1.0 [active]"].
Proof.
  split; [reflexivity|]. split; [reflexivity|].
  pose proof (cmd_add_outcome json_dumps json_loads check_mark_utf8 cross_mark_utf8
                decode_error_example add_gpt4 (process_in world0)
                eq_refl eq_refl eq_refl eq_refl) as H.
  cbv zeta in H. destruct H as (_ & _ & H & _).
  destruct (H (Some t0) None None) as (_ & _ & H3); [reflexivity|reflexivity|].
  destruct H3 as (H1 & H2 & _).
  - reflexivity.
  - apply not_elem_of_nil.
  - split_and!; [apply not_elem_of_empty|apply not_elem_of_empty|reflexivity].
  - split; [exact H1|exact H2].
Defined.

Lemma cmd_status_outcome_witness :
  offset_free_file json_loads (world (process_in world_listed)) "registry.json" = true /\
  offset_free_arg (status_date status_gpt4) = true /\
  fst (cmd_status json_loads cross_mark_utf8 strftime_example status_gpt4
         (process_in world_listed)) = Done tt /\
  stdout (snd (cmd_status json_loads cross_mark_utf8 strftime_example status_gpt4
                 (process_in world_listed)))
  = [(line_end +:+ "Model: GPT-4 v1.0"); "Status: active"; "Created: 2024-01-01"].
Proof.
  assert (Hfree : offset_free_file json_loads (world (process_in world_listed))
                    "registry.json" = true) by (vm_compute; reflexivity).
  split; [exact Hfree|]. split; [reflexivity|].
  pose proof (cmd_status_outcome json_loads cross_mark_utf8 strftime_example status_gpt4
                (process_in world_listed) Hfree eq_refl) as H.
  cbv zeta in H. destruct H as (_ & _ & H & _).
  destruct (H model_a) as (_ & H2).
  - vm_compute. reflexivity.
  - vm_compute. reflexivity.
  - destruct (H2 None eq_refl) as (H3 & H4 & _). split; [exact H3|exact H4].
Defined.

Lemma cmd_list_outcome_witness :
  offset_free_file json_loads (world (process_in world_listed)) "registry.json" = true /\
  fst (cmd_list json_loads cross_mark_utf8 decode_error_example strftime_example
         list_active (process_in world_listed)) = Done tt /\
  stderr (snd (cmd_list json_loads cross_mark_utf8 decode_error_example strftime_example
                 list_active (process_in world_listed))) = [].
Proof.
  assert (Hfree : offset_free_file json_loads (world (process_in world_listed))
                    "registry.json" = true) by (vm_compute; reflexivity).
  split; [exact Hfree|].
  pose proof (cmd_list_outcome json_loads cross_mark_utf8 decode_error_example
                strftime_example list_active (process_in world_listed) Hfree) as H.
  cbv zeta in H. destruct H as (_ & _ & _ & H & _).
  destruct (H "active" ACTIVE) as (H1 & _ & H3).
  - vm_compute. reflexivity.
  - reflexivity.
  - reflexivity.
  - split; [exact H1|exact H3].
Defined.
